(** * simple_resource_monitor: the GPU sampler of [main.py]

    A shallow embedding of [GPUInfo], [GracefulKiller] and the main loop of
    [main.py], and the properties of the degradation policy proved over it.

    The hardware-management library [pynvml] is the only collaborator.  It
    is modelled as a table of answers ([Nvml]): what each library function
    returns, or the exception it raises, during one construction or one
    tick.  A run of the program is parameterised by one table for the
    constructor and one table per tick. *)

From Stdlib Require Import ZArith List String Bool Lia.
Import ListNotations.
Local Open Scope string_scope.
Local Open Scope list_scope.
Local Open Scope Z_scope.

(** ** Python values *)

(** Exceptions.  Every class below derives from [Exception]; [exn_str] is
    what [str(e)] gives. *)
Inductive exn_class :=
| NVMLError | UnicodeDecodeError | AttributeError
| ZeroDivisionError | IndexError | OtherException.

Record exn := { exn_cls : exn_class; exn_str : string }.

Definition exn_class_eqb (a b : exn_class) : bool :=
  match a, b with
  | NVMLError, NVMLError | UnicodeDecodeError, UnicodeDecodeError
  | AttributeError, AttributeError | ZeroDivisionError, ZeroDivisionError
  | IndexError, IndexError | OtherException, OtherException => true
  | _, _ => false
  end.

(** [isinstance(e, cls)] for the flat hierarchy above. *)
Definition isinstance (e : exn) (c : exn_class) : bool :=
  exn_class_eqb (exn_cls e) c.

Inductive result (A : Type) :=
| Ok (a : A)
| Raise (e : exn).
Arguments Ok {A} a.
Arguments Raise {A} e.

(** A float is kept as the expression that computes it: no claim depends
    on its rounding. *)
Inductive pyfloat :=
| TrueDiv (a b : Z)             (* a / b, with b <> 0 *)
| FMul (x : pyfloat) (k : Z).   (* x * k *)

Inductive number :=
| Int (z : Z)
| Float (x : pyfloat).

(** [a / b] on ints.  The operands are the [c_ulonglong] fields of
    [nvmlMemory_t], so the quotient always fits a float and
    [ZeroDivisionError] is the only exception. *)
Definition truediv (a b : Z) : result pyfloat :=
  if b =? 0 then Raise {| exn_cls := ZeroDivisionError; exn_str := "division by zero" |}
  else Ok (TrueDiv a b).

(** What [nvmlDeviceGetName] hands back: [bytes] in older bindings, [str]
    in newer ones. *)
Inductive pyname :=
| NameBytes (b : list Byte.byte)
| NameStr (s : string).

(** [range(n)] *)
Definition range (n : Z) : list Z := map Z.of_nat (seq 0 (Z.to_nat n)).

(** [l[i]] with Python's negative indices and [IndexError]. *)
Definition getitem {A} (l : list A) (i : Z) : result A :=
  let len := Z.of_nat (List.length l) in
  let j := if i <? 0 then i + len else i in
  if (j <? 0) || (len <=? j) then
    Raise {| exn_cls := IndexError; exn_str := "list index out of range" |}
  else match nth_error l (Z.to_nat j) with
       | Some a => Ok a
       | None => Raise {| exn_cls := IndexError; exn_str := "list index out of range" |}
       end.

(** ** The library *)

Definition handle := Z.

Record nvmlMemory_t := { total : Z; used : Z }.

(** One table of answers.  [nvmlDeviceGetCount] is read twice by the
    constructor (lines 34 and 35), so its answer is indexed by the call. *)
Record Nvml := {
  nvmlInit : result unit;
  nvmlDeviceGetCount : nat -> result Z;
  nvmlDeviceGetHandleByIndex : Z -> result handle;
  nvmlDeviceGetName : handle -> result pyname;
  nvmlSystemGetDriverVersion : result string;
  nvmlDeviceGetUtilizationRates : handle -> result Z;   (* the [.gpu] field *)
  nvmlDeviceGetMemoryInfo : handle -> result nvmlMemory_t;
  nvmlDeviceGetTemperature : handle -> Z -> result Z
}.

Inductive call :=
| CInit
| CDeviceGetCount
| CDeviceGetHandleByIndex (i : Z)
| CDeviceGetName (h : handle)
| CSystemGetDriverVersion
| CDeviceGetUtilizationRates (h : handle)
| CDeviceGetMemoryInfo (h : handle)
| CDeviceGetTemperature (h : handle) (sensor : Z).

(** ** Data model *)

Record Device := { index : Z; name : pyname }.

Record GPUStatus := {
  gpu_utilization : Z;
  gpu_temperature : Z;
  vram_total : Z;
  vram_used : Z;
  vram_used_percent : number
}.

Record Sample := { device_type : string; sample_gpus : list GPUStatus }.

(** The attributes of [GPUInfo].  The scalars are rebound through [self];
    the four lists are the class-level objects, appended to in place. *)
Record GPUInfo := {
  cuda : bool;
  pynvmlLoaded : bool;
  cudaDevicesFound : Z;
  switchGPU : bool;
  switchVRAM : bool;
  switchTemperature : bool;
  gpus : list Device;
  gpusUtilization : list bool;
  gpusVRAM : list bool;
  gpusTemperature : list bool
}.

(** The class body, lines 15-24. *)
Definition GPUInfo_class : GPUInfo := {|
  cuda := false;
  pynvmlLoaded := false;
  cudaDevicesFound := 0;
  switchGPU := true;
  switchVRAM := true;
  switchTemperature := true;
  gpus := [];
  gpusUtilization := [];
  gpusVRAM := [];
  gpusTemperature := []
|}.

(** ** Observable effects *)

Inductive level := INFO | WARNING | ERROR.

Inductive arg :=
| AStr (s : string)
| AInt (z : Z)
| AName (n : pyname)
| AExn (e : exn).

Inductive signum := SIGINT | SIGTERM.

Inductive event :=
| ECall (c : call)
| ELog (l : level) (fmt : string) (args : list arg)
| EPrintStr (prefix : string) (e : exn)      (* print(f"<prefix>{e}") *)
| EPrint (s : Sample)
| ESleep (secs : Z)
| ESignalHandler (s : signum)                (* signal.signal(s, exit_gracefully) *)
| EJsonDump (path encoding : string) (obj : list Sample) (indent : Z).

(** ** Computations

    A computation reads and updates the attributes of the object, emits
    events, and returns or raises.  Attribute updates and events made
    before an exception stay. *)
Definition M (A : Type) : Type := GPUInfo -> result A * GPUInfo * list event.

Definition ret {A} (a : A) : M A := fun s => (Ok a, s, []).

Definition raise {A} (e : exn) : M A := fun s => (Raise e, s, []).

Definition bind {A B} (m : M A) (f : A -> M B) : M B :=
  fun s =>
    match m s with
    | (Ok a, s1, w1) => let '(r, s2, w2) := f a s1 in (r, s2, w1 ++ w2)
    | (Raise e, s1, w1) => (Raise e, s1, w1)
    end.

Notation "x <- m ;; k" := (bind m (fun x => k))
  (at level 61, m at next level, right associativity).
Notation "m ;;; k" := (bind m (fun _ => k))
  (at level 61, right associativity).

(** [try: body / except cls as e: handler e] *)
Definition try_except {A} (body : M A) (cls : exn_class) (handler : exn -> M A) : M A :=
  fun s =>
    match body s with
    | (Raise e, s1, w1) =>
        if isinstance e cls
        then let '(r, s2, w2) := handler e s1 in (r, s2, w1 ++ w2)
        else (Raise e, s1, w1)
    | ok => ok
    end.

(** [try: body / except Exception as e: handler e]: every class of
    [exn_class] is an [Exception]. *)
Definition try_except_Exception {A} (body : M A) (handler : exn -> M A) : M A :=
  fun s =>
    match body s with
    | (Raise e, s1, w1) => let '(r, s2, w2) := handler e s1 in (r, s2, w1 ++ w2)
    | ok => ok
    end.

Definition gets {A} (f : GPUInfo -> A) : M A := fun s => (Ok (f s), s, []).
Definition modify (f : GPUInfo -> GPUInfo) : M unit := fun s => (Ok tt, f s, []).
Definition tell (e : event) : M unit := fun s => (Ok tt, s, [e]).
Definition lift {A} (r : result A) : M A := fun s => (r, s, []).

(** A library call: recorded, then its answer. *)
Definition libcall {A} (c : call) (answer : result A) : M A :=
  tell (ECall c) ;;; lift answer.

Definition logger (l : level) (fmt : string) (args : list arg) : M unit :=
  tell (ELog l fmt args).

(** [for x in xs: acc = body x acc] *)
Fixpoint for_in {A B} (xs : list A) (body : A -> B -> M B) (acc : B) : M B :=
  match xs with
  | [] => ret acc
  | x :: rest => acc' <- body x acc ;; for_in rest body acc'
  end.

(** Attribute assignment. *)
Definition set_pynvmlLoaded (b : bool) (s : GPUInfo) : GPUInfo :=
  {| cuda := cuda s; pynvmlLoaded := b; cudaDevicesFound := cudaDevicesFound s;
     switchGPU := switchGPU s; switchVRAM := switchVRAM s;
     switchTemperature := switchTemperature s; gpus := gpus s;
     gpusUtilization := gpusUtilization s; gpusVRAM := gpusVRAM s;
     gpusTemperature := gpusTemperature s |}.

Definition set_cuda (b : bool) (s : GPUInfo) : GPUInfo :=
  {| cuda := b; pynvmlLoaded := pynvmlLoaded s; cudaDevicesFound := cudaDevicesFound s;
     switchGPU := switchGPU s; switchVRAM := switchVRAM s;
     switchTemperature := switchTemperature s; gpus := gpus s;
     gpusUtilization := gpusUtilization s; gpusVRAM := gpusVRAM s;
     gpusTemperature := gpusTemperature s |}.

Definition set_cudaDevicesFound (n : Z) (s : GPUInfo) : GPUInfo :=
  {| cuda := cuda s; pynvmlLoaded := pynvmlLoaded s; cudaDevicesFound := n;
     switchGPU := switchGPU s; switchVRAM := switchVRAM s;
     switchTemperature := switchTemperature s; gpus := gpus s;
     gpusUtilization := gpusUtilization s; gpusVRAM := gpusVRAM s;
     gpusTemperature := gpusTemperature s |}.

Definition set_switchGPU (b : bool) (s : GPUInfo) : GPUInfo :=
  {| cuda := cuda s; pynvmlLoaded := pynvmlLoaded s; cudaDevicesFound := cudaDevicesFound s;
     switchGPU := b; switchVRAM := switchVRAM s;
     switchTemperature := switchTemperature s; gpus := gpus s;
     gpusUtilization := gpusUtilization s; gpusVRAM := gpusVRAM s;
     gpusTemperature := gpusTemperature s |}.

Definition set_switchTemperature (b : bool) (s : GPUInfo) : GPUInfo :=
  {| cuda := cuda s; pynvmlLoaded := pynvmlLoaded s; cudaDevicesFound := cudaDevicesFound s;
     switchGPU := switchGPU s; switchVRAM := switchVRAM s;
     switchTemperature := b; gpus := gpus s;
     gpusUtilization := gpusUtilization s; gpusVRAM := gpusVRAM s;
     gpusTemperature := gpusTemperature s |}.

(** Lines 56-66: the four appends of one enumerated device. *)
Definition append_device (d : Device) (s : GPUInfo) : GPUInfo :=
  {| cuda := cuda s; pynvmlLoaded := pynvmlLoaded s; cudaDevicesFound := cudaDevicesFound s;
     switchGPU := switchGPU s; switchVRAM := switchVRAM s;
     switchTemperature := switchTemperature s; gpus := gpus s ++ [d];
     gpusUtilization := gpusUtilization s ++ [true];
     gpusVRAM := gpusVRAM s ++ [true];
     gpusTemperature := gpusTemperature s ++ [true] |}.

(** [a and b] on booleans: [b] is evaluated only when [a] is true. *)
Definition and_then (a b : M bool) : M bool :=
  x <- a ;; if x then b else ret false.

(** ** GPUInfo *)

Section Enumeration.

(** [bytes.decode("utf-8", errors="ignore")], Python's codec: with
    [errors="ignore"] it drops what it cannot decode and never raises. *)
Variable utf8_ignore : list Byte.byte -> string.

(** [gpuName.decode("utf-8", errors="ignore")]: a [str] has no [decode]. *)
Definition decode (gpuName : pyname) : result pyname :=
  match gpuName with
  | NameBytes b => Ok (NameStr (utf8_ignore b))
  | NameStr _ =>
      Raise {| exn_cls := AttributeError;
               exn_str := "'str' object has no attribute 'decode'" |}
  end.

(** Lines 40-66: the body of the enumeration loop. *)
Definition enumerate_device (lib : Nvml) (deviceIndex : Z) (_ : unit) : M unit :=
  deviceHandle <- libcall (CDeviceGetHandleByIndex deviceIndex)
                          (nvmlDeviceGetHandleByIndex lib deviceIndex) ;;
  gpuName <-
    try_except
      (gpuName <- libcall (CDeviceGetName deviceHandle)
                          (nvmlDeviceGetName lib deviceHandle) ;;
       try_except (lift (decode gpuName)) AttributeError (fun _ => ret gpuName))
      UnicodeDecodeError
      (fun e =>
         let gpuName := NameStr "Unknown GPU (decoding error)" in
         tell (EPrintStr "UnicodeDecodeError: " e) ;;;
         ret gpuName) ;;
  logger INFO "%s) %s" [AInt deviceIndex; AName gpuName] ;;;
  modify (append_device {| index := deviceIndex; name := gpuName |}).

(** Lines 26-71. *)
Definition GPUInfo__init__ (lib : Nvml) : M unit :=
  try_except
    (libcall CInit (nvmlInit lib) ;;;
     modify (set_pynvmlLoaded true))
    NVMLError
    (fun e =>
       modify (set_pynvmlLoaded false) ;;;
       logger ERROR "Could not init pynvml. %s" [AExn e]) ;;;
  found <- and_then (gets pynvmlLoaded)
                    (n <- libcall CDeviceGetCount (nvmlDeviceGetCount lib 0%nat) ;;
                     ret (0 <? n)) ;;
  if found then
    n <- libcall CDeviceGetCount (nvmlDeviceGetCount lib 1%nat) ;;
    modify (set_cudaDevicesFound n) ;;;
    logger INFO "GPU/s:" [] ;;;
    n <- gets cudaDevicesFound ;;
    for_in (range n) (enumerate_device lib) tt ;;;
    modify (set_cuda true) ;;;
    version <- libcall CSystemGetDriverVersion (nvmlSystemGetDriverVersion lib) ;;
    logger INFO "NVIDIA Driver: %s" [AStr version]
  else
    logger WARNING "No GPU with CUDA detected." [].

End Enumeration.

(** Lines 87-108: the utilization of one device. *)
Definition query_utilization (lib : Nvml) (deviceIndex : Z) (deviceHandle : handle) : M Z :=
  let gpuUtilization := 0 in
  enabled <- and_then (gets switchGPU)
                      (flags <- gets gpusUtilization ;; lift (getitem flags deviceIndex)) ;;
  if enabled then
    try_except_Exception
      (libcall (CDeviceGetUtilizationRates deviceHandle)
               (nvmlDeviceGetUtilizationRates lib deviceHandle))
      (fun e =>
         (if String.eqb (exn_str e) "Unknown Error"
          then logger ERROR "For some reason, pynvml is not working in a laptop with only battery, try to connect and turn on the monitor" []
          else logger ERROR "Could not get GPU utilization. %s" [AExn e]) ;;;
         logger ERROR "Monitor of GPU is turning off (not on UI!)" [] ;;;
         modify (set_switchGPU false) ;;;
         ret gpuUtilization)
  else ret gpuUtilization.

(** Lines 88-90 and 111-116: used, total and percent of one device. *)
Definition query_vram (lib : Nvml) (deviceIndex : Z) (deviceHandle : handle)
  : M (Z * Z * number) :=
  enabled <- and_then (gets switchVRAM)
                      (flags <- gets gpusVRAM ;; lift (getitem flags deviceIndex)) ;;
  if enabled then
    memory <- libcall (CDeviceGetMemoryInfo deviceHandle)
                      (nvmlDeviceGetMemoryInfo lib deviceHandle) ;;
    let vramUsed := used memory in
    let vramTotal := total memory in
    q <- lift (truediv vramUsed vramTotal) ;;
    ret (vramUsed, vramTotal, Float (FMul q 100))
  else ret (0, 0, Int 0).

(** Lines 91 and 119-129: the temperature of one device. *)
Definition query_temperature (lib : Nvml) (deviceIndex : Z) (deviceHandle : handle) : M Z :=
  let gpuTemperature := 0 in
  enabled <- and_then (gets switchTemperature)
                      (flags <- gets gpusTemperature ;; lift (getitem flags deviceIndex)) ;;
  if enabled then
    try_except_Exception
      (libcall (CDeviceGetTemperature deviceHandle 0)
               (nvmlDeviceGetTemperature lib deviceHandle 0))
      (fun e =>
         logger ERROR "Could not get GPU temperature. Turning off this feature. %s"
                [AStr (exn_str e)] ;;;
         modify (set_switchTemperature false) ;;;
         ret gpuTemperature)
  else ret gpuTemperature.

(** Lines 85-139: the body of the sampling loop; [gpus] is the local list. *)
Definition getStatus_device (lib : Nvml) (deviceIndex : Z) (gpus : list GPUStatus)
  : M (list GPUStatus) :=
  deviceHandle <- libcall (CDeviceGetHandleByIndex deviceIndex)
                          (nvmlDeviceGetHandleByIndex lib deviceIndex) ;;
  gpuUtilization <- query_utilization lib deviceIndex deviceHandle ;;
  vram <- query_vram lib deviceIndex deviceHandle ;;
  let '(vramUsed, vramTotal, vramPercent) := vram in
  gpuTemperature <- query_temperature lib deviceIndex deviceHandle ;;
  ret (gpus ++ [ {| gpu_utilization := gpuUtilization;
                    gpu_temperature := gpuTemperature;
                    vram_total := vramTotal;
                    vram_used := vramUsed;
                    vram_used_percent := vramPercent |} ]).

(** Lines 73-144.  The [-1] of lines 74-78 is rebound to [0] on entering
    the loop body and read nowhere else. *)
Definition getStatus (lib : Nvml) : M Sample :=
  let gpuType := "" in
  let gpus := [] in
  enabled <- and_then (gets pynvmlLoaded) (gets cuda) ;;
  gpus <- (if enabled then
             n <- gets cudaDevicesFound ;;
             for_in (range n) (getStatus_device lib) gpus
           else ret gpus) ;;
  ret {| device_type := gpuType; sample_gpus := gpus |}.

(** ** GracefulKiller *)

Record GracefulKiller := { kill_now : bool }.

Definition GracefulKiller_class : GracefulKiller := {| kill_now := false |}.

Definition GracefulKiller__init__ : M GracefulKiller :=
  tell (ESignalHandler SIGINT) ;;;
  tell (ESignalHandler SIGTERM) ;;;
  ret GracefulKiller_class.

Definition exit_gracefully (self : GracefulKiller) : GracefulKiller :=
  {| kill_now := true |}.

(** ** The main program

    [signals t] tells whether a SIGINT or SIGTERM was delivered, and so
    [exit_gracefully] run, since the loop condition was last evaluated
    (for [t = 0]: since the handlers were installed).  [libs t] is the
    library during tick [t].  The loop may never end, so it runs on fuel:
    [None] means it is still running when the fuel is spent. *)
Fixpoint main_loop (libs : nat -> Nvml) (signals : nat -> bool) (fuel tick : nat)
    (killer : GracefulKiller) (results : list Sample) : M (option (list Sample)) :=
  match fuel with
  | O => ret None
  | S fuel' =>
      let killer := if signals tick then exit_gracefully killer else killer in
      if kill_now killer then ret (Some results)
      else
        status <- getStatus (libs tick) ;;
        let results := results ++ [status] in
        tell (EPrint status) ;;;
        tell (ESleep 1) ;;;
        main_loop libs signals fuel' (S tick) killer results
  end.

(** Lines 158-170. *)
Definition main (utf8_ignore : list Byte.byte -> string) (lib0 : Nvml)
    (libs : nat -> Nvml) (signals : nat -> bool) (fuel : nat) : M (option unit) :=
  killer <- GracefulKiller__init__ ;;
  GPUInfo__init__ utf8_ignore lib0 ;;;
  let results := [] in
  r <- main_loop libs signals fuel 0%nat killer results ;;
  match r with
  | Some results => tell (EJsonDump "status.json" "utf-8" results 4) ;;; ret (Some tt)
  | None => ret None
  end.

(** ** Executions, tick by tick

    What the main loop does with the sampler, without the bookkeeping: the
    outcome of each call of [getStatus], the object after it and the events
    of that tick.  An uncaught exception ends the execution. *)
Record Tick := { outcome : result Sample; after : GPUInfo; emitted : list event }.

Fixpoint run (libs : nat -> Nvml) (t n : nat) (self : GPUInfo) : list Tick :=
  match n with
  | O => []
  | S n' =>
      let '(r, self', w) := getStatus (libs t) self in
      {| outcome := r; after := self'; emitted := w |} ::
      match r with
      | Ok _ => run libs (S t) n' self'
      | Raise _ => []
      end
  end.

(** * The vocabulary of the properties *)

(** ** States, events and entries *)

(** What [getStatus] may do to the object: nothing but switch the
    utilization or the temperature off. *)
Definition degrades (s s' : GPUInfo) : Prop :=
  cuda s' = cuda s /\ pynvmlLoaded s' = pynvmlLoaded s /\
  cudaDevicesFound s' = cudaDevicesFound s /\
  switchVRAM s' = switchVRAM s /\ gpus s' = gpus s /\
  gpusUtilization s' = gpusUtilization s /\ gpusVRAM s' = gpusVRAM s /\
  gpusTemperature s' = gpusTemperature s /\
  (switchGPU s' = true -> switchGPU s = true) /\
  (switchTemperature s' = true -> switchTemperature s = true).

(** The utilization and temperature queries among the events. *)
Definition util_calls (w : list event) : list handle :=
  flat_map (fun ev => match ev with
                      | ECall (CDeviceGetUtilizationRates h) => [h]
                      | _ => []
                      end) w.

Definition temp_calls (w : list event) : list handle :=
  flat_map (fun ev => match ev with
                      | ECall (CDeviceGetTemperature h _) => [h]
                      | _ => []
                      end) w.

Definition zero_division : exn :=
  {| exn_cls := ZeroDivisionError; exn_str := "division by zero" |}.

(** The exception the VRAM block of lines 111-116 ends with, if any. *)
Definition vram_failure (lib : Nvml) (h : handle) : option exn :=
  match nvmlDeviceGetMemoryInfo lib h with
  | Raise e => Some e
  | Ok m => if total m =? 0 then Some zero_division else None
  end.

Ltac unfold_device :=
  unfold getStatus_device, query_utilization, query_vram, query_temperature,
    and_then, libcall, logger, try_except_Exception, bind, gets, lift, tell,
    modify, ret, truediv.

(** Case analysis on every test the unfolded code makes, innermost first. *)
Ltac case_split :=
  repeat (cbv beta iota zeta;
    match goal with
    | |- context [match ?x with _ => _ end] =>
        lazymatch x with
        | context [match _ with _ => _ end] => fail
        | _ => destruct x eqn:?
        end
    end); cbv beta iota zeta.

(** What the constructor leaves and [getStatus] keeps: the VRAM switch on,
    and every per-device flag present and on. *)
Definition well_formed (s : GPUInfo) : Prop :=
  switchVRAM s = true /\
  cudaDevicesFound s <= Z.of_nat (List.length (gpusUtilization s)) /\
  cudaDevicesFound s <= Z.of_nat (List.length (gpusVRAM s)) /\
  cudaDevicesFound s <= Z.of_nat (List.length (gpusTemperature s)) /\
  Forall (eq true) (gpusUtilization s) /\
  Forall (eq true) (gpusVRAM s) /\
  Forall (eq true) (gpusTemperature s).

(** The loop of lines 84-139. *)
Definition sample_loop (lib : Nvml) : M (list GPUStatus) :=
  fun s => for_in (range (cudaDevicesFound s)) (getStatus_device lib) [] s.

(** A metric that is off at the start of the loop is not queried, and every
    entry carries the sentinel. *)
Definition util_off (s0 : GPUInfo) (r : result (list GPUStatus)) (w : list event) : Prop :=
  switchGPU s0 = false ->
  util_calls w = [] /\
  forall acc, r = Ok acc -> Forall (fun e => gpu_utilization e = 0) acc.

Definition temp_off (s0 : GPUInfo) (r : result (list GPUStatus)) (w : list event) : Prop :=
  switchTemperature s0 = false ->
  temp_calls w = [] /\
  forall acc, r = Ok acc -> Forall (fun e => gpu_temperature e = 0) acc.

(** Of the queries made for a metric during one loop, only the last can
    have failed, and then the metric is off. *)
Definition last_failed (ok : handle -> Prop) (calls : list handle) (switch : bool) : Prop :=
  Forall ok calls \/
  switch = false /\ exists hs h, calls = hs ++ [h] /\ Forall ok hs /\ ~ ok h.

Definition util_ok (lib : Nvml) (h : handle) : Prop :=
  exists v, nvmlDeviceGetUtilizationRates lib h = Ok v.

Definition temp_ok (lib : Nvml) (h : handle) : Prop :=
  exists v, nvmlDeviceGetTemperature lib h 0 = Ok v.

(** The device whose utilization query the library refuses. *)
Definition util_raises (lib : Nvml) (j : Z) : Prop :=
  exists h e, nvmlDeviceGetHandleByIndex lib j = Ok h /\
              nvmlDeviceGetUtilizationRates lib h = Raise e.

(** What the entry of device [i] holds when the loop returns. *)
Definition entry_of (lib : Nvml) (i : Z) (e : GPUStatus) : Prop :=
  exists h m,
    nvmlDeviceGetHandleByIndex lib i = Ok h /\
    nvmlDeviceGetMemoryInfo lib h = Ok m /\ total m <> 0 /\
    vram_used e = used m /\ vram_total e = total m /\
    vram_used_percent e = Float (FMul (TrueDiv (used m) (total m)) 100) /\
    (gpu_utilization e = 0 \/
     nvmlDeviceGetUtilizationRates lib h = Ok (gpu_utilization e) /\
     forall j, 0 <= j <= i -> ~ util_raises lib j) /\
    (gpu_temperature e = 0 \/
     nvmlDeviceGetTemperature lib h 0 = Ok (gpu_temperature e)).

Definition sampling (s : GPUInfo) : Prop := pynvmlLoaded s = true /\ cuda s = true.

(** The name lines 41-52 settle on, given the handle. *)
Definition gpu_name (utf8_ignore : list Byte.byte -> string) (lib : Nvml) (h : handle)
  : result pyname :=
  match nvmlDeviceGetName lib h with
  | Ok (NameBytes b) => Ok (NameStr (utf8_ignore b))
  | Ok (NameStr s) => Ok (NameStr s)
  | Raise e =>
      if isinstance e UnicodeDecodeError
      then Ok (NameStr "Unknown GPU (decoding error)")
      else Raise e
  end.

Definition enumerated (utf8_ignore : list Byte.byte -> string) (lib : Nvml) (i : Z)
    (dev : Device) : Prop :=
  index dev = i /\
  exists h, nvmlDeviceGetHandleByIndex lib i = Ok h /\
            gpu_name utf8_ignore lib h = Ok (name dev).

(** The constructor appends the devices [ds] and a flag for each, and
    leaves the switches alone. *)
Definition extends (s s' : GPUInfo) (ds : list Device) : Prop :=
  gpus s' = gpus s ++ ds /\
  gpusUtilization s' = gpusUtilization s ++ repeat true (List.length ds) /\
  gpusVRAM s' = gpusVRAM s ++ repeat true (List.length ds) /\
  gpusTemperature s' = gpusTemperature s ++ repeat true (List.length ds) /\
  switchGPU s' = switchGPU s /\ switchVRAM s' = switchVRAM s /\
  switchTemperature s' = switchTemperature s.

(** The files written: path, encoding, object and indent of each
    [json.dump]. *)
Definition dumps (w : list event) : list (string * string * list Sample * Z) :=
  flat_map (fun ev => match ev with
                      | EJsonDump path enc obj indent => [(path, enc, obj, indent)]
                      | _ => []
                      end) w.

(** The samples an execution returned, and the exception that ended it. *)
Fixpoint samples_of (ticks : list Tick) : list Sample :=
  match ticks with
  | [] => []
  | tk :: rest =>
      match outcome tk with
      | Ok smp => smp :: samples_of rest
      | Raise _ => []
      end
  end.

Fixpoint failure_of (ticks : list Tick) : option exn :=
  match ticks with
  | [] => None
  | tk :: rest =>
      match outcome tk with
      | Ok _ => failure_of rest
      | Raise e => Some e
      end
  end.

(** No flag that is off is on afterwards. *)
Definition never_reenabled (s s' : GPUInfo) : Prop :=
  (switchGPU s = false -> switchGPU s' = false) /\
  (switchVRAM s = false -> switchVRAM s' = false) /\
  (switchTemperature s = false -> switchTemperature s' = false) /\
  (forall i, nth_error (gpusUtilization s) i = Some false ->
             nth_error (gpusUtilization s') i = Some false) /\
  (forall i, nth_error (gpusVRAM s) i = Some false ->
             nth_error (gpusVRAM s') i = Some false) /\
  (forall i, nth_error (gpusTemperature s) i = Some false ->
             nth_error (gpusTemperature s') i = Some false).

Definition empty_sample : Sample := {| device_type := ""; sample_gpus := [] |}.

(** ** A machine with two devices, for concrete runs *)

(** Stands for Python's codec on the concrete runs. *)
Definition demo_decode (b : list Byte.byte) : string := string_of_list_byte b.

(** Handles 100 and 101; the name of the second device cannot be decoded.
    [util0] is the answer to the utilization query of the first device,
    [mem1] the answer to the memory query of the second. *)
Definition demo_lib (init : result unit) (util0 : result Z)
    (mem1 : result nvmlMemory_t) : Nvml := {|
  nvmlInit := init;
  nvmlDeviceGetCount := fun _ => Ok 2;
  nvmlDeviceGetHandleByIndex := fun i => Ok (100 + i);
  nvmlDeviceGetName := fun h =>
    if h =? 100 then Ok (NameStr "GPU 0")
    else Raise {| exn_cls := UnicodeDecodeError;
                  exn_str := "'utf-8' codec can't decode byte 0xff" |};
  nvmlSystemGetDriverVersion := Ok "535.104";
  nvmlDeviceGetUtilizationRates := fun h => if h =? 100 then util0 else Ok 50;
  nvmlDeviceGetMemoryInfo := fun h =>
    if h =? 100 then Ok {| total := 8; used := 2 |} else mem1;
  nvmlDeviceGetTemperature := fun h _ => Ok 60
|}.

Definition demo_ok : Nvml :=
  demo_lib (Ok tt) (Ok 30) (Ok {| total := 16; used := 4 |}).

Definition unknown_error : exn := {| exn_cls := NVMLError; exn_str := "Unknown Error" |}.

Definition demo_util_fails : Nvml :=
  demo_lib (Ok tt) (Raise unknown_error) (Ok {| total := 16; used := 4 |}).

Definition demo_vram_fails : Nvml :=
  demo_lib (Ok tt) (Ok 30) (Raise {| exn_cls := NVMLError; exn_str := "GPU is lost" |}).

Definition demo_vram_zero : Nvml :=
  demo_lib (Ok tt) (Ok 30) (Ok {| total := 0; used := 0 |}).

Definition demo_no_driver : Nvml :=
  demo_lib (Raise {| exn_cls := NVMLError; exn_str := "Driver Not Loaded" |})
           (Ok 30) (Ok {| total := 16; used := 4 |}).

(** The utilization query of the first device fails on the third tick
    only. *)
Definition demo_libs (t : nat) : Nvml :=
  if Nat.eqb t 2 then demo_util_fails else demo_ok.

(** The object the constructor leaves on that machine. *)
Definition demo_self : GPUInfo :=
  snd (fst (GPUInfo__init__ demo_decode demo_ok GPUInfo_class)).

(** The utilization column of an execution, tick by tick. *)
Definition utilization_of (ticks : list Tick) : list (list Z) :=
  map (fun smp => map gpu_utilization (sample_gpus smp)) (samples_of ticks).

Definition demo_signals (t : nat) : bool := Nat.eqb t 4.

(** The memory query of the second device fails on the second tick. *)
Definition demo_libs_vram (t : nat) : Nvml :=
  if Nat.eqb t 1 then demo_vram_fails else demo_util_fails.

(** ** Calls, console output and failures *)

(** The library calls among the events, in order. *)
Definition calls (w : list event) : list call :=
  flat_map (fun ev => match ev with ECall c => [c] | _ => [] end) w.

(** What [print(status)] wrote and what [time.sleep] was asked for. *)
Definition prints (w : list event) : list Sample :=
  flat_map (fun ev => match ev with EPrint smp => [smp] | _ => [] end) w.

Definition sleeps (w : list event) : list Z :=
  flat_map (fun ev => match ev with ESleep secs => [secs] | _ => [] end) w.

(** The events [GPUInfo] can emit: library calls, log lines and the print
    of line 52. *)
Definition sampler_event (ev : event) : Prop :=
  match ev with
  | ECall _ | ELog _ _ _ | EPrintStr _ _ => True
  | EPrint _ | ESleep _ | ESignalHandler _ | EJsonDump _ _ _ _ => False
  end.

(** The exception device [i] ends a tick with, if any: the one of its
    handle lookup, else the one of its VRAM block. *)
Definition device_failure (lib : Nvml) (i : Z) : option exn :=
  match nvmlDeviceGetHandleByIndex lib i with
  | Raise e => Some e
  | Ok h => vram_failure lib h
  end.

Fixpoint first_failure (fails : Z -> option exn) (idxs : list Z) : option exn :=
  match idxs with
  | [] => None
  | i :: rest =>
      match fails i with
      | Some e => Some e
      | None => first_failure fails rest
      end
  end.

(** The exception device [i] ends the enumeration with, if any. *)
Definition enum_failure (utf8_ignore : list Byte.byte -> string) (lib : Nvml) (i : Z)
  : option exn :=
  match nvmlDeviceGetHandleByIndex lib i with
  | Raise e => Some e
  | Ok h =>
      match gpu_name utf8_ignore lib h with
      | Raise e => Some e
      | Ok _ => None
      end
  end.

(** The device whose temperature query the library refuses. *)
Definition temp_raises (lib : Nvml) (j : Z) : Prop :=
  exists h e, nvmlDeviceGetHandleByIndex lib j = Ok h /\
              nvmlDeviceGetTemperature lib h 0 = Raise e.

(** The log lines of lines 107 and 125-128. *)
Definition gpu_off_notice (ev : event) : bool :=
  match ev with
  | ELog ERROR fmt [] => String.eqb fmt "Monitor of GPU is turning off (not on UI!)"
  | _ => false
  end.

Definition temp_off_notice (ev : event) : bool :=
  match ev with
  | ELog ERROR fmt [AStr _] =>
      String.eqb fmt "Could not get GPU temperature. Turning off this feature. %s"
  | _ => false
  end.

(** The calls of one device on a tick where everything is on. *)
Definition device_calls (lib : Nvml) (i : Z) : list call :=
  match nvmlDeviceGetHandleByIndex lib i with
  | Ok h => [CDeviceGetHandleByIndex i; CDeviceGetUtilizationRates h;
             CDeviceGetMemoryInfo h; CDeviceGetTemperature h 0]
  | Raise _ => [CDeviceGetHandleByIndex i]
  end.

(** The entry of device [i] when every one of its queries answers. *)
Definition answers (lib : Nvml) (i : Z) (e : GPUStatus) : Prop :=
  exists h u m t,
    nvmlDeviceGetHandleByIndex lib i = Ok h /\
    nvmlDeviceGetUtilizationRates lib h = Ok u /\
    nvmlDeviceGetMemoryInfo lib h = Ok m /\ total m <> 0 /\
    nvmlDeviceGetTemperature lib h 0 = Ok t /\
    e = {| gpu_utilization := u; gpu_temperature := t;
           vram_total := total m; vram_used := used m;
           vram_used_percent := Float (FMul (TrueDiv (used m) (total m)) 100) |}.

(** A further [GPUInfo()] in the same process: its scalar attributes are
    read from the class body until it rebinds them, the four lists are the
    class-level objects as the earlier instance [shared] left them. *)
Definition fresh_instance (shared : GPUInfo) : GPUInfo :=
  {| cuda := cuda GPUInfo_class; pynvmlLoaded := pynvmlLoaded GPUInfo_class;
     cudaDevicesFound := cudaDevicesFound GPUInfo_class;
     switchGPU := switchGPU GPUInfo_class; switchVRAM := switchVRAM GPUInfo_class;
     switchTemperature := switchTemperature GPUInfo_class;
     gpus := gpus shared; gpusUtilization := gpusUtilization shared;
     gpusVRAM := gpusVRAM shared; gpusTemperature := gpusTemperature shared |}.

(** The two messages of lines 100-105. *)
Definition battery_hint : event :=
  ELog ERROR "For some reason, pynvml is not working in a laptop with only battery, try to connect and turn on the monitor" [].

Definition utilization_error (e : exn) : event :=
  ELog ERROR "Could not get GPU utilization. %s" [AExn e].

(** All the events of an execution. *)
Definition events_of (ticks : list Tick) : list event := flat_map emitted ticks.

(** * Reasoning about computations *)

Lemma bind_inv {A B} (m : M A) (f : A -> M B) s r s' w :
  bind m f s = (r, s', w) ->
  (exists a s1 w1 w2,
      m s = (Ok a, s1, w1) /\ f a s1 = (r, s', w2) /\ w = w1 ++ w2)
  \/ (exists e, m s = (Raise e, s', w) /\ r = Raise e).
Proof.
  unfold bind. destruct (m s) as [[[a|e] s1] w1].
  - destruct (f a s1) as [[r2 s2] w2] eqn:Hf. intros H; inversion H; subst.
    left. exists a, s1, w1, w2. auto.
  - intros H; inversion H; subst. right. exists e. auto.
Qed.

Lemma bind_ok {A B} (m : M A) (f : A -> M B) s a s1 w1 :
  m s = (Ok a, s1, w1) ->
  bind m f s = (let '(r, s2, w2) := f a s1 in (r, s2, w1 ++ w2)).
Proof. unfold bind. intros ->. reflexivity. Qed.

Lemma bind_raise {A B} (m : M A) (f : A -> M B) s e s1 w1 :
  m s = (Raise e, s1, w1) -> bind m f s = (Raise e, s1, w1).
Proof. unfold bind. intros ->. reflexivity. Qed.

(** The rule of the [for] loop: [P done acc s w] holds after the elements
    [done], with the local accumulator [acc], the object [s] and the events
    [w] so far; [Q] holds when an iteration raises. *)
Section ForRule.

Context {A B : Type} (body : A -> B -> M B).
Variable P : list A -> B -> GPUInfo -> list event -> Prop.
Variable Q : exn -> GPUInfo -> list event -> Prop.
Variable xs : list A.

Hypothesis step :
  forall done x rest acc s w r s' w',
    xs = done ++ x :: rest -> P done acc s w ->
    body x acc s = (r, s', w') ->
    match r with
    | Ok acc' => P (done ++ [x]) acc' s' (w ++ w')
    | Raise e => Q e s' (w ++ w')
    end.

Lemma for_in_rule_from :
  forall rest done acc s w r s' w',
    xs = done ++ rest -> P done acc s w ->
    for_in rest body acc s = (r, s', w') ->
    match r with
    | Ok acc' => P xs acc' s' (w ++ w')
    | Raise e => Q e s' (w ++ w')
    end.
Proof.
  induction rest as [|x rest IH]; intros done acc s w r s' w' Hxs HP; simpl.
  - unfold ret. intros H; inversion H; subst. now rewrite !app_nil_r.
  - intros H. apply bind_inv in H.
    destruct H as [(acc1 & s1 & w1 & w2 & Hb & Hf & ->)|(e & Hb & ->)].
    + pose proof (step _ _ _ _ _ _ _ _ _ Hxs HP Hb) as Hx. simpl in Hx.
      assert (Hxs' : xs = (done ++ [x]) ++ rest)
        by (rewrite <- app_assoc; exact Hxs).
      pose proof (IH _ _ _ _ _ _ _ Hxs' Hx Hf) as Hr.
      rewrite <- app_assoc in Hr. exact Hr.
    + exact (step _ _ _ _ _ _ _ _ _ Hxs HP Hb).
Qed.

Lemma for_in_rule acc s r s' w :
  P [] acc s [] -> for_in xs body acc s = (r, s', w) ->
  match r with
  | Ok acc' => P xs acc' s' w
  | Raise e => Q e s' w
  end.
Proof.
  intros HP H. exact (for_in_rule_from xs [] acc s [] r s' w eq_refl HP H).
Qed.

End ForRule.

Lemma seq_split (a k : nat) done x rest :
  map Z.of_nat (seq a k) = done ++ x :: rest ->
  x = Z.of_nat (a + List.length done) /\ (List.length done < k)%nat /\
  done = map Z.of_nat (seq a (List.length done)).
Proof.
  revert a k. induction done as [|d done IH]; intros a k H;
    destruct k as [|k]; simpl in H; try discriminate.
  - inversion H; subst. simpl. repeat split; [f_equal; lia|lia].
  - inversion H as [[Hd Hrest]]. destruct (IH _ _ Hrest) as (Hx & Hk & Hdone).
    simpl. repeat split; [rewrite Hx; f_equal; lia|lia|].
    f_equal. exact Hdone.
Qed.

Lemma range_split (n : Z) done x rest :
  range n = done ++ x :: rest ->
  x = Z.of_nat (List.length done) /\ 0 <= x < n /\ done = range x.
Proof.
  unfold range. intros H. destruct (seq_split _ _ _ _ _ H) as (Hx & Hk & Hdone).
  simpl in Hx. split; [exact Hx|]. split; [lia|].
  rewrite Hx, Nat2Z.id. exact Hdone.
Qed.

Lemma in_range (n i : Z) : In i (range n) <-> 0 <= i < n.
Proof.
  unfold range. rewrite in_map_iff. split.
  - intros (k & <- & Hk). apply in_seq in Hk. lia.
  - intros H. exists (Z.to_nat i). split; [lia|]. apply in_seq. lia.
Qed.

Lemma getitem_nth {A} (l : list A) (i : Z) (a : A) :
  0 <= i -> nth_error l (Z.to_nat i) = Some a -> getitem l i = Ok a.
Proof.
  intros Hi Hn. unfold getitem.
  assert (Hlt : (Z.to_nat i < List.length l)%nat)
    by (apply nth_error_Some; congruence).
  cbv zeta.
  assert (E1 : (i <? 0) = false) by (apply Z.ltb_ge; lia).
  assert (E2 : (Z.of_nat (List.length l) <=? i) = false) by (apply Z.leb_gt; lia).
  rewrite !E1, E2. simpl. now rewrite Hn.
Qed.

Lemma getitem_all_true (l : list bool) (i : Z) :
  Forall (eq true) l -> 0 <= i < Z.of_nat (List.length l) -> getitem l i = Ok true.
Proof.
  intros Hall Hi.
  destruct (nth_error l (Z.to_nat i)) as [b|] eqn:Hn.
  - rewrite Forall_forall in Hall.
    rewrite <- (Hall b (nth_error_In _ _ Hn)) in Hn. apply getitem_nth; [lia|exact Hn].
  - apply nth_error_None in Hn. lia.
Qed.

(** * One device of one tick *)

Lemma degrades_refl s : degrades s s.
Proof. unfold degrades; intuition. Qed.

Lemma degrades_trans s1 s2 s3 : degrades s1 s2 -> degrades s2 s3 -> degrades s1 s3.
Proof. unfold degrades; intuition congruence. Qed.

Lemma util_calls_app w1 w2 : util_calls (w1 ++ w2) = util_calls w1 ++ util_calls w2.
Proof. apply flat_map_app. Qed.

Lemma temp_calls_app w1 w2 : temp_calls (w1 ++ w2) = temp_calls w1 ++ temp_calls w2.
Proof. apply flat_map_app. Qed.

Lemma getStatus_device_degrades lib i acc s :
  let '(_, s', _) := getStatus_device lib i acc s in degrades s s'.
Proof.
  unfold_device. case_split.
  all: unfold degrades; simpl; intuition congruence.
Qed.

(** The entry a device appends, field by field. *)
Lemma getStatus_device_entry lib i acc s :
  let '(r, s', _) := getStatus_device lib i acc s in
  forall acc', r = Ok acc' ->
  exists h e,
    nvmlDeviceGetHandleByIndex lib i = Ok h /\ acc' = acc ++ [e] /\
    (gpu_utilization e = 0 \/
     switchGPU s' = true /\
     nvmlDeviceGetUtilizationRates lib h = Ok (gpu_utilization e)) /\
    (gpu_temperature e = 0 \/
     switchTemperature s' = true /\
     nvmlDeviceGetTemperature lib h 0 = Ok (gpu_temperature e)) /\
    (switchVRAM s = true -> getitem (gpusVRAM s) i = Ok true ->
     exists m, nvmlDeviceGetMemoryInfo lib h = Ok m /\ total m <> 0 /\
               vram_used e = used m /\ vram_total e = total m /\
               vram_used_percent e = Float (FMul (TrueDiv (used m) (total m)) 100)).
Proof.
  unfold_device. case_split.
  all: intros acc' Hacc; inversion Hacc; subst; clear Hacc.
  all: eexists; eexists; split; [reflexivity|]; split; [reflexivity|]; simpl.
  all: repeat split; try (left; reflexivity); try (right; split; [assumption || reflexivity|assumption]).
  all: try (intros; simpl in *; congruence).
  all: intros _ _; eexists; split; [eassumption|]; repeat split;
       match goal with H : (_ =? 0) = false |- _ => apply Z.eqb_neq in H; exact H end.
Qed.

(** A failed query switches the metric off, provided the device's flag is
    on. *)
Lemma getStatus_device_util_fails lib i acc s h e :
  nvmlDeviceGetHandleByIndex lib i = Ok h ->
  nvmlDeviceGetUtilizationRates lib h = Raise e ->
  getitem (gpusUtilization s) i = Ok true ->
  let '(r, s', _) := getStatus_device lib i acc s in
  switchGPU s' = false \/ exists e', r = Raise e'.
Proof.
  intros Hh Hu Hg. unfold_device. rewrite Hh. case_split.
  all: simpl in *; try (left; first [reflexivity|assumption]); try congruence.
  all: right; eexists; reflexivity.
Qed.

(** The queries one device makes for the two guarded metrics. *)
Lemma getStatus_device_util_calls lib i acc s :
  let '(_, s', w) := getStatus_device lib i acc s in
  util_calls w = [] \/
  exists h, nvmlDeviceGetHandleByIndex lib i = Ok h /\ util_calls w = [h] /\
            switchGPU s = true /\
            ((exists v, nvmlDeviceGetUtilizationRates lib h = Ok v) \/
             (exists e, nvmlDeviceGetUtilizationRates lib h = Raise e) /\
             switchGPU s' = false).
Proof.
  unfold_device. case_split.
  all: simpl; try (left; reflexivity).
  all: simpl in *; right; eexists; split; [reflexivity|]; split; [reflexivity|];
       split; [first [reflexivity|assumption]|].
  all: try (left; eexists; eassumption).
  all: right; split; [eexists; eassumption|reflexivity].
Qed.

Lemma getStatus_device_temp_calls lib i acc s :
  let '(_, s', w) := getStatus_device lib i acc s in
  temp_calls w = [] \/
  exists h, nvmlDeviceGetHandleByIndex lib i = Ok h /\ temp_calls w = [h] /\
            switchTemperature s = true /\
            ((exists v, nvmlDeviceGetTemperature lib h 0 = Ok v) \/
             (exists e, nvmlDeviceGetTemperature lib h 0 = Raise e) /\
             switchTemperature s' = false).
Proof.
  unfold_device. case_split.
  all: simpl; try (left; reflexivity).
  all: simpl in *; right; eexists; split; [reflexivity|]; split; [reflexivity|];
       split; [first [reflexivity|assumption]|].
  all: try (left; eexists; eassumption).
  all: right; split; [eexists; eassumption|reflexivity].
Qed.

(** Whether a device returns is decided by the handle lookup and the VRAM
    block alone, when the per-device flags can be read. *)
Lemma getStatus_device_outcome lib i acc s h :
  nvmlDeviceGetHandleByIndex lib i = Ok h ->
  getitem (gpusUtilization s) i = Ok true ->
  getitem (gpusVRAM s) i = Ok true ->
  getitem (gpusTemperature s) i = Ok true ->
  switchVRAM s = true ->
  let '(r, _, _) := getStatus_device lib i acc s in
  match vram_failure lib h with
  | Some e => r = Raise e
  | None => exists acc', r = Ok acc'
  end.
Proof.
  intros Hh Hu Hv Ht Hsw. unfold vram_failure. unfold_device.
  rewrite Hh. case_split.
  all: simpl in *; try reflexivity; try (eexists; reflexivity); congruence.
Qed.

(** * One tick *)

Lemma well_formed_degrades s s' : well_formed s -> degrades s s' -> well_formed s'.
Proof.
  unfold well_formed, degrades.
  intros (H1 & H2 & H3 & H4 & H5 & H6 & H7) (_ & _ & E1 & E2 & _ & E3 & E4 & E5 & _).
  rewrite E1, E2, E3, E4, E5. auto 10.
Qed.

Lemma well_formed_flags s i :
  well_formed s -> 0 <= i < cudaDevicesFound s ->
  getitem (gpusUtilization s) i = Ok true /\
  getitem (gpusVRAM s) i = Ok true /\
  getitem (gpusTemperature s) i = Ok true.
Proof.
  intros (_ & H2 & H3 & H4 & H5 & H6 & H7) Hi.
  repeat split; apply getitem_all_true; auto; lia.
Qed.

Lemma getStatus_eq lib s :
  getStatus lib s =
  if pynvmlLoaded s && cuda s then
    match sample_loop lib s with
    | (Ok gpus, s', w) => (Ok {| device_type := ""; sample_gpus := gpus |}, s', w)
    | (Raise e, s', w) => (Raise e, s', w)
    end
  else (Ok {| device_type := ""; sample_gpus := [] |}, s, []).
Proof.
  unfold getStatus, sample_loop, and_then, bind, gets, ret.
  destruct (pynvmlLoaded s); simpl; [|reflexivity].
  destruct (cuda s); simpl; [|reflexivity].
  destruct (for_in _ _ _ s) as [[[acc|e] s'] w]; simpl; [|reflexivity].
  now rewrite app_nil_r.
Qed.

Ltac device_step lib x acc s E :=
  pose proof (getStatus_device_degrades lib x acc s) as Hdeg;
  pose proof (getStatus_device_entry lib x acc s) as Hentry;
  pose proof (getStatus_device_util_calls lib x acc s) as Hucalls;
  pose proof (getStatus_device_temp_calls lib x acc s) as Htcalls;
  rewrite E in Hdeg, Hentry, Hucalls, Htcalls.

Lemma sample_loop_degrades lib s :
  let '(_, s', _) := sample_loop lib s in degrades s s'.
Proof.
  destruct (sample_loop lib s) as [[r s'] w] eqn:E. unfold sample_loop in E.
  pose proof (for_in_rule (getStatus_device lib)
                (fun _ _ s' _ => degrades s s') (fun _ s' _ => degrades s s')
                (range (cudaDevicesFound s))) as R.
  cbv beta in R.
  assert (H : match r with Ok _ => degrades s s' | Raise _ => degrades s s' end).
  { eapply R; [|apply degrades_refl|exact E].
    intros done x rest acc s1 w1 r1 s1' w1' _ HP Hx. device_step lib x acc s1 Hx.
    destruct r1; eapply degrades_trans; eassumption. }
  destruct r; exact H.
Qed.

Lemma getStatus_degrades lib s :
  let '(_, s', _) := getStatus lib s in degrades s s'.
Proof.
  rewrite getStatus_eq. pose proof (sample_loop_degrades lib s) as H.
  destruct (pynvmlLoaded s && cuda s); [|apply degrades_refl].
  destruct (sample_loop lib s) as [[[acc|e] s'] w]; exact H.
Qed.

Lemma degrades_switchGPU s s' : degrades s s' -> switchGPU s = false -> switchGPU s' = false.
Proof.
  intros (_ & _ & _ & _ & _ & _ & _ & _ & H & _) Hoff.
  destruct (switchGPU s'); [rewrite H in Hoff by reflexivity; discriminate|reflexivity].
Qed.

Lemma degrades_switchTemperature s s' :
  degrades s s' -> switchTemperature s = false -> switchTemperature s' = false.
Proof.
  intros (_ & _ & _ & _ & _ & _ & _ & _ & _ & H) Hoff.
  destruct (switchTemperature s'); [rewrite H in Hoff by reflexivity; discriminate|reflexivity].
Qed.

Lemma sample_loop_off lib s :
  let '(r, _, w) := sample_loop lib s in util_off s r w /\ temp_off s r w.
Proof.
  destruct (sample_loop lib s) as [[r s'] w] eqn:E. unfold sample_loop in E.
  pose proof (for_in_rule (getStatus_device lib)
                (fun _ acc s' w => degrades s s' /\ util_off s (Ok acc) w /\ temp_off s (Ok acc) w)
                (fun e s' w => util_off s (Raise e) w /\ temp_off s (Raise e) w)
                (range (cudaDevicesFound s))) as R.
  cbv beta in R.
  assert (H : match r with
              | Ok acc => degrades s s' /\ util_off s (Ok acc) w /\ temp_off s (Ok acc) w
              | Raise e => util_off s (Raise e) w /\ temp_off s (Raise e) w
              end).
  { eapply R; [| |exact E].
    - intros done x rest acc s1 w1 r1 s1' w1' _ (Hd & Hu & Ht) Hx.
      device_step lib x acc s1 Hx.
      assert (Hd' : degrades s s1') by (eapply degrades_trans; eassumption).
      assert (Hu' : switchGPU s = false -> util_calls (w1 ++ w1') = []).
      { intros Hoff. destruct (Hu Hoff) as (Hc & _).
        rewrite util_calls_app, Hc. simpl.
        destruct Hucalls as [->|(h' & _ & _ & Hon & _)]; [reflexivity|].
        rewrite (degrades_switchGPU _ _ Hd Hoff) in Hon. discriminate. }
      assert (Ht' : switchTemperature s = false -> temp_calls (w1 ++ w1') = []).
      { intros Hoff. destruct (Ht Hoff) as (Hc & _).
        rewrite temp_calls_app, Hc. simpl.
        destruct Htcalls as [->|(h' & _ & _ & Hon & _)]; [reflexivity|].
        rewrite (degrades_switchTemperature _ _ Hd Hoff) in Hon. discriminate. }
      destruct r1 as [acc1|e1].
      + destruct (Hentry _ eq_refl) as (h & e & _ & -> & He_u & He_t & _).
        split; [exact Hd'|]. split; intros Hoff; (split; [auto|]);
          intros acc' Hacc; inversion Hacc; subst; apply Forall_app; split.
        * apply (Hu Hoff). reflexivity.
        * constructor; [|constructor].
          destruct He_u as [He_u|(Hon & _)]; [exact He_u|].
          rewrite (degrades_switchGPU _ _ Hd' Hoff) in Hon. discriminate.
        * apply (Ht Hoff). reflexivity.
        * constructor; [|constructor].
          destruct He_t as [He_t|(Hon & _)]; [exact He_t|].
          rewrite (degrades_switchTemperature _ _ Hd' Hoff) in Hon. discriminate.
      + split; intros Hoff; (split; [auto|discriminate]).
    - split; [apply degrades_refl|].
      split; intros _; (split; [reflexivity|]); intros acc Hacc;
        inversion Hacc; constructor. }
  destruct r; [exact (proj2 H)|exact H].
Qed.

Lemma last_failed_step ok calls sw new sw' :
  last_failed ok calls sw ->
  (sw = false -> sw' = false) ->
  (new = [] \/
   exists h, new = [h] /\ sw = true /\ (ok h \/ ~ ok h /\ sw' = false)) ->
  last_failed ok (calls ++ new) sw'.
Proof.
  intros Hinv Hmono [->|(h & -> & Hon & Hh)].
  - rewrite app_nil_r. destruct Hinv as [Hall|(Hoff & Hlast)]; [left; exact Hall|].
    right. split; [auto|exact Hlast].
  - destruct Hinv as [Hall|(Hoff & _)]; [|congruence].
    destruct Hh as [Hok|(Hbad & Hoff)].
    + left. apply Forall_app. split; [exact Hall|]. constructor; [exact Hok|constructor].
    + right. split; [exact Hoff|]. exists calls, h. auto.
Qed.

Lemma sample_loop_calls lib s :
  let '(_, s', w) := sample_loop lib s in
  last_failed (util_ok lib) (util_calls w) (switchGPU s') /\
  last_failed (temp_ok lib) (temp_calls w) (switchTemperature s').
Proof.
  destruct (sample_loop lib s) as [[r s'] w] eqn:E. unfold sample_loop in E.
  set (I := fun (s' : GPUInfo) (w : list event) =>
              last_failed (util_ok lib) (util_calls w) (switchGPU s') /\
              last_failed (temp_ok lib) (temp_calls w) (switchTemperature s')).
  pose proof (for_in_rule (getStatus_device lib)
                (fun _ _ s' w => I s' w) (fun _ s' w => I s' w)
                (range (cudaDevicesFound s))) as R.
  cbv beta in R.
  assert (H : match r with Ok _ => I s' w | Raise _ => I s' w end).
  { eapply R; [| |exact E].
    - intros done x rest acc s1 w1 r1 s1' w1' _ (Hu & Ht) Hx.
      device_step lib x acc s1 Hx.
      assert (HI : I s1' (w1 ++ w1')).
      { split.
        - rewrite util_calls_app. eapply last_failed_step; [exact Hu| |].
          + apply degrades_switchGPU. exact Hdeg.
          + destruct Hucalls as [Hc|(h & _ & Hc & Hon & Hh)]; [left; exact Hc|].
            right. exists h. split; [exact Hc|]. split; [exact Hon|].
            destruct Hh as [Hok|((e & He) & Hoff)]; [left; exact Hok|].
            right. split; [|exact Hoff]. intros (v & Hv). congruence.
        - rewrite temp_calls_app. eapply last_failed_step; [exact Ht| |].
          + apply degrades_switchTemperature. exact Hdeg.
          + destruct Htcalls as [Hc|(h & _ & Hc & Hon & Hh)]; [left; exact Hc|].
            right. exists h. split; [exact Hc|]. split; [exact Hon|].
            destruct Hh as [Hok|((e & He) & Hoff)]; [left; exact Hok|].
            right. split; [|exact Hoff]. intros (v & Hv). congruence. }
      destruct r1; exact HI.
    - split; left; constructor. }
  destruct r; exact H.
Qed.

Lemma sample_loop_entries lib s :
  well_formed s ->
  let '(r, s', _) := sample_loop lib s in
  forall acc, r = Ok acc ->
    Forall2 (entry_of lib) (range (cudaDevicesFound s)) acc /\
    (switchGPU s' = true ->
     forall j, 0 <= j < cudaDevicesFound s -> ~ util_raises lib j).
Proof.
  intros Hwf.
  destruct (sample_loop lib s) as [[r s'] w] eqn:E. unfold sample_loop in E.
  pose proof (for_in_rule (getStatus_device lib)
                (fun done acc s' _ =>
                   degrades s s' /\ Forall2 (entry_of lib) done acc /\
                   (switchGPU s' = true -> forall j, In j done -> ~ util_raises lib j))
                (fun _ _ _ => True)
                (range (cudaDevicesFound s))) as R.
  cbv beta in R.
  assert (H : match r with
              | Ok acc =>
                  degrades s s' /\
                  Forall2 (entry_of lib) (range (cudaDevicesFound s)) acc /\
                  (switchGPU s' = true ->
                   forall j, In j (range (cudaDevicesFound s)) -> ~ util_raises lib j)
              | Raise _ => True
              end).
  { eapply R; [| |exact E].
    - intros done x rest acc s1 w1 r1 s1' w1' Hxs (Hd & Hall & Hno) Hx.
      destruct r1 as [acc1|e1]; [|exact I].
      destruct (range_split _ _ _ _ Hxs) as (_ & Hrange & Hdone).
      assert (Hwf1 : well_formed s1) by (eapply well_formed_degrades; eassumption).
      assert (Hx1 : 0 <= x < cudaDevicesFound s1)
        by (destruct Hd as (_ & _ & -> & _); exact Hrange).
      destruct (well_formed_flags _ _ Hwf1 Hx1) as (Hfu & Hfv & Hft).
      device_step lib x acc s1 Hx.
      destruct (Hentry _ eq_refl) as (h & e & Hh & -> & He_u & He_t & He_v).
      destruct (He_v (proj1 Hwf1) Hfv) as (m & Hm & Hnz & Hused & Htotal & Hpct).
      assert (Hno' : switchGPU s1' = true ->
                     forall j, In j (done ++ [x]) -> ~ util_raises lib j).
      { intros Hon j Hj. apply in_app_or in Hj. destruct Hj as [Hj|[<-|[]]].
        - apply Hno; [|exact Hj].
          destruct Hdeg as (_ & _ & _ & _ & _ & _ & _ & _ & Hsw & _). auto.
        - intros (h' & e' & Hh' & He').
          assert (h' = h) by congruence. subst h'.
          pose proof (getStatus_device_util_fails lib x acc s1 h e' Hh He' Hfu) as Hf.
          rewrite Hx in Hf. destruct Hf as [Hoff|(e'' & Habs)]; congruence. }
      split; [eapply degrades_trans; eassumption|]. split; [|exact Hno'].
      apply Forall2_app; [exact Hall|]. constructor; [|constructor].
      exists h, m. repeat (split; [assumption|]).
      split; [|destruct He_t as [Hz|(_ & Hv)]; [left; exact Hz|right; exact Hv]].
      destruct He_u as [Hz|(Hon & Hv)]; [left; exact Hz|]. right.
      split; [exact Hv|]. intros j Hj. apply (Hno' Hon).
      apply in_or_app. destruct (Z.eq_dec j x) as [->|Hne]; [right; left; reflexivity|].
      left. rewrite Hdone. apply in_range. lia.
    - split; [apply degrades_refl|]. split; [constructor|]. intros _ j []. }
  intros acc ->. destruct H as (_ & Hall & Hno). split; [exact Hall|].
  intros Hon j Hj. apply (Hno Hon). apply in_range. exact Hj.
Qed.

(** Handle lookups and VRAM blocks that succeed make the loop return. *)
Lemma sample_loop_returns lib s :
  well_formed s ->
  (forall i, 0 <= i < cudaDevicesFound s ->
     exists h, nvmlDeviceGetHandleByIndex lib i = Ok h /\ vram_failure lib h = None) ->
  let '(r, _, _) := sample_loop lib s in exists acc, r = Ok acc.
Proof.
  intros Hwf Hok.
  destruct (sample_loop lib s) as [[r s'] w] eqn:E. unfold sample_loop in E.
  pose proof (for_in_rule (getStatus_device lib)
                (fun _ _ s' _ => degrades s s') (fun _ _ _ => False)
                (range (cudaDevicesFound s))) as R.
  cbv beta in R.
  assert (H : match r with Ok _ => degrades s s' | Raise _ => False end).
  { eapply R; [|apply degrades_refl|exact E].
    intros done x rest acc s1 w1 r1 s1' w1' Hxs Hd Hx.
    destruct (range_split _ _ _ _ Hxs) as (_ & Hrange & _).
    assert (Hwf1 : well_formed s1) by (eapply well_formed_degrades; eassumption).
    assert (Hx1 : 0 <= x < cudaDevicesFound s1)
      by (destruct Hd as (_ & _ & -> & _); exact Hrange).
    destruct (well_formed_flags _ _ Hwf1 Hx1) as (Hfu & Hfv & Hft).
    destruct (Hok x Hrange) as (h & Hh & Hnone).
    pose proof (getStatus_device_outcome lib x acc s1 h Hh Hfu Hfv Hft (proj1 Hwf1)) as Ho.
    pose proof (getStatus_device_degrades lib x acc s1) as Hdeg.
    rewrite Hx, ?Hnone in *. destruct Ho as (acc' & ->).
    eapply degrades_trans; eassumption. }
  destruct r; [eexists; reflexivity|contradiction].
Qed.

(** The first VRAM block that fails ends the loop with its exception. *)
Lemma sample_loop_aborts lib s (Qe : exn -> Prop) d :
  well_formed s -> 0 <= d < cudaDevicesFound s ->
  (forall i, 0 <= i <= d ->
     exists h, nvmlDeviceGetHandleByIndex lib i = Ok h /\
               forall e, vram_failure lib h = Some e -> Qe e) ->
  (exists h e, nvmlDeviceGetHandleByIndex lib d = Ok h /\ vram_failure lib h = Some e) ->
  let '(r, _, _) := sample_loop lib s in exists e, r = Raise e /\ Qe e.
Proof.
  intros Hwf Hd Hbefore (hd & ed & Hhd & Hfd).
  destruct (sample_loop lib s) as [[r s'] w] eqn:E. unfold sample_loop in E.
  pose proof (for_in_rule (getStatus_device lib)
                (fun done _ s' _ => degrades s s' /\ ~ In d done) (fun e _ _ => Qe e)
                (range (cudaDevicesFound s))) as R.
  cbv beta in R.
  assert (H : match r with
              | Ok _ => degrades s s' /\ ~ In d (range (cudaDevicesFound s))
              | Raise e => Qe e
              end).
  { eapply R; [|split; [apply degrades_refl|intros []]|exact E].
    intros done x rest acc s1 w1 r1 s1' w1' Hxs (Hdg & Hnot) Hx.
    destruct (range_split _ _ _ _ Hxs) as (_ & Hrange & Hdone).
    assert (Hle : x <= d).
    { destruct (Z_le_gt_dec x d) as [Hle|Hgt]; [exact Hle|].
      exfalso. apply Hnot. rewrite Hdone. apply in_range. lia. }
    assert (Hwf1 : well_formed s1) by (eapply well_formed_degrades; eassumption).
    assert (Hx1 : 0 <= x < cudaDevicesFound s1)
      by (destruct Hdg as (_ & _ & -> & _); exact Hrange).
    destruct (well_formed_flags _ _ Hwf1 Hx1) as (Hfu & Hfv & Hft).
    destruct (Hbefore x ltac:(lia)) as (h & Hh & HQ).
    pose proof (getStatus_device_outcome lib x acc s1 h Hh Hfu Hfv Hft (proj1 Hwf1)) as Ho.
    pose proof (getStatus_device_degrades lib x acc s1) as Hdeg.
    rewrite Hx in Ho, Hdeg.
    destruct (vram_failure lib h) as [e|] eqn:Hf.
    - subst r1. apply HQ. reflexivity.
    - destruct Ho as (acc' & ->). split; [eapply degrades_trans; eassumption|].
      intros Hin. apply in_app_or in Hin. destruct Hin as [Hin|[Heq|[]]]; [auto|].
      subst x. congruence. }
  destruct r as [acc|e]; [|exists e; auto].
  exfalso. apply (proj2 H). apply in_range. exact Hd.
Qed.

(** ** [getStatus] as a whole *)

Lemma getStatus_sampling lib s :
  sampling s ->
  getStatus lib s =
  match sample_loop lib s with
  | (Ok gpus, s', w) => (Ok {| device_type := ""; sample_gpus := gpus |}, s', w)
  | (Raise e, s', w) => (Raise e, s', w)
  end.
Proof. intros (Hl & Hc). rewrite getStatus_eq, Hl, Hc. reflexivity. Qed.

Lemma getStatus_idle lib s :
  pynvmlLoaded s && cuda s = false ->
  getStatus lib s = (Ok {| device_type := ""; sample_gpus := [] |}, s, []).
Proof. intros H. rewrite getStatus_eq, H. reflexivity. Qed.

Lemma getStatus_off lib s :
  let '(r, _, w) := getStatus lib s in
  (switchGPU s = false ->
   util_calls w = [] /\
   forall smp, r = Ok smp -> Forall (fun e => gpu_utilization e = 0) (sample_gpus smp)) /\
  (switchTemperature s = false ->
   temp_calls w = [] /\
   forall smp, r = Ok smp -> Forall (fun e => gpu_temperature e = 0) (sample_gpus smp)).
Proof.
  rewrite getStatus_eq. pose proof (sample_loop_off lib s) as H.
  destruct (pynvmlLoaded s && cuda s).
  - destruct (sample_loop lib s) as [[[acc|e] s'] w]; destruct H as (Hu & Ht);
      split; intros Hoff.
    + destruct (Hu Hoff) as (Hc & Hz). split; [exact Hc|].
      intros smp Hs. inversion Hs; subst. simpl. apply Hz. reflexivity.
    + destruct (Ht Hoff) as (Hc & Hz). split; [exact Hc|].
      intros smp Hs. inversion Hs; subst. simpl. apply Hz. reflexivity.
    + split; [exact (proj1 (Hu Hoff))|discriminate].
    + split; [exact (proj1 (Ht Hoff))|discriminate].
  - split; intros _; (split; [reflexivity|]); intros smp Hs;
      inversion Hs; subst; constructor.
Qed.

Lemma getStatus_calls lib s :
  let '(_, s', w) := getStatus lib s in
  last_failed (util_ok lib) (util_calls w) (switchGPU s') /\
  last_failed (temp_ok lib) (temp_calls w) (switchTemperature s').
Proof.
  rewrite getStatus_eq. pose proof (sample_loop_calls lib s) as H.
  destruct (pynvmlLoaded s && cuda s).
  - destruct (sample_loop lib s) as [[[acc|e] s'] w]; exact H.
  - split; left; constructor.
Qed.

Lemma getStatus_entries lib s :
  well_formed s -> sampling s ->
  let '(r, s', _) := getStatus lib s in
  forall smp, r = Ok smp ->
    Forall2 (entry_of lib) (range (cudaDevicesFound s)) (sample_gpus smp) /\
    (switchGPU s' = true ->
     forall j, 0 <= j < cudaDevicesFound s -> ~ util_raises lib j).
Proof.
  intros Hwf Hs. rewrite (getStatus_sampling _ _ Hs).
  pose proof (sample_loop_entries lib s Hwf) as H.
  destruct (sample_loop lib s) as [[[acc|e] s'] w]; [|discriminate].
  intros smp Hsmp. inversion Hsmp; subst. simpl. apply H. reflexivity.
Qed.

Lemma getStatus_returns lib s :
  well_formed s ->
  (forall i, 0 <= i < cudaDevicesFound s ->
     exists h, nvmlDeviceGetHandleByIndex lib i = Ok h /\ vram_failure lib h = None) ->
  let '(r, _, _) := getStatus lib s in exists smp, r = Ok smp.
Proof.
  intros Hwf Hok. rewrite getStatus_eq.
  pose proof (sample_loop_returns lib s Hwf Hok) as H.
  destruct (pynvmlLoaded s && cuda s); [|eexists; reflexivity].
  destruct (sample_loop lib s) as [[r s'] w]. destruct H as (acc & ->).
  eexists; reflexivity.
Qed.

Lemma getStatus_aborts lib s (Qe : exn -> Prop) d :
  well_formed s -> sampling s -> 0 <= d < cudaDevicesFound s ->
  (forall i, 0 <= i <= d ->
     exists h, nvmlDeviceGetHandleByIndex lib i = Ok h /\
               forall e, vram_failure lib h = Some e -> Qe e) ->
  (exists h e, nvmlDeviceGetHandleByIndex lib d = Ok h /\ vram_failure lib h = Some e) ->
  let '(r, _, _) := getStatus lib s in exists e, r = Raise e /\ Qe e.
Proof.
  intros Hwf Hs Hd Hbefore Hfail. rewrite (getStatus_sampling _ _ Hs).
  pose proof (sample_loop_aborts lib s Qe d Hwf Hd Hbefore Hfail) as H.
  destruct (sample_loop lib s) as [[r s'] w]. destruct H as (e & -> & HQ).
  exists e. auto.
Qed.

(** * Executions *)

Section Run.

Variable libs : nat -> Nvml.

(** Every tick of an execution starts from an object that satisfies what
    the first one satisfied and [getStatus] keeps. *)
Lemma run_nth (Inv : GPUInfo -> Prop) :
  (forall lib s, Inv s -> let '(_, s', _) := getStatus lib s in Inv s') ->
  forall n t self k rec,
    Inv self -> nth_error (run libs t n self) k = Some rec ->
    exists before,
      Inv before /\
      getStatus (libs (t + k)%nat) before = (outcome rec, after rec, emitted rec).
Proof.
  intros Hkeep. induction n as [|n IH]; intros t self k rec Hinv Hk.
  - destruct k; discriminate.
  - simpl in Hk. pose proof (Hkeep (libs t) self Hinv) as Hstep.
    destruct (getStatus (libs t) self) as [[r self'] w] eqn:E.
    destruct k as [|k]; simpl in Hk.
    + inversion Hk; subst. exists self. rewrite Nat.add_0_r. auto.
    + destruct r as [smp|e]; [|destruct k; discriminate].
      destruct (IH (S t) self' k rec Hstep Hk) as (before & Hb & Hg).
      exists before. split; [exact Hb|].
      replace (t + S k)%nat with (S t + k)%nat by lia. exact Hg.
Qed.

(** The ticks after a tick are an execution from the object it left. *)
Lemma run_suffix :
  forall n t self k rec,
    nth_error (run libs t n self) k = Some rec ->
    forall j,
      nth_error (run libs t n self) (S k + j) =
      match outcome rec with
      | Ok _ => nth_error (run libs (S (t + k)) (n - S k) (after rec)) j
      | Raise _ => None
      end.
Proof.
  induction n as [|n IH]; intros t self k rec Hk j.
  - destruct k; discriminate.
  - simpl in Hk. simpl run.
    destruct (getStatus (libs t) self) as [[r self'] w] eqn:E.
    destruct k as [|k]; simpl in Hk.
    + inversion Hk; subst. simpl. rewrite Nat.add_0_r, Nat.sub_0_r.
      destruct r; [reflexivity|destruct j; reflexivity].
    + destruct r as [smp|e]; [|destruct k; discriminate].
      change (S (S k) + j)%nat with (S (S k + j)). cbn [nth_error].
      rewrite (IH (S t) self' k rec Hk j).
      replace (S t + k)%nat with (t + S k)%nat by lia. reflexivity.
Qed.

(** An execution goes on as long as its ticks return. *)
Lemma run_returns (Inv : GPUInfo -> Prop) :
  (forall lib s, Inv s -> let '(_, s', _) := getStatus lib s in Inv s') ->
  forall n t self,
    Inv self ->
    (forall k s, (t <= k < t + n)%nat -> Inv s ->
       let '(r, _, _) := getStatus (libs k) s in exists smp, r = Ok smp) ->
    forall k, (k < n)%nat ->
      exists rec smp, nth_error (run libs t n self) k = Some rec /\ outcome rec = Ok smp.
Proof.
  intros Hkeep. induction n as [|n IH]; intros t self Hinv Hok k Hk; [lia|].
  simpl. pose proof (Hkeep (libs t) self Hinv) as Hstep.
  pose proof (Hok t self ltac:(lia) Hinv) as Hr.
  destruct (getStatus (libs t) self) as [[r self'] w] eqn:E.
  destruct Hr as (smp & ->). destruct k as [|k]; simpl.
  - eexists; eexists; split; reflexivity.
  - apply (IH (S t) self' Hstep); [|lia].
    intros k' s Hk' Hs. apply Hok; [lia|exact Hs].
Qed.

End Run.

Lemma degrades_keep s0 lib s :
  degrades s0 s -> let '(_, s', _) := getStatus lib s in degrades s0 s'.
Proof.
  intros H. pose proof (getStatus_degrades lib s) as H'.
  destruct (getStatus lib s) as [[r s'] w]. eapply degrades_trans; eassumption.
Qed.

Lemma Forall2_nth_error {A B} (R : A -> B -> Prop) l l' i b :
  Forall2 R l l' -> nth_error l' i = Some b ->
  exists a, nth_error l i = Some a /\ R a b.
Proof.
  intros H. revert i. induction H as [|x y l l' Hxy _ IH]; intros i Hi.
  - destruct i; discriminate.
  - destruct i as [|i]; simpl in *.
    + inversion Hi; subst. eauto.
    + apply IH. exact Hi.
Qed.

Lemma nth_error_range n i x :
  nth_error (range n) i = Some x -> x = Z.of_nat i.
Proof.
  unfold range. rewrite nth_error_map, nth_error_seq.
  destruct (Nat.ltb i (Z.to_nat n)); simpl; intros H; inversion H. reflexivity.
Qed.

(** * The constructor *)

Section Constructor.

Variable utf8_ignore : list Byte.byte -> string.

Lemma extends_refl s : extends s s [].
Proof. unfold extends. simpl. rewrite !app_nil_r. auto 10. Qed.

Lemma extends_append s s' ds d :
  extends s s' ds -> extends s (append_device d s') (ds ++ [d]).
Proof.
  unfold extends. intros (H1 & H2 & H3 & H4 & H5 & H6 & H7). simpl.
  rewrite H1, H2, H3, H4, length_app, repeat_app. simpl.
  rewrite <- !app_assoc. auto 10.
Qed.

Lemma enumerate_device_spec lib i u s :
  let '(r, s', _) := enumerate_device utf8_ignore lib i u s in
  match nvmlDeviceGetHandleByIndex lib i with
  | Raise e => r = Raise e /\ s' = s
  | Ok h =>
      match gpu_name utf8_ignore lib h with
      | Ok nm => r = Ok tt /\ s' = append_device {| index := i; name := nm |} s
      | Raise e => r = Raise e /\ s' = s
      end
  end.
Proof.
  unfold enumerate_device, gpu_name, try_except, libcall, logger, bind, lift,
    tell, modify, ret, decode.
  case_split.
  all: simpl in *; try discriminate; try (split; reflexivity).
  all: repeat match goal with H : Ok _ = Ok _ |- _ => inversion H; clear H; subst end.
  all: try (split; reflexivity); try congruence.
Qed.

Lemma enumerate_loop_spec lib s0 n :
  forall r s' w,
    for_in (range n) (enumerate_device utf8_ignore lib) tt s0 = (r, s', w) ->
    pynvmlLoaded s' = pynvmlLoaded s0 /\ cuda s' = cuda s0 /\
    cudaDevicesFound s' = cudaDevicesFound s0 /\
    exists ds, extends s0 s' ds /\
               (r = Ok tt -> Forall2 (enumerated utf8_ignore lib) (range n) ds).
Proof.
  intros r s' w E.
  set (I := fun (s' : GPUInfo) =>
              pynvmlLoaded s' = pynvmlLoaded s0 /\ cuda s' = cuda s0 /\
              cudaDevicesFound s' = cudaDevicesFound s0).
  pose proof (for_in_rule (enumerate_device utf8_ignore lib)
                (fun done _ s' _ =>
                   I s' /\ exists ds, extends s0 s' ds /\ Forall2 (enumerated utf8_ignore lib) done ds)
                (fun _ s' _ => I s' /\ exists ds, extends s0 s' ds)
                (range n)) as R.
  cbv beta in R.
  assert (H : match r with
              | Ok _ => I s' /\ exists ds, extends s0 s' ds /\
                                           Forall2 (enumerated utf8_ignore lib) (range n) ds
              | Raise _ => I s' /\ exists ds, extends s0 s' ds
              end).
  { eapply R; [| |exact E].
    - intros done x rest [] s1 w1 r1 s1' w1' _ (HI & ds & Hext & Hall) Hx.
      pose proof (enumerate_device_spec lib x tt s1) as Hspec. rewrite Hx in Hspec.
      destruct (nvmlDeviceGetHandleByIndex lib x) as [h|e] eqn:Hh.
      + destruct (gpu_name utf8_ignore lib h) as [nm|e] eqn:Hn; destruct Hspec as (-> & ->).
        * split; [exact HI|]. exists (ds ++ [{| index := x; name := nm |}]).
          split; [apply extends_append; exact Hext|].
          apply Forall2_app; [exact Hall|]. constructor; [|constructor].
          split; [reflexivity|]. exists h. auto.
        * split; [exact HI|]. exists ds. exact Hext.
      + destruct Hspec as (-> & ->). split; [exact HI|]. exists ds. exact Hext.
    - split; [repeat split|]. exists []. split; [apply extends_refl|constructor]. }
  destruct r as [[]|e].
  - destruct H as ((H1 & H2 & H3) & ds & Hext & Hall). repeat (split; [assumption|]).
    exists ds. auto.
  - destruct H as ((H1 & H2 & H3) & ds & Hext). repeat (split; [assumption|]).
    exists ds. split; [exact Hext|discriminate].
Qed.

(** The constructor, whatever the library answers. *)
Lemma GPUInfo__init___spec lib s :
  let '(r, s', _) := GPUInfo__init__ utf8_ignore lib s in
  exists ds,
    extends s s' ds /\
    (r = Ok tt ->
     (sampling s' /\ Forall2 (enumerated utf8_ignore lib) (range (cudaDevicesFound s')) ds) \/
     (ds = [] /\ cuda s' = cuda s /\ cudaDevicesFound s' = cudaDevicesFound s)).
Proof.
  unfold GPUInfo__init__, try_except, and_then, libcall, logger, bind, gets,
    lift, tell, modify, ret.
  case_split.
  all: subst; simpl in *.
  all: try match goal with
         | H : for_in _ _ _ _ = _ |- _ =>
             apply enumerate_loop_spec in H; simpl in H;
             destruct H as (Hl & Hc & Hn & ds & Hext & Hall)
         end.
  all: first [exists ds|exists []].
  all: split; [unfold extends in *; simpl in *; rewrite ?app_nil_r; intuition congruence|].
  all: intros Hr; try discriminate.
  all: try (right; auto; fail).
  all: left; split; [split; [assumption|reflexivity]|].
  all: rewrite Hn; apply Hall; match goal with u : unit |- _ => destruct u end; reflexivity.
Qed.

(** From the class as the class body leaves it. *)
Lemma constructed_well_formed lib self w :
  GPUInfo__init__ utf8_ignore lib GPUInfo_class = (Ok tt, self, w) ->
  well_formed self /\
  List.length (gpus self) = Z.to_nat (cudaDevicesFound self) /\
  map index (gpus self) = range (cudaDevicesFound self) /\
  (sampling self \/ cudaDevicesFound self = 0).
Proof.
  intros E. pose proof (GPUInfo__init___spec lib GPUInfo_class) as H.
  rewrite E in H. destruct H as (ds & (H1 & H2 & H3 & H4 & H5 & H6 & H7) & Hok).
  simpl in *.
  assert (Hlen : List.length ds = Z.to_nat (cudaDevicesFound self) /\
                 map index ds = range (cudaDevicesFound self) /\
                 (sampling self \/ cudaDevicesFound self = 0)).
  { destruct (Hok eq_refl) as [(Hs & Hall)|(-> & _ & ->)].
    - split; [|split; [|left; exact Hs]].
      + apply Forall2_length in Hall. rewrite <- Hall. unfold range.
        now rewrite length_map, length_seq.
      + clear - Hall. induction Hall as [|i d l l' (Hi & _) _ IH]; [reflexivity|].
        simpl. now rewrite Hi, IH.
    - simpl. auto. }
  destruct Hlen as (Hlen & Hidx & Hs).
  unfold well_formed. rewrite H1, H2, H3, H4, H6, !repeat_length, Hlen.
  repeat split; try lia; try exact Hidx; try exact Hs;
    apply Forall_forall; intros b Hb; apply repeat_spec in Hb; congruence.
Qed.

End Constructor.

(** * The main program *)

Lemma dumps_app w1 w2 : dumps (w1 ++ w2) = dumps w1 ++ dumps w2.
Proof. apply flat_map_app. Qed.

Lemma getStatus_device_dumps lib i acc s :
  let '(_, _, w) := getStatus_device lib i acc s in dumps w = [].
Proof. unfold_device. case_split. all: reflexivity. Qed.

Lemma getStatus_dumps lib s :
  let '(_, _, w) := getStatus lib s in dumps w = [].
Proof.
  rewrite getStatus_eq. destruct (pynvmlLoaded s && cuda s); [|reflexivity].
  destruct (sample_loop lib s) as [[r s'] w] eqn:E. unfold sample_loop in E.
  pose proof (for_in_rule (getStatus_device lib)
                (fun _ _ _ w => dumps w = []) (fun _ _ w => dumps w = [])
                (range (cudaDevicesFound s))) as R.
  cbv beta in R.
  assert (H : match r with Ok _ => dumps w = [] | Raise _ => dumps w = [] end).
  { eapply R; [|reflexivity|exact E].
    intros done x rest acc s1 w1 r1 s1' w1' _ HP Hx.
    pose proof (getStatus_device_dumps lib x acc s1) as Hd. rewrite Hx in Hd.
    rewrite dumps_app, HP, Hd. destruct r1; reflexivity. }
  destruct r; exact H.
Qed.

Lemma enumerate_device_dumps utf8_ignore lib i u s :
  let '(_, _, w) := enumerate_device utf8_ignore lib i u s in dumps w = [].
Proof.
  unfold enumerate_device, try_except, libcall, logger, bind, lift, tell,
    modify, ret, decode.
  case_split. all: reflexivity.
Qed.

Lemma enumerate_loop_dumps utf8_ignore lib xs u s r s' w :
  for_in xs (enumerate_device utf8_ignore lib) u s = (r, s', w) -> dumps w = [].
Proof.
  intros E.
  pose proof (for_in_rule (enumerate_device utf8_ignore lib)
                (fun _ _ _ w => dumps w = []) (fun _ _ w => dumps w = []) xs) as R.
  cbv beta in R.
  assert (H : match r with Ok _ => dumps w = [] | Raise _ => dumps w = [] end).
  { eapply R; [|reflexivity|exact E].
    intros done x rest acc s1 w1 r1 s1' w1' _ HP Hx.
    pose proof (enumerate_device_dumps utf8_ignore lib x acc s1) as Hd.
    rewrite Hx in Hd. rewrite dumps_app, HP, Hd. destruct r1; reflexivity. }
  destruct r; exact H.
Qed.

Lemma GPUInfo__init___dumps utf8_ignore lib s :
  let '(_, _, w) := GPUInfo__init__ utf8_ignore lib s in dumps w = [].
Proof.
  unfold GPUInfo__init__, try_except, and_then, libcall, logger, bind, gets,
    lift, tell, modify, ret.
  case_split.
  all: subst; simpl.
  all: try match goal with
         | H : for_in _ _ _ _ = _ |- _ =>
             apply enumerate_loop_dumps in H; rewrite ?dumps_app, H
         end.
  all: reflexivity.
Qed.

Lemma outcomes_samples ticks samples :
  map outcome ticks = map Ok samples ->
  failure_of ticks = None /\ samples_of ticks = samples.
Proof.
  revert samples. induction ticks as [|tk ticks IH]; intros [|smp samples] H;
    simpl in *; try discriminate; [auto|].
  inversion H as [[H1 H2]]. rewrite H1. destruct (IH _ H2) as (-> & ->). auto.
Qed.

Lemma run_failure libs :
  forall n t s j rec e,
    nth_error (run libs t n s) j = Some rec -> outcome rec = Raise e ->
    failure_of (run libs t n s) = Some e.
Proof.
  induction n as [|n IH]; intros t s j rec e Hj He.
  - destruct j; discriminate.
  - simpl in *. destruct (getStatus (libs t) s) as [[r s1] w1].
    destruct j as [|j]; simpl in *.
    + inversion Hj; subst. simpl in He. now rewrite He.
    + destruct r as [smp|e1]; [|destruct j; discriminate].
      eapply IH; eassumption.
Qed.

Section Main.

Variables (libs : nat -> Nvml) (signals : nat -> bool).

(** The loop, in terms of the execution it drives: it ends with the
    exception of the tick that raised, or, when the signal is seen, with the
    history it was given followed by the samples of its own ticks. *)
Lemma main_loop_spec :
  forall k fuel tick killer results s,
    kill_now killer = false ->
    (forall i, (tick <= i < tick + k)%nat -> signals i = false) ->
    signals (tick + k)%nat = true \/ failure_of (run libs tick k s) <> None ->
    (k < fuel)%nat ->
    let '(r, _, w) := main_loop libs signals fuel tick killer results s in
    dumps w = [] /\
    r = match failure_of (run libs tick k s) with
        | Some e => Raise e
        | None => Ok (Some (results ++ samples_of (run libs tick k s)))
        end.
Proof.
  induction k as [|k IH]; intros fuel tick killer results s Hk Hquiet Hend Hfuel;
    (destruct fuel as [|fuel]; [lia|]); simpl.
  - destruct Hend as [Hsig|Hf]; [|contradiction Hf; reflexivity].
    rewrite Nat.add_0_r in Hsig. rewrite Hsig. simpl. unfold ret.
    rewrite app_nil_r. auto.
  - rewrite (Hquiet tick ltac:(lia)), Hk.
    pose proof (getStatus_dumps (libs tick) s) as Hd.
    unfold bind at 1.
    destruct (getStatus (libs tick) s) as [[[smp|e] s1] w1] eqn:E; simpl.
    + unfold bind, tell. simpl.
      specialize (IH fuel (S tick) killer (results ++ [smp]) s1 Hk).
      assert (Hq : forall i, (S tick <= i < S tick + k)%nat -> signals i = false)
        by (intros i Hi; apply Hquiet; lia).
      assert (He : signals (S tick + k)%nat = true \/
                   failure_of (run libs (S tick) k s1) <> None).
      { destruct Hend as [Hsig|Hf]; [left|right].
        - replace (S tick + k)%nat with (tick + S k)%nat by lia. exact Hsig.
        - simpl in Hf. rewrite E in Hf. exact Hf. }
      specialize (IH Hq He ltac:(lia)).
      destruct (main_loop libs signals fuel (S tick) killer (results ++ [smp]) s1)
        as [[r2 s2] w2].
      destruct IH as (Hd2 & ->). rewrite dumps_app, Hd. simpl. split; [exact Hd2|].
      destruct (failure_of (run libs (S tick) k s1)); [reflexivity|].
      now rewrite <- app_assoc.
    + auto.
Qed.

(** The history is append-only: whatever the loop returns starts with the
    history it was entered with. *)
Lemma main_loop_appends :
  forall fuel tick killer results s final s' w,
    main_loop libs signals fuel tick killer results s = (Ok (Some final), s', w) ->
    exists new, final = results ++ new.
Proof.
  induction fuel as [|fuel IH]; intros tick killer results s final s' w H; simpl in H.
  - discriminate.
  - destruct (kill_now (if signals tick then exit_gracefully killer else killer)).
    + inversion H; subst. exists []. now rewrite app_nil_r.
    + apply bind_inv in H.
      destruct H as [(smp & s1 & w1 & w2 & _ & H & _)|(e & _ & H)]; [|discriminate].
      unfold bind at 1 2, tell in H. simpl in H.
      destruct (main_loop libs signals fuel (S tick) _ (results ++ [smp]) s1)
        as [[r2 s2] w2'] eqn:E.
      inversion H; subst.
      destruct (IH _ _ _ _ _ _ _ E) as (new & ->).
      exists (smp :: new). now rewrite <- app_assoc.
Qed.

End Main.

Lemma main_spec utf8_ignore lib0 libs signals k fuel self w0 :
  GPUInfo__init__ utf8_ignore lib0 GPUInfo_class = (Ok tt, self, w0) ->
  (forall i, (i < k)%nat -> signals i = false) ->
  signals k = true \/ failure_of (run libs 0 k self) <> None ->
  (k < fuel)%nat ->
  let '(r, _, w) := main utf8_ignore lib0 libs signals fuel GPUInfo_class in
  match failure_of (run libs 0 k self) with
  | Some e => r = Raise e /\ dumps w = []
  | None =>
      r = Ok (Some tt) /\
      dumps w = [("status.json", "utf-8", samples_of (run libs 0 k self), 4)]
  end.
Proof.
  intros Hinit Hquiet Hend Hfuel.
  pose proof (GPUInfo__init___dumps utf8_ignore lib0 GPUInfo_class) as Hd0.
  pose proof (main_loop_spec libs signals k fuel 0 GracefulKiller_class [] self
                eq_refl ltac:(intros i Hi; apply Hquiet; lia) Hend Hfuel) as Hloop.
  unfold main, GracefulKiller__init__. unfold bind at 1 2 3, tell, ret. simpl.
  unfold bind at 1. rewrite Hinit in *. unfold bind at 1.
  destruct (main_loop libs signals fuel 0 GracefulKiller_class [] self)
    as [[r s'] w].
  destruct Hloop as (Hd & ->).
  destruct (failure_of (run libs 0 k self)) as [e|].
  - simpl. rewrite dumps_app, Hd0, Hd. auto.
  - unfold bind, tell, ret. simpl. rewrite !dumps_app, Hd0, Hd. simpl. auto.
Qed.

(** ** Ticks and the ticks after them *)

Lemma run_earlier libs n t0 self t t' rec' :
  nth_error (run libs t0 n self) t' = Some rec' -> (t <= t')%nat ->
  exists rec, nth_error (run libs t0 n self) t = Some rec.
Proof.
  intros H Hle.
  destruct (nth_error (run libs t0 n self) t) as [rec|] eqn:E; [eauto|].
  apply nth_error_None in E.
  assert (t' < List.length (run libs t0 n self))%nat
    by (apply nth_error_Some; congruence).
  lia.
Qed.

Lemma run_later libs n t0 self t rec t' rec' :
  nth_error (run libs t0 n self) t = Some rec -> (t < t')%nat ->
  nth_error (run libs t0 n self) t' = Some rec' ->
  exists smp,
    outcome rec = Ok smp /\
    nth_error (run libs (S (t0 + t)) (n - S t) (after rec)) (t' - S t) = Some rec'.
Proof.
  intros Ht Hlt Ht'. pose proof (run_suffix libs n t0 self t rec Ht (t' - S t)) as H.
  replace (S t + (t' - S t))%nat with t' in H by lia. rewrite Ht' in H.
  destruct (outcome rec) as [smp|e]; [|discriminate]. exists smp. auto.
Qed.

Lemma run_util_off libs n t0 s :
  switchGPU s = false ->
  forall k rec,
    nth_error (run libs t0 n s) k = Some rec ->
    util_calls (emitted rec) = [] /\
    forall smp, outcome rec = Ok smp ->
                Forall (fun e => gpu_utilization e = 0) (sample_gpus smp).
Proof.
  intros Hoff k rec Hk.
  destruct (run_nth libs (fun s => switchGPU s = false)
              ltac:(intros lib s1 H1; pose proof (getStatus_degrades lib s1) as Hd;
                    destruct (getStatus lib s1) as [[r1 s1'] w1];
                    eapply degrades_switchGPU; eassumption)
              n t0 s k rec Hoff Hk) as (before & Hb & Hg).
  pose proof (getStatus_off (libs (t0 + k)%nat) before) as H. rewrite Hg in H.
  exact (proj1 H Hb).
Qed.

Lemma run_temp_off libs n t0 s :
  switchTemperature s = false ->
  forall k rec,
    nth_error (run libs t0 n s) k = Some rec ->
    temp_calls (emitted rec) = [] /\
    forall smp, outcome rec = Ok smp ->
                Forall (fun e => gpu_temperature e = 0) (sample_gpus smp).
Proof.
  intros Hoff k rec Hk.
  destruct (run_nth libs (fun s => switchTemperature s = false)
              ltac:(intros lib s1 H1; pose proof (getStatus_degrades lib s1) as Hd;
                    destruct (getStatus lib s1) as [[r1 s1'] w1];
                    eapply degrades_switchTemperature; eassumption)
              n t0 s k rec Hoff Hk) as (before & Hb & Hg).
  pose proof (getStatus_off (libs (t0 + k)%nat) before) as H. rewrite Hg in H.
  exact (proj2 H Hb).
Qed.

Lemma last_failed_in ok calls sw h :
  last_failed ok calls sw -> In h calls -> ~ ok h ->
  sw = false /\ exists hs, calls = hs ++ [h].
Proof.
  intros [Hall|(Hoff & hs & h' & -> & Hall & Hbad)] Hin Hh.
  - rewrite Forall_forall in Hall. contradiction (Hh (Hall _ Hin)).
  - split; [exact Hoff|]. exists hs. apply in_app_or in Hin.
    destruct Hin as [Hin|[->|[]]]; [|reflexivity].
    rewrite Forall_forall in Hall. contradiction (Hh (Hall _ Hin)).
Qed.

(** * The claims *)

(** On the machine with two devices the constructor returns. *)
Lemma demo_constructed :
  exists w, GPUInfo__init__ demo_decode demo_ok GPUInfo_class = (Ok tt, demo_self, w).
Proof. eexists. vm_compute. reflexivity. Qed.

(** C1, as stated, fails.  Two devices; the utilization query of device 0
    throws on the third tick and on no other, and the library answers 50
    for device 1 on every tick.  Device 1 shows 50 on the first two ticks
    and the sentinel 0 from the third on: it is not unaffected. *)
Lemma C1_isolation_counterexample :
  nvmlDeviceGetUtilizationRates (demo_libs 2) 100 = Raise unknown_error /\
  (forall t, nvmlDeviceGetUtilizationRates (demo_libs t) 101 = Ok 50) /\
  utilization_of (run demo_libs 0 4 demo_self) = [[30; 50]; [30; 50]; [0; 0]; [0; 0]] /\
  ~ (forall t rec smp entry,
        nth_error (run demo_libs 0 4 demo_self) t = Some rec ->
        outcome rec = Ok smp ->
        nth_error (sample_gpus smp) 1 = Some entry ->
        nvmlDeviceGetUtilizationRates (demo_libs t) 101 = Ok (gpu_utilization entry)).
Proof.
  split; [reflexivity|]. split; [intros t; unfold demo_libs; destruct (Nat.eqb t 2); reflexivity|].
  split; [vm_compute; reflexivity|].
  intros H.
  pose (rec := nth 2 (run demo_libs 0 4 demo_self)
                   {| outcome := Raise unknown_error; after := demo_self; emitted := [] |}).
  specialize (H 2%nat rec
                {| device_type := "";
                   sample_gpus :=
                     [ {| gpu_utilization := 0; gpu_temperature := 60;
                          vram_total := 8; vram_used := 2;
                          vram_used_percent := Float (FMul (TrueDiv 2 8) 100) |};
                       {| gpu_utilization := 0; gpu_temperature := 60;
                          vram_total := 16; vram_used := 4;
                          vram_used_percent := Float (FMul (TrueDiv 4 16) 100) |} ] |}
                {| gpu_utilization := 0; gpu_temperature := 60;
                   vram_total := 16; vram_used := 4;
                   vram_used_percent := Float (FMul (TrueDiv 4 16) 100) |}).
  assert (Habs : nvmlDeviceGetUtilizationRates (demo_libs 2) 101 = Ok 0).
  { apply H; vm_compute; reflexivity. }
  vm_compute in Habs. discriminate.
Qed.

(** C1, amended.  The switch is global: when the utilization query of
    device [d] throws on tick [t], device [d] and every device after it
    show the sentinel 0 on tick [t], and every device shows 0 on every later
    tick. *)
Theorem C1_disabling_is_global utf8_ignore lib0 libs n self w0 t d h e :
  GPUInfo__init__ utf8_ignore lib0 GPUInfo_class = (Ok tt, self, w0) ->
  0 <= d < cudaDevicesFound self ->
  nvmlDeviceGetHandleByIndex (libs t) d = Ok h ->
  nvmlDeviceGetUtilizationRates (libs t) h = Raise e ->
  forall t' rec smp,
    (t <= t')%nat ->
    nth_error (run libs 0 n self) t' = Some rec -> outcome rec = Ok smp ->
    forall i entry,
      nth_error (sample_gpus smp) i = Some entry ->
      (t' = t -> d <= Z.of_nat i) ->
      gpu_utilization entry = 0.
Proof.
  intros Hinit Hd Hh He t' rec smp Hle Ht' Hsmp i entry Hi Hpos.
  destruct (constructed_well_formed _ _ _ _ Hinit) as (Hwf & _ & _ & Hs).
  destruct Hs as [Hs|Hz]; [|lia].
  assert (Hraises : util_raises (libs t) d) by (exists h, e; auto).
  (* tick [t] *)
  destruct (run_earlier _ _ _ _ t _ _ Ht' Hle) as (rec_t & Ht).
  destruct (run_nth libs (degrades self) (degrades_keep self) n 0 self t rec_t
              (degrades_refl self) Ht) as (before & Hdeg & Hg).
  simpl in Hg.
  assert (Hwfb : well_formed before) by (eapply well_formed_degrades; eassumption).
  assert (Hsb : sampling before).
  { destruct Hdeg as (Hc & Hl & _). destruct Hs. split; congruence. }
  assert (Hnb : cudaDevicesFound before = cudaDevicesFound self)
    by (destruct Hdeg as (_ & _ & Hn & _); exact Hn).
  pose proof (getStatus_entries (libs t) before Hwfb Hsb) as Hent.
  rewrite Hg, Hnb in Hent.
  destruct (Nat.eq_dec t' t) as [->|Hne].
  - rewrite Ht in Ht'. inversion Ht'; subst rec_t.
    destruct (Hent smp Hsmp) as (Hall & _).
    destruct (Forall2_nth_error _ _ _ _ _ Hall Hi) as (a & Ha & Hentry).
    apply nth_error_range in Ha. subst a.
    destruct Hentry as (_ & _ & _ & _ & _ & _ & _ & _ & [Hz|(_ & Hno)] & _); [exact Hz|].
    exfalso. apply (Hno d); [specialize (Hpos eq_refl); lia|exact Hraises].
  - assert (Hlt : (t < t')%nat) by lia.
    destruct (run_later _ _ _ _ _ _ _ _ Ht Hlt Ht') as (smp_t & Hsmp_t & Hlater).
    destruct (Hent smp_t Hsmp_t) as (_ & Hon).
    assert (Hoff : switchGPU (after rec_t) = false).
    { destruct (switchGPU (after rec_t)); [|reflexivity].
      exfalso. exact (Hon eq_refl d Hd Hraises). }
    destruct (run_util_off _ _ _ _ Hoff _ _ Hlater) as (_ & Hzero).
    specialize (Hzero smp Hsmp). rewrite Forall_forall in Hzero.
    apply Hzero. eapply nth_error_In. exact Hi.
Qed.

Lemma C1_disabling_is_global_witness :
  nvmlDeviceGetUtilizationRates (demo_libs 2) 100 = Raise unknown_error /\
  forall t' rec smp,
    (2 <= t')%nat ->
    nth_error (run demo_libs 0 4 demo_self) t' = Some rec -> outcome rec = Ok smp ->
    forall i entry,
      nth_error (sample_gpus smp) i = Some entry ->
      (t' = 2%nat -> 0 <= Z.of_nat i) ->
      gpu_utilization entry = 0.
Proof.
  split; [reflexivity|].
  destruct demo_constructed as (w & Hw).
  apply (C1_disabling_is_global demo_decode demo_ok demo_libs 4 demo_self w 2 0 100
           unknown_error Hw).
  - vm_compute. split; [discriminate|reflexivity].
  - reflexivity.
  - reflexivity.
Defined.

(** C3.  In every execution, a utilization (temperature) query that fails
    on tick [t] is the last utilization (temperature) query the program
    ever makes: it is the last one of tick [t], no later tick makes any, and
    every sample of a later tick carries the sentinel 0 in that field, for
    every device. *)
Theorem C3_failed_metric_stays_off libs n self t rec :
  nth_error (run libs 0 n self) t = Some rec ->
  (forall h e,
      In h (util_calls (emitted rec)) ->
      nvmlDeviceGetUtilizationRates (libs t) h = Raise e ->
      (exists hs, util_calls (emitted rec) = hs ++ [h]) /\
      forall t' rec',
        (t < t')%nat -> nth_error (run libs 0 n self) t' = Some rec' ->
        util_calls (emitted rec') = [] /\
        forall smp, outcome rec' = Ok smp ->
                    Forall (fun en => gpu_utilization en = 0) (sample_gpus smp)) /\
  (forall h e,
      In h (temp_calls (emitted rec)) ->
      nvmlDeviceGetTemperature (libs t) h 0 = Raise e ->
      (exists hs, temp_calls (emitted rec) = hs ++ [h]) /\
      forall t' rec',
        (t < t')%nat -> nth_error (run libs 0 n self) t' = Some rec' ->
        temp_calls (emitted rec') = [] /\
        forall smp, outcome rec' = Ok smp ->
                    Forall (fun en => gpu_temperature en = 0) (sample_gpus smp)).
Proof.
  intros Ht.
  destruct (run_nth libs (fun _ => True) ltac:(intros lib s _; destruct (getStatus lib s) as [[? ?] ?]; exact I)
              n 0 self t rec I Ht) as (before & _ & Hg).
  simpl in Hg. pose proof (getStatus_calls (libs t) before) as Hcalls.
  rewrite Hg in Hcalls. destruct Hcalls as (Hu & Htm).
  split; intros h e Hin He.
  - assert (Hbad : ~ util_ok (libs t) h) by (intros (v & Hv); congruence).
    destruct (last_failed_in _ _ _ _ Hu Hin Hbad) as (Hoff & Hlast).
    split; [exact Hlast|]. intros t' rec' Hlt Ht'.
    destruct (run_later _ _ _ _ _ _ _ _ Ht Hlt Ht') as (smp_t & _ & Hlater).
    exact (run_util_off _ _ _ _ Hoff _ _ Hlater).
  - assert (Hbad : ~ temp_ok (libs t) h) by (intros (v & Hv); congruence).
    destruct (last_failed_in _ _ _ _ Htm Hin Hbad) as (Hoff & Hlast).
    split; [exact Hlast|]. intros t' rec' Hlt Ht'.
    destruct (run_later _ _ _ _ _ _ _ _ Ht Hlt Ht') as (smp_t & _ & Hlater).
    exact (run_temp_off _ _ _ _ Hoff _ _ Hlater).
Qed.

Lemma C3_failed_metric_stays_off_witness :
  In 100 (util_calls (emitted (nth 2 (run demo_libs 0 4 demo_self)
                                   {| outcome := Raise unknown_error;
                                      after := demo_self; emitted := [] |}))) /\
  nvmlDeviceGetUtilizationRates (demo_libs 2) 100 = Raise unknown_error /\
  forall rec',
    nth_error (run demo_libs 0 4 demo_self) 3 = Some rec' ->
    util_calls (emitted rec') = [] /\
    forall smp, outcome rec' = Ok smp ->
                Forall (fun en => gpu_utilization en = 0) (sample_gpus smp).
Proof.
  split; [vm_compute; left; reflexivity|]. split; [reflexivity|].
  intros rec' H3.
  refine (proj2 (proj1 (C3_failed_metric_stays_off demo_libs 4 demo_self 2 _ _)
                   100 unknown_error _ _) 3%nat rec' _ H3).
  - vm_compute. reflexivity.
  - vm_compute. left. reflexivity.
  - reflexivity.
  - lia.
Defined.

Lemma degrades_never_reenabled s s' : degrades s s' -> never_reenabled s s'.
Proof.
  intros H. pose proof (degrades_switchGPU _ _ H).
  pose proof (degrades_switchTemperature _ _ H).
  destruct H as (_ & _ & _ & Hv & _ & Hlu & Hlv & Hlt & _).
  unfold never_reenabled. rewrite Hv, Hlu, Hlv, Hlt. auto 10.
Qed.

Lemma extends_never_reenabled s s' ds : extends s s' ds -> never_reenabled s s'.
Proof.
  intros (_ & Hlu & Hlv & Hlt & Hg & Hv & Ht).
  unfold never_reenabled. rewrite Hg, Hv, Ht, Hlu, Hlv, Hlt.
  assert (Happ : forall (l l' : list bool) i,
             nth_error l i = Some false -> nth_error (l ++ l') i = Some false).
  { intros l l' i Hi. rewrite nth_error_app1; [exact Hi|].
    apply nth_error_Some. congruence. }
  auto 10.
Qed.

(** C4.  Neither [getStatus] nor the constructor turns a flag that is off
    back on, whether they return or raise; so along an execution a flag
    that is off after the constructor or after a tick is off after every
    later tick. *)
Theorem C4_flags_monotone :
  (forall lib s, let '(_, s', _) := getStatus lib s in never_reenabled s s') /\
  (forall utf8_ignore lib s,
      let '(_, s', _) := GPUInfo__init__ utf8_ignore lib s in never_reenabled s s') /\
  (forall libs n self t rec,
      nth_error (run libs 0 n self) t = Some rec ->
      never_reenabled self (after rec) /\
      forall t' rec',
        (t < t')%nat -> nth_error (run libs 0 n self) t' = Some rec' ->
        never_reenabled (after rec) (after rec')).
Proof.
  assert (Hrun : forall libs n t0 self t rec,
             nth_error (run libs t0 n self) t = Some rec ->
             degrades self (after rec)).
  { intros libs n t0 self t rec Ht.
    destruct (run_nth libs (degrades self) (degrades_keep self) n t0 self t rec
                (degrades_refl self) Ht) as (before & Hdeg & Hg).
    pose proof (getStatus_degrades (libs (t0 + t)%nat) before) as Hd.
    rewrite Hg in Hd. eapply degrades_trans; eassumption. }
  split; [|split].
  - intros lib s. pose proof (getStatus_degrades lib s) as H.
    destruct (getStatus lib s) as [[r s'] w]. apply degrades_never_reenabled. exact H.
  - intros utf8_ignore lib s. pose proof (GPUInfo__init___spec utf8_ignore lib s) as H.
    destruct (GPUInfo__init__ utf8_ignore lib s) as [[r s'] w].
    destruct H as (ds & Hext & _). eapply extends_never_reenabled. exact Hext.
  - intros libs n self t rec Ht. split.
    + apply degrades_never_reenabled. eapply Hrun. exact Ht.
    + intros t' rec' Hlt Ht'.
      destruct (run_later _ _ _ _ _ _ _ _ Ht Hlt Ht') as (smp & _ & Hlater).
      apply degrades_never_reenabled. eapply Hrun. exact Hlater.
Qed.

Lemma C4_flags_monotone_witness :
  never_reenabled demo_self
    (after (nth 2 (run demo_libs 0 4 demo_self)
                {| outcome := Raise unknown_error; after := demo_self; emitted := [] |})).
Proof.
  refine (proj1 (proj2 (proj2 C4_flags_monotone) demo_libs 4%nat demo_self 2%nat _ _)).
  vm_compute. reflexivity.
Defined.

Lemma run_idle libs :
  forall n t0 s,
    pynvmlLoaded s && cuda s = false ->
    forall k, (k < n)%nat ->
      nth_error (run libs t0 n s) k =
      Some {| outcome := Ok empty_sample; after := s; emitted := [] |}.
Proof.
  induction n as [|n IH]; intros t0 s Hidle k Hk; [lia|].
  simpl. rewrite (getStatus_idle _ _ Hidle).
  destruct k as [|k]; [reflexivity|]. simpl. apply IH; [exact Hidle|lia].
Qed.

(** C5.  When [nvmlInit] fails, with the library's [NVMLError], the
    constructor still returns, and every tick of every execution after it
    returns the record with an empty [device_type] and no entries. *)
Theorem C5_init_failure_is_soft utf8_ignore lib0 e :
  nvmlInit lib0 = Raise e -> exn_cls e = NVMLError ->
  exists self w,
    GPUInfo__init__ utf8_ignore lib0 GPUInfo_class = (Ok tt, self, w) /\
    forall libs n t,
      (t < n)%nat ->
      exists rec,
        nth_error (run libs 0 n self) t = Some rec /\
        outcome rec = Ok {| device_type := ""; sample_gpus := [] |}.
Proof.
  intros Hinit Hcls.
  exists (set_pynvmlLoaded false GPUInfo_class). eexists. split.
  - unfold GPUInfo__init__, try_except, and_then, libcall, logger, bind, gets,
      lift, tell, modify, ret, isinstance.
    rewrite Hinit, Hcls. simpl. reflexivity.
  - intros libs n t Ht. eexists. split; [apply run_idle; [reflexivity|exact Ht]|].
    reflexivity.
Qed.

Lemma C5_init_failure_is_soft_witness :
  exists self w,
    GPUInfo__init__ demo_decode demo_no_driver GPUInfo_class = (Ok tt, self, w) /\
    forall libs n t,
      (t < n)%nat ->
      exists rec,
        nth_error (run libs 0 n self) t = Some rec /\
        outcome rec = Ok {| device_type := ""; sample_gpus := [] |}.
Proof.
  apply (C5_init_failure_is_soft demo_decode demo_no_driver
           {| exn_cls := NVMLError; exn_str := "Driver Not Loaded" |});
    reflexivity.
Defined.

Lemma Forall2_nth_error_l {A B} (R : A -> B -> Prop) l l' i a :
  Forall2 R l l' -> nth_error l i = Some a ->
  exists b, nth_error l' i = Some b /\ R a b.
Proof.
  intros H. revert i. induction H as [|x y l l' Hxy _ IH]; intros i Hi.
  - destruct i; discriminate.
  - destruct i as [|i]; simpl in *.
    + inversion Hi; subst. eauto.
    + apply IH. exact Hi.
Qed.

(** C6.  After a constructor that returned, every sample an execution
    returns has one entry per enumerated device, the entry at position [i]
    being the one of the device of index [i]; and the ticks do return when
    no handle lookup and no VRAM block fails. *)
Theorem C6_one_entry_per_device utf8_ignore lib0 self w0 libs n :
  GPUInfo__init__ utf8_ignore lib0 GPUInfo_class = (Ok tt, self, w0) ->
  (forall t rec smp,
      nth_error (run libs 0 n self) t = Some rec -> outcome rec = Ok smp ->
      List.length (sample_gpus smp) = List.length (gpus self) /\
      forall i dev,
        nth_error (gpus self) i = Some dev ->
        index dev = Z.of_nat i /\
        exists entry,
          nth_error (sample_gpus smp) i = Some entry /\
          entry_of (libs t) (index dev) entry) /\
  ((forall t i,
       (t < n)%nat -> 0 <= i < Z.of_nat (List.length (gpus self)) ->
       exists h, nvmlDeviceGetHandleByIndex (libs t) i = Ok h /\
                 vram_failure (libs t) h = None) ->
   forall t, (t < n)%nat ->
     exists rec smp, nth_error (run libs 0 n self) t = Some rec /\ outcome rec = Ok smp).
Proof.
  intros Hinit.
  destruct (constructed_well_formed _ _ _ _ Hinit) as (Hwf & Hlen & Hidx & Hs).
  split.
  - intros t rec smp Ht Hsmp.
    destruct (run_nth libs (degrades self) (degrades_keep self) n 0 self t rec
                (degrades_refl self) Ht) as (before & Hdeg & Hg).
    simpl in Hg.
    assert (Hwfb : well_formed before) by (eapply well_formed_degrades; eassumption).
    assert (Hnb : cudaDevicesFound before = cudaDevicesFound self)
      by (destruct Hdeg as (_ & _ & Hn & _); exact Hn).
    assert (Hall : Forall2 (entry_of (libs t)) (range (cudaDevicesFound self))
                     (sample_gpus smp)).
    { destruct (pynvmlLoaded before && cuda before) eqn:Hen.
      - apply andb_true_iff in Hen.
        pose proof (getStatus_entries (libs t) before Hwfb Hen) as Hent.
        rewrite Hg, Hnb in Hent. exact (proj1 (Hent smp Hsmp)).
      - rewrite (getStatus_idle _ _ Hen) in Hg. inversion Hg as [[Ho Ha He]].
        rewrite <- Ho in Hsmp. inversion Hsmp; subst smp. simpl.
        destruct Hs as [(Hl & Hc)|Hz]; [|rewrite Hz; constructor].
        destruct Hdeg as (Hc' & Hl' & _). rewrite Hc', Hl', Hl, Hc in Hen.
        discriminate. }
    split.
    + apply Forall2_length in Hall. rewrite <- Hall, Hlen. unfold range.
      now rewrite length_map, length_seq.
    + intros i dev Hi.
      assert (Hr : nth_error (range (cudaDevicesFound self)) i = Some (index dev)).
      { rewrite <- Hidx. rewrite nth_error_map, Hi. reflexivity. }
      split; [apply (nth_error_range _ _ _ Hr)|].
      exact (Forall2_nth_error_l _ _ _ _ _ Hall Hr).
  - intros Hok t Ht.
    apply (run_returns libs (degrades self) (degrades_keep self) n 0 self
             (degrades_refl self)); [|exact Ht].
    intros k s Hk Hdeg. apply getStatus_returns.
    + eapply well_formed_degrades; eassumption.
    + destruct Hdeg as (_ & _ & Hn & _). rewrite Hn. intros i Hi.
      apply Hok; lia.
Qed.

Lemma C6_one_entry_per_device_witness :
  List.length (gpus demo_self) = 2%nat /\
  forall t, (t < 4)%nat ->
    exists rec smp,
      nth_error (run demo_libs 0 4 demo_self) t = Some rec /\ outcome rec = Ok smp /\
      List.length (sample_gpus smp) = 2%nat.
Proof.
  split; [reflexivity|]. intros t Ht.
  destruct demo_constructed as (w & Hw).
  pose proof (C6_one_entry_per_device demo_decode demo_ok demo_self w demo_libs 4 Hw)
    as (Hshape & Hreturns).
  destruct (Hreturns
              ltac:(intros t' i _ Hi; exists (100 + i);
                    assert (Hc : i = 0 \/ i = 1) by (simpl in Hi; lia);
                    unfold demo_libs; destruct (Nat.eqb t' 2);
                    destruct Hc as [->| ->]; split; reflexivity)
              t Ht) as (rec & smp & Hrec & Hsmp).
  exists rec, smp. repeat split; [exact Hrec|exact Hsmp|].
  exact (proj1 (Hshape t rec smp Hrec Hsmp)).
Defined.

Lemma run_length libs :
  forall n t s, failure_of (run libs t n s) = None -> List.length (run libs t n s) = n.
Proof.
  induction n as [|n IH]; intros t s H; [reflexivity|].
  simpl in *. destruct (getStatus (libs t) s) as [[[smp|e] s1] w1]; simpl in *.
  - f_equal. apply IH. exact H.
  - discriminate.
Qed.

(** C7.  When the signal is first seen after [k] ticks, all of which
    returned, the program ends normally and has written one file,
    [status.json], in UTF-8, holding the [k] samples in tick order, dumped
    with indent 4; and the loop only ever appends to the history it
    holds. *)
Theorem C7_history_is_dumped_in_order utf8_ignore lib0 libs signals k fuel self w0 samples :
  GPUInfo__init__ utf8_ignore lib0 GPUInfo_class = (Ok tt, self, w0) ->
  (forall i, (i < k)%nat -> signals i = false) -> signals k = true ->
  (k < fuel)%nat ->
  map outcome (run libs 0 k self) = map Ok samples ->
  List.length samples = k /\
  (let '(r, _, w) := main utf8_ignore lib0 libs signals fuel GPUInfo_class in
   r = Ok (Some tt) /\ dumps w = [("status.json", "utf-8", samples, 4)]) /\
  (forall fuel' tick killer results s final s' w,
      main_loop libs signals fuel' tick killer results s = (Ok (Some final), s', w) ->
      exists new, final = results ++ new).
Proof.
  intros Hinit Hquiet Hsig Hfuel Hout.
  destruct (outcomes_samples _ _ Hout) as (Hnone & Hsamples).
  split; [|split].
  - apply (f_equal (@List.length _)) in Hout. rewrite !length_map in Hout.
    rewrite <- Hout. apply run_length. exact Hnone.
  - pose proof (main_spec utf8_ignore lib0 libs signals k fuel self w0 Hinit Hquiet
                  (or_introl Hsig) Hfuel) as H.
    destruct (main utf8_ignore lib0 libs signals fuel GPUInfo_class) as [[r s'] w].
    rewrite Hnone, Hsamples in H. exact H.
  - apply main_loop_appends.
Qed.

Lemma C7_history_is_dumped_in_order_witness :
  let '(r, _, w) := main demo_decode demo_ok demo_libs demo_signals 10 GPUInfo_class in
  r = Ok (Some tt) /\
  dumps w = [("status.json", "utf-8", samples_of (run demo_libs 0 4 demo_self), 4)] /\
  utilization_of (run demo_libs 0 4 demo_self) = [[30; 50]; [30; 50]; [0; 0]; [0; 0]].
Proof.
  destruct demo_constructed as (w0 & Hw0).
  pose proof (C7_history_is_dumped_in_order demo_decode demo_ok demo_libs demo_signals
                4 10 demo_self w0 (samples_of (run demo_libs 0 4 demo_self)) Hw0) as H.
  assert (Hquiet : forall i, (i < 4)%nat -> demo_signals i = false).
  { intros i Hi. do 4 (destruct i as [|i]; [reflexivity|]). lia. }
  specialize (H Hquiet eq_refl ltac:(lia) ltac:(vm_compute; reflexivity)).
  destruct H as (_ & H & _).
  destruct (main demo_decode demo_ok demo_libs demo_signals 10 GPUInfo_class)
    as [[r s'] w].
  destruct H as (Hr & Hd). split; [exact Hr|]. split; [exact Hd|].
  vm_compute. reflexivity.
Defined.

(** C2.  A VRAM query that fails makes [getStatus] raise that exception:
    the tick is aborted, the program ends with the exception and writes no
    file.  The answers to the utilization and temperature queries play no
    part in whether [getStatus] returns: it returns whenever the handle
    lookups and the VRAM blocks succeed. *)
Theorem C2_only_vram_failure_is_fatal utf8_ignore lib0 self w0 :
  GPUInfo__init__ utf8_ignore lib0 GPUInfo_class = (Ok tt, self, w0) ->
  (forall lib s d h e,
      degrades self s -> 0 <= d < cudaDevicesFound s ->
      (forall i, 0 <= i < d ->
         exists hi, nvmlDeviceGetHandleByIndex lib i = Ok hi /\
                    vram_failure lib hi = None) ->
      nvmlDeviceGetHandleByIndex lib d = Ok h ->
      nvmlDeviceGetMemoryInfo lib h = Raise e ->
      let '(r, _, _) := getStatus lib s in r = Raise e) /\
  (forall libs signals fuel j rec e,
      (forall i, (i <= j)%nat -> signals i = false) -> (S j < fuel)%nat ->
      nth_error (run libs 0 (S j) self) j = Some rec -> outcome rec = Raise e ->
      let '(r, _, w) := main utf8_ignore lib0 libs signals fuel GPUInfo_class in
      r = Raise e /\ dumps w = []) /\
  (forall lib s,
      degrades self s ->
      (forall i, 0 <= i < cudaDevicesFound s ->
         exists h, nvmlDeviceGetHandleByIndex lib i = Ok h /\
                   vram_failure lib h = None) ->
      let '(r, _, _) := getStatus lib s in exists smp, r = Ok smp).
Proof.
  intros Hinit.
  destruct (constructed_well_formed _ _ _ _ Hinit) as (Hwf & _ & _ & Hs).
  split; [|split].
  - intros lib s d h e Hdeg Hd Hbefore Hh Hm.
    assert (Hwfs : well_formed s) by (eapply well_formed_degrades; eassumption).
    assert (Hss : sampling s).
    { destruct Hdeg as (Hc & Hl & Hn & _). destruct Hs as [(Hl' & Hc')|Hz].
      - split; congruence.
      - lia. }
    assert (Hf : vram_failure lib h = Some e) by (unfold vram_failure; now rewrite Hm).
    pose proof (getStatus_aborts lib s (eq e) d Hwfs Hss Hd) as H.
    assert (Hall : forall i, 0 <= i <= d ->
                     exists hi, nvmlDeviceGetHandleByIndex lib i = Ok hi /\
                                forall e', vram_failure lib hi = Some e' -> e = e').
    { intros i Hi. destruct (Z.eq_dec i d) as [->|Hne].
      - exists h. split; [exact Hh|]. intros e' He'. congruence.
      - destruct (Hbefore i ltac:(lia)) as (hi & Hhi & Hnone).
        exists hi. split; [exact Hhi|]. intros e' He'. congruence. }
    specialize (H Hall ltac:(exists h, e; auto)).
    destruct (getStatus lib s) as [[r s'] w]. destruct H as (e' & -> & <-). reflexivity.
  - intros libs signals fuel j rec e Hquiet Hfuel Hj He.
    pose proof (run_failure libs _ _ _ _ _ _ Hj He) as Hf.
    pose proof (main_spec utf8_ignore lib0 libs signals (S j) fuel self w0 Hinit
                  ltac:(intros i Hi; apply Hquiet; lia)
                  ltac:(right; rewrite Hf; discriminate) Hfuel) as H.
    destruct (main utf8_ignore lib0 libs signals fuel GPUInfo_class) as [[r s'] w].
    rewrite Hf in H. exact H.
  - intros lib s Hdeg Hok. apply getStatus_returns; [|exact Hok].
    eapply well_formed_degrades; eassumption.
Qed.

Lemma C2_only_vram_failure_is_fatal_witness :
  nvmlDeviceGetUtilizationRates (demo_libs_vram 0) 100 = Raise unknown_error /\
  outcome (nth 0 (run demo_libs_vram 0 2 demo_self)
               {| outcome := Raise unknown_error; after := demo_self; emitted := [] |})
  <> Raise unknown_error /\
  let '(r, _, w) := main demo_decode demo_ok demo_libs_vram (fun _ => false) 10 GPUInfo_class in
  r = Raise {| exn_cls := NVMLError; exn_str := "GPU is lost" |} /\ dumps w = [].
Proof.
  split; [reflexivity|]. split; [vm_compute; discriminate|].
  destruct demo_constructed as (w0 & Hw0).
  pose proof (C2_only_vram_failure_is_fatal demo_decode demo_ok demo_self w0 Hw0)
    as (_ & Hmain & _).
  apply (Hmain demo_libs_vram (fun _ => false) 10%nat 1%nat
           (nth 1 (run demo_libs_vram 0 2 demo_self)
                {| outcome := Raise unknown_error; after := demo_self; emitted := [] |})).
  - reflexivity.
  - lia.
  - vm_compute. reflexivity.
  - vm_compute. reflexivity.
Defined.

Lemma enumerate_loop_returns utf8_ignore lib n s r s' w :
  (forall i, 0 <= i < n ->
     exists h nm, nvmlDeviceGetHandleByIndex lib i = Ok h /\
                  gpu_name utf8_ignore lib h = Ok nm) ->
  for_in (range n) (enumerate_device utf8_ignore lib) tt s = (r, s', w) ->
  r = Ok tt.
Proof.
  intros Hok E.
  pose proof (for_in_rule (enumerate_device utf8_ignore lib)
                (fun _ _ _ _ => True) (fun _ _ _ => False) (range n)) as R.
  cbv beta in R.
  assert (H : match r with Ok _ => True | Raise _ => False end).
  { eapply R; [|exact I|exact E].
    intros done x rest [] s1 w1 r1 s1' w1' Hxs _ Hx.
    destruct (range_split _ _ _ _ Hxs) as (_ & Hrange & _).
    destruct (Hok x Hrange) as (h & nm & Hh & Hn).
    pose proof (enumerate_device_spec utf8_ignore lib x tt s1) as Hspec.
    rewrite Hx, Hh, Hn in Hspec. destruct Hspec as (-> & _). exact I. }
  destruct r as [[]|e]; [reflexivity|contradiction].
Qed.

(** C8.  When the library is loaded and reports devices, and every name
    query either answers or fails with [UnicodeDecodeError], the constructor
    returns and records every device, in index order: under its name when
    the query answered (decoded with [errors="ignore"] when it is [bytes]),
    under the placeholder name when decoding failed. *)
Theorem C8_undecodable_name_gets_placeholder utf8_ignore lib c0 n version :
  nvmlInit lib = Ok tt ->
  nvmlDeviceGetCount lib 0%nat = Ok c0 -> 0 < c0 ->
  nvmlDeviceGetCount lib 1%nat = Ok n ->
  nvmlSystemGetDriverVersion lib = Ok version ->
  (forall i, 0 <= i < n ->
     exists h, nvmlDeviceGetHandleByIndex lib i = Ok h /\
               ((exists nm, nvmlDeviceGetName lib h = Ok nm) \/
                (exists e, nvmlDeviceGetName lib h = Raise e /\
                           exn_cls e = UnicodeDecodeError))) ->
  exists self w,
    GPUInfo__init__ utf8_ignore lib GPUInfo_class = (Ok tt, self, w) /\
    List.length (gpus self) = Z.to_nat n /\
    forall i dev,
      nth_error (gpus self) i = Some dev ->
      index dev = Z.of_nat i /\
      exists h,
        nvmlDeviceGetHandleByIndex lib (Z.of_nat i) = Ok h /\
        match nvmlDeviceGetName lib h with
        | Ok (NameBytes b) => name dev = NameStr (utf8_ignore b)
        | Ok (NameStr s) => name dev = NameStr s
        | Raise _ => name dev = NameStr "Unknown GPU (decoding error)"
        end.
Proof.
  intros Hinit Hc0 Hpos Hc1 Hver Hnames.
  assert (Hok : forall i, 0 <= i < n ->
                  exists h nm, nvmlDeviceGetHandleByIndex lib i = Ok h /\
                               gpu_name utf8_ignore lib h = Ok nm).
  { intros i Hi. destruct (Hnames i Hi) as (h & Hh & [(nm & Hn)|(e & Hn & He)]).
    - exists h. unfold gpu_name. rewrite Hn. destruct nm; eauto.
    - exists h. unfold gpu_name, isinstance. rewrite Hn, He. simpl. eauto. }
  destruct (GPUInfo__init__ utf8_ignore lib GPUInfo_class) as [[r self] w] eqn:E.
  assert (Hr : r = Ok tt /\ cudaDevicesFound self = n).
  { revert E.
    unfold GPUInfo__init__, try_except, and_then, libcall, logger, bind, gets,
      lift, tell, modify, ret.
    rewrite Hinit, Hc0, Hc1, Hver. simpl.
    apply Z.ltb_lt in Hpos. rewrite Hpos.
    destruct (for_in (range n) _ tt _) as [[r1 s1] w1] eqn:Eloop.
    pose proof (enumerate_loop_returns _ _ _ _ _ _ _ Hok Eloop) as Hr1. subst r1.
    apply enumerate_loop_spec in Eloop. simpl in Eloop.
    destruct Eloop as (_ & _ & Hfound & _).
    intros H. injection H as Hres Hself _. rewrite <- Hself. simpl. auto. }
  destruct Hr as (-> & Hn). exists self, w. split; [reflexivity|].
  destruct (constructed_well_formed _ _ _ _ E) as (_ & Hlen & _ & _).
  split; [rewrite Hlen, Hn; reflexivity|].
  pose proof (GPUInfo__init___spec utf8_ignore lib GPUInfo_class) as Hspec.
  rewrite E in Hspec. destruct Hspec as (ds & (Hgpus & _) & Hcases).
  simpl in Hgpus. rewrite Hgpus. intros i dev Hdev.
  destruct (Hcases eq_refl) as [(_ & Hall)|(-> & _)]; [|destruct i; discriminate].
  destruct (Forall2_nth_error _ _ _ _ _ Hall Hdev) as (a & Ha & Hidx & h & Hh & Hnm).
  apply nth_error_range in Ha. subst a.
  split; [exact Hidx|]. exists h. split; [exact Hh|].
  unfold gpu_name in Hnm.
  destruct (nvmlDeviceGetName lib h) as [[b|nm]|e].
  - congruence.
  - congruence.
  - destruct (isinstance e UnicodeDecodeError); congruence.
Qed.

Lemma C8_undecodable_name_gets_placeholder_witness :
  exists self w,
    GPUInfo__init__ demo_decode demo_ok GPUInfo_class = (Ok tt, self, w) /\
    List.length (gpus self) = 2%nat /\
    map name (gpus self) = [NameStr "GPU 0"; NameStr "Unknown GPU (decoding error)"].
Proof.
  destruct (C8_undecodable_name_gets_placeholder demo_decode demo_ok 2 2 "535.104"
              eq_refl eq_refl eq_refl eq_refl eq_refl) as (self & w & Hinit & Hlen & _).
  - intros i Hi. exists (100 + i). split; [reflexivity|].
    assert (Hc : i = 0 \/ i = 1) by lia.
    destruct Hc as [->| ->]; [left|right]; eexists; [|split]; reflexivity.
  - exists self, w. split; [exact Hinit|]. split; [exact Hlen|].
    assert (Hself : self = demo_self).
    { destruct demo_constructed as (w' & Hw'). congruence. }
    rewrite Hself. reflexivity.
Defined.

(** C9.  Whenever [getStatus] returns, the [device_type] of its record is
    the empty string. *)
Theorem C9_device_type_is_empty lib s smp s' w :
  getStatus lib s = (Ok smp, s', w) -> device_type smp = "".
Proof.
  rewrite getStatus_eq. destruct (pynvmlLoaded s && cuda s).
  - destruct (sample_loop lib s) as [[[acc|e] s1] w1]; intros H; inversion H; reflexivity.
  - intros H; inversion H; reflexivity.
Qed.

Lemma C9_device_type_is_empty_witness :
  exists smp s' w,
    getStatus demo_ok demo_self = (Ok smp, s', w) /\
    List.length (sample_gpus smp) = 2%nat /\ device_type smp = "".
Proof.
  destruct (getStatus demo_ok demo_self) as [[r s'] w] eqn:E.
  assert (Hr : exists smp, r = Ok smp /\ List.length (sample_gpus smp) = 2%nat).
  { vm_compute in E. inversion E. eexists. split; reflexivity. }
  destruct Hr as (smp & -> & Hlen).
  exists smp, s', w. split; [reflexivity|]. split; [exact Hlen|].
  exact (C9_device_type_is_empty demo_ok demo_self smp s' w E).
Defined.

(** C10.  The percentage is computed by an unguarded division: when the
    memory query of a device reports a total of 0, with the VRAM flags on
    and the queries before it answering, [getStatus] raises
    [ZeroDivisionError]; the division returns exactly when the total is not
    0. *)
Theorem C10_zero_total_raises lib s d h m :
  well_formed s -> sampling s -> 0 <= d < cudaDevicesFound s ->
  (forall i, 0 <= i <= d ->
     exists hi mi, nvmlDeviceGetHandleByIndex lib i = Ok hi /\
                   nvmlDeviceGetMemoryInfo lib hi = Ok mi) ->
  nvmlDeviceGetHandleByIndex lib d = Ok h ->
  nvmlDeviceGetMemoryInfo lib h = Ok m -> total m = 0 ->
  (let '(r, _, _) := getStatus lib s in
   r = Raise {| exn_cls := ZeroDivisionError; exn_str := "division by zero" |}) /\
  (forall a b, (exists q, truediv a b = Ok q) <-> b <> 0).
Proof.
  intros Hwf Hs Hd Hbefore Hh Hm Hz. split.
  - pose proof (getStatus_aborts lib s (eq zero_division) d Hwf Hs Hd) as H.
    assert (Hall : forall i, 0 <= i <= d ->
                     exists hi, nvmlDeviceGetHandleByIndex lib i = Ok hi /\
                                forall e, vram_failure lib hi = Some e ->
                                          zero_division = e).
    { intros i Hi. destruct (Hbefore i Hi) as (hi & mi & Hhi & Hmi).
      exists hi. split; [exact Hhi|]. unfold vram_failure. rewrite Hmi.
      destruct (total mi =? 0); intros e He; congruence. }
    assert (Hf : vram_failure lib h = Some zero_division).
    { unfold vram_failure. rewrite Hm, Hz. reflexivity. }
    specialize (H Hall ltac:(exists h, zero_division; auto)).
    destruct (getStatus lib s) as [[r s'] w]. destruct H as (e & -> & <-). reflexivity.
  - intros a b. unfold truediv. destruct (Z.eqb_spec b 0) as [->|Hne]; split.
    + intros (q & Hq). discriminate.
    + intros Hb. contradiction.
    + intros _. exact Hne.
    + intros _. eexists. reflexivity.
Qed.

Lemma C10_zero_total_raises_witness :
  nvmlDeviceGetMemoryInfo demo_vram_zero 101 = Ok {| total := 0; used := 0 |} /\
  let '(r, _, _) := getStatus demo_vram_zero demo_self in
  r = Raise {| exn_cls := ZeroDivisionError; exn_str := "division by zero" |}.
Proof.
  split; [reflexivity|].
  refine (proj1 (C10_zero_total_raises demo_vram_zero demo_self 1 101
                   {| total := 0; used := 0 |} _ _ _ _ eq_refl eq_refl eq_refl)).
  - destruct demo_constructed as (w & Hw).
    exact (proj1 (constructed_well_formed _ _ _ _ Hw)).
  - split; reflexivity.
  - vm_compute. split; [discriminate|reflexivity].
  - intros i Hi. assert (Hc : i = 0 \/ i = 1) by lia.
    destruct Hc as [->| ->]; eexists; eexists; split; reflexivity.
Defined.

(** * More of the sampler *)

(** ** One device, in full *)

Lemma getStatus_device_failure lib i acc s :
  getitem (gpusUtilization s) i = Ok true ->
  getitem (gpusVRAM s) i = Ok true ->
  getitem (gpusTemperature s) i = Ok true ->
  switchVRAM s = true ->
  let '(r, _, _) := getStatus_device lib i acc s in
  match device_failure lib i with
  | Some e => r = Raise e
  | None => exists acc', r = Ok acc'
  end.
Proof.
  intros Hu Hv Ht Hsw. unfold device_failure.
  destruct (nvmlDeviceGetHandleByIndex lib i) as [h|e] eqn:Hh.
  - exact (getStatus_device_outcome lib i acc s h Hh Hu Hv Ht Hsw).
  - unfold getStatus_device, libcall, bind, tell, lift. rewrite Hh. reflexivity.
Qed.

(** What a device does for the utilization, and for the temperature, when
    its flag can be read. *)
Lemma getStatus_device_util lib i acc s :
  getitem (gpusUtilization s) i = Ok true ->
  let '(r, s', _) := getStatus_device lib i acc s in
  forall acc', r = Ok acc' ->
  exists h e,
    nvmlDeviceGetHandleByIndex lib i = Ok h /\ acc' = acc ++ [e] /\
    if switchGPU s then
      match nvmlDeviceGetUtilizationRates lib h with
      | Ok v => gpu_utilization e = v /\ switchGPU s' = true
      | Raise _ => gpu_utilization e = 0 /\ switchGPU s' = false
      end
    else gpu_utilization e = 0 /\ switchGPU s' = false.
Proof.
  intros Hflag. unfold_device. case_split.
  all: intros acc' Hacc; inversion Hacc; subst; clear Hacc.
  all: simpl in *; try congruence.
  all: eexists; eexists; split; [reflexivity|]; split; [reflexivity|].
  all: repeat match goal with
         | H : ?x = _ |- context [?x] => rewrite H
         end; simpl; auto.
Qed.

Lemma getStatus_device_temp lib i acc s :
  getitem (gpusTemperature s) i = Ok true ->
  let '(r, s', _) := getStatus_device lib i acc s in
  forall acc', r = Ok acc' ->
  exists h e,
    nvmlDeviceGetHandleByIndex lib i = Ok h /\ acc' = acc ++ [e] /\
    if switchTemperature s then
      match nvmlDeviceGetTemperature lib h 0 with
      | Ok v => gpu_temperature e = v /\ switchTemperature s' = true
      | Raise _ => gpu_temperature e = 0 /\ switchTemperature s' = false
      end
    else gpu_temperature e = 0 /\ switchTemperature s' = false.
Proof.
  intros Hflag. unfold_device. case_split.
  all: intros acc' Hacc; inversion Hacc; subst; clear Hacc.
  all: simpl in *; try congruence.
  all: eexists; eexists; split; [reflexivity|]; split; [reflexivity|].
  all: repeat match goal with
         | H : ?x = _ |- context [?x] => rewrite H
         end; simpl; auto.
Qed.

(** A device on which everything is on and every query answers. *)
Lemma getStatus_device_healthy lib i acc s e :
  answers lib i e ->
  switchGPU s = true -> switchVRAM s = true -> switchTemperature s = true ->
  getitem (gpusUtilization s) i = Ok true ->
  getitem (gpusVRAM s) i = Ok true ->
  getitem (gpusTemperature s) i = Ok true ->
  getStatus_device lib i acc s = (Ok (acc ++ [e]), s, map ECall (device_calls lib i)).
Proof.
  intros (h & u & m & t & Hh & Hu & Hm & Hnz & Ht & ->) HsG HsV HsT HfU HfV HfT.
  apply Z.eqb_neq in Hnz. unfold device_calls. rewrite Hh.
  unfold_device. cbv beta.
  rewrite Hh, HsG. cbv beta iota zeta. rewrite HfU. cbv beta iota zeta.
  rewrite Hu. cbv beta iota zeta. rewrite HsV. cbv beta iota zeta.
  rewrite HfV. cbv beta iota zeta. rewrite Hm. cbv beta iota zeta.
  rewrite Hnz. cbv beta iota zeta. rewrite HsT. cbv beta iota zeta.
  rewrite HfT. cbv beta iota zeta. rewrite Ht. reflexivity.
Qed.

(** The turn-off notices of a device: none, or one and the switch goes
    off. *)
Lemma getStatus_device_notices lib i acc s :
  let '(_, s', w) := getStatus_device lib i acc s in
  (filter gpu_off_notice w = [] \/
   List.length (filter gpu_off_notice w) = 1%nat /\
   switchGPU s = true /\ switchGPU s' = false) /\
  (filter temp_off_notice w = [] \/
   List.length (filter temp_off_notice w) = 1%nat /\
   switchTemperature s = true /\ switchTemperature s' = false).
Proof.
  unfold_device. case_split.
  all: simpl in *; split; try (left; reflexivity).
  all: right; repeat split; assumption.
Qed.

Lemma getStatus_device_events lib i acc s :
  let '(_, _, w) := getStatus_device lib i acc s in Forall sampler_event w.
Proof. unfold_device. case_split. all: repeat constructor. Qed.

(** ** One tick, in full *)

Lemma first_failure_app fails l1 l2 :
  first_failure fails (l1 ++ l2) =
  match first_failure fails l1 with
  | Some e => Some e
  | None => first_failure fails l2
  end.
Proof.
  induction l1 as [|i l1 IH]; simpl; [reflexivity|].
  destruct (fails i); [reflexivity|exact IH].
Qed.

Lemma first_failure_none fails l :
  first_failure fails l = None <-> forall i, In i l -> fails i = None.
Proof.
  induction l as [|i l IH]; simpl.
  - split; [intros _ j []|reflexivity].
  - destruct (fails i) eqn:E.
    + split; [discriminate|]. intros H. rewrite (H i (or_introl eq_refl)) in E.
      discriminate.
    + rewrite IH. split.
      * intros H j [<-|Hj]; auto.
      * intros H j Hj. apply H. right. exact Hj.
Qed.

(** X8.  Whether a tick returns is decided by the handle lookups and the
    VRAM blocks alone: [getStatus] raises the exception of the first device
    whose handle lookup or VRAM block fails, and returns when there is none.
    Nothing else escapes: no utilization or temperature exception, no
    [IndexError]. *)
Theorem X8_tick_outcome lib s :
  well_formed s -> sampling s ->
  let '(r, _, _) := getStatus lib s in
  match first_failure (device_failure lib) (range (cudaDevicesFound s)) with
  | Some e => r = Raise e
  | None => exists smp, r = Ok smp
  end.
Proof.
  intros Hwf Hs. rewrite (getStatus_sampling _ _ Hs).
  destruct (sample_loop lib s) as [[r s'] w] eqn:E. unfold sample_loop in E.
  set (xs := range (cudaDevicesFound s)) in *.
  pose proof (for_in_rule (getStatus_device lib)
                (fun done _ s' _ =>
                   degrades s s' /\ first_failure (device_failure lib) done = None)
                (fun e _ _ => first_failure (device_failure lib) xs = Some e)
                xs) as R.
  cbv beta in R.
  assert (H : match r with
              | Ok _ => degrades s s' /\ first_failure (device_failure lib) xs = None
              | Raise e => first_failure (device_failure lib) xs = Some e
              end).
  { eapply R; [|split; [apply degrades_refl|reflexivity]|exact E].
    intros done x rest acc s1 w1 r1 s1' w1' Hxs (Hdeg & Hnone) Hx.
    destruct (range_split _ _ _ _ Hxs) as (_ & Hrange & _).
    assert (Hwf1 : well_formed s1) by (eapply well_formed_degrades; eassumption).
    assert (Hx1 : 0 <= x < cudaDevicesFound s1)
      by (destruct Hdeg as (_ & _ & -> & _); exact Hrange).
    destruct (well_formed_flags _ _ Hwf1 Hx1) as (Hfu & Hfv & Hft).
    pose proof (getStatus_device_failure lib x acc s1 Hfu Hfv Hft (proj1 Hwf1)) as Ho.
    pose proof (getStatus_device_degrades lib x acc s1) as Hd.
    rewrite Hx in Ho, Hd.
    destruct (device_failure lib x) as [e|] eqn:Hf.
    - subst r1. rewrite Hxs, first_failure_app, Hnone. simpl. now rewrite Hf.
    - destruct Ho as (acc' & ->). split; [eapply degrades_trans; eassumption|].
      rewrite first_failure_app, Hnone. simpl. now rewrite Hf. }
  destruct r as [acc|e].
  - rewrite (proj2 H). eexists. reflexivity.
  - rewrite H. reflexivity.
Qed.

Lemma X8_tick_outcome_witness :
  first_failure (device_failure demo_vram_fails) (range 2) =
    Some {| exn_cls := NVMLError; exn_str := "GPU is lost" |} /\
  let '(r, _, _) := getStatus demo_vram_fails demo_self in
  r = Raise {| exn_cls := NVMLError; exn_str := "GPU is lost" |}.
Proof.
  split; [reflexivity|].
  assert (Hwf : well_formed demo_self).
  { destruct demo_constructed as (w & Hw).
    exact (proj1 (constructed_well_formed _ _ _ _ Hw)). }
  exact (X8_tick_outcome demo_vram_fails demo_self Hwf (conj eq_refl eq_refl)).
Defined.

(** X9.  A tick on which both switches are on and every query of every
    device answers, with a nonzero memory total: [getStatus] returns one
    entry per device holding the answers, leaves the object as it was, and
    emits nothing but its library calls, four per device in device order:
    handle, utilization, memory, temperature. *)
Theorem X9_healthy_tick lib s :
  well_formed s -> sampling s ->
  switchGPU s = true -> switchTemperature s = true ->
  (forall i, 0 <= i < cudaDevicesFound s -> exists e, answers lib i e) ->
  exists smp,
    getStatus lib s =
      (Ok smp, s, map ECall (flat_map (device_calls lib) (range (cudaDevicesFound s)))) /\
    device_type smp = "" /\
    Forall2 (answers lib) (range (cudaDevicesFound s)) (sample_gpus smp).
Proof.
  intros Hwf Hs HsG HsT Hall. rewrite (getStatus_sampling _ _ Hs).
  destruct (sample_loop lib s) as [[r s'] w] eqn:E. unfold sample_loop in E.
  set (xs := range (cudaDevicesFound s)) in *.
  pose proof (for_in_rule (getStatus_device lib)
                (fun done acc s' w =>
                   s' = s /\ w = map ECall (flat_map (device_calls lib) done) /\
                   Forall2 (answers lib) done acc)
                (fun _ _ _ => False)
                xs) as R.
  cbv beta in R.
  assert (H : match r with
              | Ok acc =>
                  s' = s /\ w = map ECall (flat_map (device_calls lib) xs) /\
                  Forall2 (answers lib) xs acc
              | Raise _ => False
              end).
  { eapply R; [|repeat split; constructor|exact E].
    intros done x rest acc s1 w1 r1 s1' w1' Hxs (-> & -> & Hacc) Hx.
    destruct (range_split _ _ _ _ Hxs) as (_ & Hrange & _).
    destruct (well_formed_flags _ _ Hwf Hrange) as (Hfu & Hfv & Hft).
    destruct (Hall x Hrange) as (e & He).
    rewrite (getStatus_device_healthy lib x acc s e He HsG (proj1 Hwf) HsT Hfu Hfv Hft)
      in Hx.
    inversion Hx; subst. split; [reflexivity|]. split.
    - rewrite flat_map_app, map_app. simpl. now rewrite app_nil_r.
    - apply Forall2_app; [exact Hacc|]. constructor; [exact He|constructor]. }
  destruct r as [acc|e]; [|contradiction].
  destruct H as (-> & -> & Hacc). eexists. split; [reflexivity|]. auto.
Qed.

Lemma X9_healthy_tick_witness :
  exists smp,
    getStatus demo_ok demo_self =
      (Ok smp, demo_self,
       map ECall [CDeviceGetHandleByIndex 0; CDeviceGetUtilizationRates 100;
                  CDeviceGetMemoryInfo 100; CDeviceGetTemperature 100 0;
                  CDeviceGetHandleByIndex 1; CDeviceGetUtilizationRates 101;
                  CDeviceGetMemoryInfo 101; CDeviceGetTemperature 101 0]) /\
    device_type smp = "" /\
    Forall2 (answers demo_ok) [0; 1] (sample_gpus smp).
Proof.
  assert (Hwf : well_formed demo_self).
  { destruct demo_constructed as (w & Hw).
    exact (proj1 (constructed_well_formed _ _ _ _ Hw)). }
  refine (X9_healthy_tick demo_ok demo_self Hwf (conj eq_refl eq_refl) eq_refl eq_refl _).
  intros i Hi. assert (Hc : i = 0 \/ i = 1) by (change (cudaDevicesFound demo_self) with 2 in Hi; lia).
  destruct Hc as [->| ->]; do 5 eexists;
    (split; [reflexivity|]); (split; [reflexivity|]); (split; [reflexivity|]);
    (split; [simpl; discriminate|]); split; reflexivity.
Defined.

(** ** The column of a guarded metric

    The utilization and the temperature are guarded the same way; what
    follows is proved once, for a switch [sw], a field [fld] and a query
    [qry] that a device treats as lines 95-108 and 119-129 do. *)
Section Metric.

Variable lib : Nvml.
Variable sw : GPUInfo -> bool.
Variable fld : GPUStatus -> Z.
Variable qry : handle -> result Z.

Hypothesis device_metric :
  forall i acc s,
    well_formed s -> 0 <= i < cudaDevicesFound s ->
    let '(r, s', _) := getStatus_device lib i acc s in
    forall acc', r = Ok acc' ->
    exists h e,
      nvmlDeviceGetHandleByIndex lib i = Ok h /\ acc' = acc ++ [e] /\
      if sw s then
        match qry h with
        | Ok v => fld e = v /\ sw s' = true
        | Raise _ => fld e = 0 /\ sw s' = false
        end
      else fld e = 0 /\ sw s' = false.

Lemma metric_column s :
  well_formed s ->
  let '(r, s', _) := sample_loop lib s in
  forall acc, r = Ok acc ->
    Forall2
      (fun i e =>
         (sw s = true /\
          (forall j, 0 <= j <= i ->
             ~ exists h x, nvmlDeviceGetHandleByIndex lib j = Ok h /\ qry h = Raise x) ->
          exists h, nvmlDeviceGetHandleByIndex lib i = Ok h /\ qry h = Ok (fld e)) /\
         (sw s = false \/
          (exists j, 0 <= j <= i /\
             exists h x, nvmlDeviceGetHandleByIndex lib j = Ok h /\ qry h = Raise x) ->
          fld e = 0))
      (range (cudaDevicesFound s)) acc /\
    (sw s' = true <->
     sw s = true /\
     forall j, 0 <= j < cudaDevicesFound s ->
       ~ exists h x, nvmlDeviceGetHandleByIndex lib j = Ok h /\ qry h = Raise x).
Proof.
  intros Hwf.
  destruct (sample_loop lib s) as [[r s'] w] eqn:E. unfold sample_loop in E.
  set (refused := fun j : Z =>
         exists h x, nvmlDeviceGetHandleByIndex lib j = Ok h /\ qry h = Raise x).
  set (col := fun (i : Z) (e : GPUStatus) =>
         (sw s = true /\ (forall j, 0 <= j <= i -> ~ refused j) ->
          exists h, nvmlDeviceGetHandleByIndex lib i = Ok h /\ qry h = Ok (fld e)) /\
         (sw s = false \/ (exists j, 0 <= j <= i /\ refused j) -> fld e = 0)).
  pose proof (for_in_rule (getStatus_device lib)
                (fun done acc s' _ =>
                   degrades s s' /\ Forall2 col done acc /\
                   (sw s' = true <->
                    sw s = true /\ forall j, In j done -> ~ refused j))
                (fun _ _ _ => True)
                (range (cudaDevicesFound s))) as R.
  cbv beta in R.
  assert (H : match r with
              | Ok acc =>
                  degrades s s' /\ Forall2 col (range (cudaDevicesFound s)) acc /\
                  (sw s' = true <->
                   sw s = true /\
                   forall j, In j (range (cudaDevicesFound s)) -> ~ refused j)
              | Raise _ => True
              end).
  { eapply R; [| |exact E].
    - intros done x rest acc s1 w1 r1 s1' w1' Hxs (Hdeg & Hcol & Hsw) Hx.
      destruct r1 as [acc1|e1]; [|exact I].
      destruct (range_split _ _ _ _ Hxs) as (_ & Hrange & Hdone).
      assert (Hwf1 : well_formed s1) by (eapply well_formed_degrades; eassumption).
      assert (Hx1 : 0 <= x < cudaDevicesFound s1)
        by (destruct Hdeg as (_ & _ & -> & _); exact Hrange).
      pose proof (device_metric x acc s1 Hwf1 Hx1) as Hm.
      pose proof (getStatus_device_degrades lib x acc s1) as Hd.
      rewrite Hx in Hm, Hd.
      destruct (Hm _ eq_refl) as (h & e & Hh & -> & Hcase).
      assert (Hin : forall j, In j done <-> 0 <= j < x)
        by (intros j; rewrite Hdone; apply in_range).
      assert (Hx_ok : forall v, qry h = Ok v -> ~ refused x).
      { intros v Hv (h' & x' & Hh' & Hq'). congruence. }
      assert (Hx_bad : forall x', qry h = Raise x' -> refused x).
      { intros x' Hq. exists h, x'. auto. }
      split; [eapply degrades_trans; eassumption|].
      destruct (sw s1) eqn:Hs1.
      + destruct (proj1 Hsw eq_refl) as (Hs0 & Hnone).
        destruct (qry h) as [v|x'] eqn:Hq; destruct Hcase as (Hfld & Hs1').
        * split.
          { apply Forall2_app; [exact Hcol|]. constructor; [|constructor]. split.
            - intros _. exists h. rewrite Hfld. auto.
            - intros [Hoff|(j & Hj & Hr)]; [congruence|]. exfalso.
              destruct (Z.eq_dec j x) as [->|Hne].
              + exact (Hx_ok v eq_refl Hr).
              + apply (Hnone j); [apply Hin; lia|exact Hr]. }
          { split; [intros _|intros _; exact Hs1'].
            split; [exact Hs0|]. intros j Hj. apply in_app_or in Hj.
            destruct Hj as [Hj|[<-|[]]]; [auto|exact (Hx_ok v eq_refl)]. }
        * split.
          { apply Forall2_app; [exact Hcol|]. constructor; [|constructor]. split.
            - intros (_ & Hno). exfalso. apply (Hno x); [lia|exact (Hx_bad x' eq_refl)].
            - intros _. exact Hfld. }
          { split; [congruence|]. intros (_ & Hno). exfalso.
            apply (Hno x); [apply in_or_app; right; left; reflexivity|].
            exact (Hx_bad x' eq_refl). }
      + destruct Hcase as (Hfld & Hs1').
        assert (Hnot : ~ (sw s = true /\ forall j, In j done -> ~ refused j)).
        { intros Hc. apply Hsw in Hc. congruence. }
        split.
        { apply Forall2_app; [exact Hcol|]. constructor; [|constructor]. split.
          - intros (Hs0 & Hno). exfalso. apply Hnot. split; [exact Hs0|].
            intros j Hj. apply Hno. apply Hin in Hj. lia.
          - intros _. exact Hfld. }
        { split; [congruence|]. intros (Hs0 & Hno). exfalso. apply Hnot.
          split; [exact Hs0|]. intros j Hj. apply Hno. apply in_or_app. left. exact Hj. }
    - split; [apply degrades_refl|]. split; [constructor|].
      split; [intros Hon; split; [exact Hon|intros j []]|intros (Hon & _); exact Hon]. }
  intros acc ->. destruct H as (_ & Hcol & Hsw). split; [exact Hcol|].
  rewrite Hsw. split; intros (Hon & Hno); (split; [exact Hon|]); intros j Hj.
  - apply Hno. apply in_range. exact Hj.
  - apply Hno. apply in_range. exact Hj.
Qed.

End Metric.

(** X10.  The utilization column of a returned sample: the entry of device
    [i] holds the library's answer when the switch was on at the start of
    the tick and no device up to [i] had its query refused, and the
    sentinel 0 otherwise; the switch is on after the tick exactly when it
    was on before and no device had its query refused.  The temperature
    queries play no part. *)
Theorem X10_utilization_column lib s smp s' w :
  well_formed s -> sampling s ->
  getStatus lib s = (Ok smp, s', w) ->
  (forall i e,
      nth_error (sample_gpus smp) i = Some e ->
      (switchGPU s = true /\
       (forall j, 0 <= j <= Z.of_nat i -> ~ util_raises lib j) ->
       exists h, nvmlDeviceGetHandleByIndex lib (Z.of_nat i) = Ok h /\
                 nvmlDeviceGetUtilizationRates lib h = Ok (gpu_utilization e)) /\
      (switchGPU s = false \/
       (exists j, 0 <= j <= Z.of_nat i /\ util_raises lib j) ->
       gpu_utilization e = 0)) /\
  (switchGPU s' = true <->
   switchGPU s = true /\
   forall j, 0 <= j < cudaDevicesFound s -> ~ util_raises lib j).
Proof.
  intros Hwf Hs Hget. rewrite (getStatus_sampling _ _ Hs) in Hget.
  pose proof (metric_column lib switchGPU gpu_utilization
                (nvmlDeviceGetUtilizationRates lib)
                ltac:(intros i acc s0 Hwf0 Hi;
                      exact (getStatus_device_util lib i acc s0
                               (proj1 (well_formed_flags _ _ Hwf0 Hi))))
                s Hwf) as H.
  destruct (sample_loop lib s) as [[[acc|e0] s1] w1]; [|discriminate].
  inversion Hget; subst. simpl. destruct (H acc eq_refl) as (Hcol & Hsw).
  split; [|exact Hsw].
  intros i e Hi. destruct (Forall2_nth_error _ _ _ _ _ Hcol Hi) as (a & Ha & Hrel).
  apply nth_error_range in Ha. subst a. exact Hrel.
Qed.

Lemma X10_utilization_column_witness :
  exists smp s' w,
    getStatus demo_util_fails demo_self = (Ok smp, s', w) /\
    map gpu_utilization (sample_gpus smp) = [0; 0] /\
    switchGPU s' = false /\
    (switchGPU s' = true <->
     switchGPU demo_self = true /\
     forall j, 0 <= j < cudaDevicesFound demo_self -> ~ util_raises demo_util_fails j).
Proof.
  destruct (getStatus demo_util_fails demo_self) as [[r s'] w] eqn:E.
  assert (Hr : exists smp, r = Ok smp /\ map gpu_utilization (sample_gpus smp) = [0; 0] /\
                           switchGPU s' = false).
  { vm_compute in E. inversion E. eexists. repeat split. }
  destruct Hr as (smp & -> & Hcol & Hoff).
  exists smp, s', w. split; [reflexivity|]. split; [exact Hcol|]. split; [exact Hoff|].
  assert (Hwf : well_formed demo_self).
  { destruct demo_constructed as (w0 & Hw0).
    exact (proj1 (constructed_well_formed _ _ _ _ Hw0)). }
  exact (proj2 (X10_utilization_column demo_util_fails demo_self smp s' w Hwf
                  (conj eq_refl eq_refl) E)).
Defined.

(** X11.  The temperature column of a returned sample: the entry of device
    [i] holds the library's answer when the switch was on at the start of
    the tick and no device up to [i] had its query refused, and the
    sentinel 0 otherwise; the switch is on after the tick exactly when it
    was on before and no device had its query refused.  The utilization
    queries play no part. *)
Theorem X11_temperature_column lib s smp s' w :
  well_formed s -> sampling s ->
  getStatus lib s = (Ok smp, s', w) ->
  (forall i e,
      nth_error (sample_gpus smp) i = Some e ->
      (switchTemperature s = true /\
       (forall j, 0 <= j <= Z.of_nat i -> ~ temp_raises lib j) ->
       exists h, nvmlDeviceGetHandleByIndex lib (Z.of_nat i) = Ok h /\
                 nvmlDeviceGetTemperature lib h 0 = Ok (gpu_temperature e)) /\
      (switchTemperature s = false \/
       (exists j, 0 <= j <= Z.of_nat i /\ temp_raises lib j) ->
       gpu_temperature e = 0)) /\
  (switchTemperature s' = true <->
   switchTemperature s = true /\
   forall j, 0 <= j < cudaDevicesFound s -> ~ temp_raises lib j).
Proof.
  intros Hwf Hs Hget. rewrite (getStatus_sampling _ _ Hs) in Hget.
  pose proof (metric_column lib switchTemperature gpu_temperature
                (fun h => nvmlDeviceGetTemperature lib h 0)
                ltac:(intros i acc s0 Hwf0 Hi;
                      exact (getStatus_device_temp lib i acc s0
                               (proj2 (proj2 (well_formed_flags _ _ Hwf0 Hi)))))
                s Hwf) as H.
  destruct (sample_loop lib s) as [[[acc|e0] s1] w1]; [|discriminate].
  inversion Hget; subst. simpl. destruct (H acc eq_refl) as (Hcol & Hsw).
  split; [|exact Hsw].
  intros i e Hi. destruct (Forall2_nth_error _ _ _ _ _ Hcol Hi) as (a & Ha & Hrel).
  apply nth_error_range in Ha. subst a. exact Hrel.
Qed.

Lemma X11_temperature_column_witness :
  exists smp s' w,
    getStatus demo_util_fails demo_self = (Ok smp, s', w) /\
    map gpu_utilization (sample_gpus smp) = [0; 0] /\
    map gpu_temperature (sample_gpus smp) = [60; 60] /\
    (switchTemperature s' = true <->
     switchTemperature demo_self = true /\
     forall j, 0 <= j < cudaDevicesFound demo_self -> ~ temp_raises demo_util_fails j).
Proof.
  destruct (getStatus demo_util_fails demo_self) as [[r s'] w] eqn:E.
  assert (Hr : exists smp, r = Ok smp /\ map gpu_utilization (sample_gpus smp) = [0; 0] /\
                           map gpu_temperature (sample_gpus smp) = [60; 60]).
  { vm_compute in E. inversion E. eexists. repeat split. }
  destruct Hr as (smp & -> & Hu & Ht).
  exists smp, s', w. split; [reflexivity|]. split; [exact Hu|]. split; [exact Ht|].
  assert (Hwf : well_formed demo_self).
  { destruct demo_constructed as (w0 & Hw0).
    exact (proj1 (constructed_well_formed _ _ _ _ Hw0)). }
  exact (proj2 (X11_temperature_column demo_util_fails demo_self smp s' w Hwf
                  (conj eq_refl eq_refl) E)).
Defined.

(** ** Along an execution *)

Lemma run_degrades libs n t0 self t rec :
  nth_error (run libs t0 n self) t = Some rec -> degrades self (after rec).
Proof.
  intros Ht.
  destruct (run_nth libs (degrades self) (degrades_keep self) n t0 self t rec
              (degrades_refl self) Ht) as (before & Hdeg & Hg).
  pose proof (getStatus_degrades (libs (t0 + t)%nat) before) as Hd.
  rewrite Hg in Hd. eapply degrades_trans; eassumption.
Qed.

(** X12.  A tick, whether it returns or raises, leaves the device list,
    the device count, [cuda], [pynvmlLoaded], the VRAM switch and the three
    per-device flag lists exactly as the constructor left them: of all
    attributes only [switchGPU] and [switchTemperature] ever change after
    construction. *)
Theorem X12_ticks_keep_the_enumeration libs n self t rec :
  nth_error (run libs 0 n self) t = Some rec ->
  gpus (after rec) = gpus self /\
  cudaDevicesFound (after rec) = cudaDevicesFound self /\
  cuda (after rec) = cuda self /\
  pynvmlLoaded (after rec) = pynvmlLoaded self /\
  switchVRAM (after rec) = switchVRAM self /\
  gpusUtilization (after rec) = gpusUtilization self /\
  gpusVRAM (after rec) = gpusVRAM self /\
  gpusTemperature (after rec) = gpusTemperature self.
Proof.
  intros Ht. pose proof (run_degrades _ _ _ _ _ _ Ht) as H.
  unfold degrades in H. intuition.
Qed.

Lemma X12_ticks_keep_the_enumeration_witness :
  exists rec e,
    nth_error (run demo_libs_vram 0 5 demo_self) 1 = Some rec /\
    outcome rec = Raise e /\
    switchGPU (after rec) = false /\
    gpus (after rec) = gpus demo_self /\
    cudaDevicesFound (after rec) = 2.
Proof.
  destruct (nth_error (run demo_libs_vram 0 5 demo_self) 1) as [rec|] eqn:Hrec;
    [|vm_compute in Hrec; discriminate].
  pose proof (X12_ticks_keep_the_enumeration demo_libs_vram 5 demo_self 1 rec Hrec)
    as (Hg & Hn & _).
  exists rec. vm_compute in Hrec. inversion Hrec as [Heq].
  eexists. split; [reflexivity|]. split; [reflexivity|]. split; [reflexivity|].
  rewrite Heq. split; [exact Hg|rewrite Hn; reflexivity].
Defined.

(** The notices of a guarded metric: [notice] recognises the log line of
    the handler that turns [sw] off. *)
Section Notices.

Variable notice : event -> bool.
Variable sw : GPUInfo -> bool.

Hypothesis sw_degrades :
  forall s s', degrades s s' -> sw s = false -> sw s' = false.

Hypothesis device_notices :
  forall lib i acc s,
    let '(_, s', w) := getStatus_device lib i acc s in
    filter notice w = [] \/
    List.length (filter notice w) = 1%nat /\ sw s = true /\ sw s' = false.

Lemma getStatus_notices lib s :
  let '(_, s', w) := getStatus lib s in
  degrades s s' /\
  (filter notice w = [] \/
   List.length (filter notice w) = 1%nat /\ sw s = true /\ sw s' = false).
Proof.
  pose proof (getStatus_degrades lib s) as Hdeg. rewrite getStatus_eq in *.
  destruct (pynvmlLoaded s && cuda s); [|split; [exact Hdeg|left; reflexivity]].
  destruct (sample_loop lib s) as [[r s'] w] eqn:E. unfold sample_loop in E.
  set (I := fun (s' : GPUInfo) (w : list event) =>
              degrades s s' /\
              (filter notice w = [] \/
               List.length (filter notice w) = 1%nat /\ sw s = true /\ sw s' = false)).
  pose proof (for_in_rule (getStatus_device lib)
                (fun _ _ s' w => I s' w) (fun _ s' w => I s' w)
                (range (cudaDevicesFound s))) as R.
  cbv beta in R.
  assert (H : match r with Ok _ => I s' w | Raise _ => I s' w end).
  { eapply R; [|split; [apply degrades_refl|left; reflexivity]|exact E].
    intros done x rest acc s1 w1 r1 s1' w1' _ (Hd & Hn) Hx.
    pose proof (device_notices lib x acc s1) as Hdev.
    pose proof (getStatus_device_degrades lib x acc s1) as Hd1.
    rewrite Hx in Hdev, Hd1.
    assert (HI : I s1' (w1 ++ w1')).
    { split; [eapply degrades_trans; eassumption|]. rewrite filter_app.
      destruct Hn as [Hnone|(Hone & Hon & Hoff)].
      - rewrite Hnone. simpl.
        destruct Hdev as [Hnone'|(Hone' & Hon' & Hoff')]; [left; exact Hnone'|].
        right. repeat split; [exact Hone'| |exact Hoff'].
        destruct (sw s) eqn:Hs; [reflexivity|].
        rewrite (sw_degrades _ _ Hd Hs) in Hon'. discriminate.
      - destruct Hdev as [Hnone'|(_ & Hon' & _)]; [|congruence].
        rewrite Hnone', app_nil_r. right. repeat split; [exact Hone|exact Hon|].
        eapply sw_degrades; eassumption. }
    destruct r1; exact HI. }
  destruct r; exact H.
Qed.

Lemma run_notices libs :
  forall n t0 s,
    (List.length (filter notice (events_of (run libs t0 n s))) <= 1)%nat /\
    (sw s = false -> filter notice (events_of (run libs t0 n s)) = []).
Proof.
  induction n as [|n IH]; intros t0 s; [simpl; split; [lia|reflexivity]|].
  simpl. pose proof (getStatus_notices (libs t0) s) as Htick.
  destruct (getStatus (libs t0) s) as [[r s'] w].
  destruct Htick as (Hdeg & Hn). unfold events_of. simpl. rewrite filter_app.
  assert (Hrest : (List.length (filter notice
                     (flat_map emitted
                        match r with
                        | Ok _ => run libs (S t0) n s'
                        | Raise _ => []
                        end)) <= 1)%nat /\
                  (sw s' = false ->
                   filter notice
                     (flat_map emitted
                        match r with
                        | Ok _ => run libs (S t0) n s'
                        | Raise _ => []
                        end) = [])).
  { destruct r; [exact (IH (S t0) s')|]. simpl. split; [lia|reflexivity]. }
  destruct Hrest as (Hle & Hzero). rewrite length_app.
  destruct Hn as [Hnone|(Hone & Hon & Hoff)].
  - rewrite Hnone. simpl. split; [exact Hle|].
    intros Hs. apply Hzero. eapply sw_degrades; eassumption.
  - rewrite (Hzero Hoff), app_nil_r. simpl. split; [lia|congruence].
Qed.

End Notices.

(** X13.  In a whole execution the notice that the utilization is being
    turned off is logged at most once, and so is the notice for the
    temperature: a metric that failed is never reported failing again. *)
Theorem X13_failure_is_logged_once libs n self :
  (List.length (filter gpu_off_notice (events_of (run libs 0 n self))) <= 1)%nat /\
  (List.length (filter temp_off_notice (events_of (run libs 0 n self))) <= 1)%nat.
Proof.
  split.
  - refine (proj1 (run_notices gpu_off_notice switchGPU degrades_switchGPU _ libs n 0%nat self)).
    intros lib i acc s. pose proof (getStatus_device_notices lib i acc s) as H.
    destruct (getStatus_device lib i acc s) as [[r s'] w]. exact (proj1 H).
  - refine (proj1 (run_notices temp_off_notice switchTemperature
                     degrades_switchTemperature _ libs n 0%nat self)).
    intros lib i acc s. pose proof (getStatus_device_notices lib i acc s) as H.
    destruct (getStatus_device lib i acc s) as [[r s'] w]. exact (proj2 H).
Qed.

Lemma X13_failure_is_logged_once_witness :
  (forall t, nvmlDeviceGetUtilizationRates ((fun _ : nat => demo_util_fails) t) 100
             = Raise unknown_error) /\
  List.length (filter gpu_off_notice
                 (events_of (run (fun _ : nat => demo_util_fails) 0 4 demo_self))) = 1%nat /\
  (List.length (filter gpu_off_notice
                  (events_of (run (fun _ : nat => demo_util_fails) 0 4 demo_self))) <= 1)%nat.
Proof.
  split; [reflexivity|]. split; [vm_compute; reflexivity|].
  exact (proj1 (X13_failure_is_logged_once (fun _ : nat => demo_util_fails) 4 demo_self)).
Defined.

(** ** What the sampler and the constructor emit *)

Lemma getStatus_events lib s :
  let '(_, _, w) := getStatus lib s in Forall sampler_event w.
Proof.
  rewrite getStatus_eq. destruct (pynvmlLoaded s && cuda s); [|constructor].
  destruct (sample_loop lib s) as [[r s'] w] eqn:E. unfold sample_loop in E.
  pose proof (for_in_rule (getStatus_device lib)
                (fun _ _ _ w => Forall sampler_event w)
                (fun _ _ w => Forall sampler_event w)
                (range (cudaDevicesFound s))) as R.
  cbv beta in R.
  assert (H : match r with
              | Ok _ => Forall sampler_event w
              | Raise _ => Forall sampler_event w
              end).
  { eapply R; [|constructor|exact E].
    intros done x rest acc s1 w1 r1 s1' w1' _ HP Hx.
    pose proof (getStatus_device_events lib x acc s1) as Hd. rewrite Hx in Hd.
    destruct r1; apply Forall_app; auto. }
  destruct r; exact H.
Qed.

Lemma enumerate_device_events utf8_ignore lib i u s :
  let '(_, _, w) := enumerate_device utf8_ignore lib i u s in Forall sampler_event w.
Proof.
  unfold enumerate_device, try_except, libcall, logger, bind, lift, tell,
    modify, ret, decode.
  case_split. all: repeat constructor.
Qed.

Lemma enumerate_loop_events utf8_ignore lib xs u s r s' w :
  for_in xs (enumerate_device utf8_ignore lib) u s = (r, s', w) ->
  Forall sampler_event w.
Proof.
  intros E.
  pose proof (for_in_rule (enumerate_device utf8_ignore lib)
                (fun _ _ _ w => Forall sampler_event w)
                (fun _ _ w => Forall sampler_event w) xs) as R.
  cbv beta in R.
  assert (H : match r with
              | Ok _ => Forall sampler_event w
              | Raise _ => Forall sampler_event w
              end).
  { eapply R; [|constructor|exact E].
    intros done x rest acc s1 w1 r1 s1' w1' _ HP Hx.
    pose proof (enumerate_device_events utf8_ignore lib x acc s1) as Hd.
    rewrite Hx in Hd. destruct r1; apply Forall_app; auto. }
  destruct r; exact H.
Qed.

Lemma GPUInfo__init___events utf8_ignore lib s :
  let '(_, _, w) := GPUInfo__init__ utf8_ignore lib s in Forall sampler_event w.
Proof.
  unfold GPUInfo__init__, try_except, and_then, libcall, logger, bind, gets,
    lift, tell, modify, ret.
  case_split.
  all: subst; simpl.
  all: try match goal with
         | H : for_in _ _ _ _ = _ |- _ => apply enumerate_loop_events in H
         end.
  all: repeat first [ assumption
                    | apply Forall_app; split
                    | apply Forall_cons; [exact I|]
                    | apply Forall_nil ].
Qed.

Lemma sampler_events_console w :
  Forall sampler_event w -> prints w = [] /\ sleeps w = [].
Proof.
  induction 1 as [|ev w Hev _ (IHp & IHs)]; [split; reflexivity|].
  destruct ev; simpl in *; try contradiction; auto.
Qed.

Lemma prints_app w1 w2 : prints (w1 ++ w2) = prints w1 ++ prints w2.
Proof. apply flat_map_app. Qed.

Lemma sleeps_app w1 w2 : sleeps (w1 ++ w2) = sleeps w1 ++ sleeps w2.
Proof. apply flat_map_app. Qed.

(** ** The console and the clock of the main loop *)

Section MainConsole.

Variables (libs : nat -> Nvml) (signals : nat -> bool).

Lemma main_loop_console :
  forall k fuel tick killer results s,
    kill_now killer = false ->
    (forall i, (tick <= i < tick + k)%nat -> signals i = false) ->
    signals (tick + k)%nat = true \/ failure_of (run libs tick k s) <> None ->
    (k < fuel)%nat ->
    let '(_, _, w) := main_loop libs signals fuel tick killer results s in
    prints w = samples_of (run libs tick k s) /\
    sleeps w = repeat 1 (List.length (samples_of (run libs tick k s))).
Proof.
  induction k as [|k IH]; intros fuel tick killer results s Hk Hquiet Hend Hfuel;
    (destruct fuel as [|fuel]; [lia|]); simpl.
  - destruct Hend as [Hsig|Hf]; [|contradiction Hf; reflexivity].
    rewrite Nat.add_0_r in Hsig. rewrite Hsig. simpl. unfold ret. auto.
  - rewrite (Hquiet tick ltac:(lia)), Hk.
    pose proof (getStatus_events (libs tick) s) as Hev.
    unfold bind at 1.
    destruct (getStatus (libs tick) s) as [[[smp|e] s1] w1] eqn:E; simpl.
    + destruct (sampler_events_console _ Hev) as (Hp & Hs).
      unfold bind, tell. simpl.
      specialize (IH fuel (S tick) killer (results ++ [smp]) s1 Hk).
      assert (Hq : forall i, (S tick <= i < S tick + k)%nat -> signals i = false)
        by (intros i Hi; apply Hquiet; lia).
      assert (He : signals (S tick + k)%nat = true \/
                   failure_of (run libs (S tick) k s1) <> None).
      { destruct Hend as [Hsig|Hf]; [left|right].
        - replace (S tick + k)%nat with (tick + S k)%nat by lia. exact Hsig.
        - simpl in Hf. rewrite E in Hf. exact Hf. }
      specialize (IH Hq He ltac:(lia)).
      destruct (main_loop libs signals fuel (S tick) killer (results ++ [smp]) s1)
        as [[r2 s2] w2].
      destruct IH as (Hp2 & Hs2).
      rewrite prints_app, sleeps_app, Hp, Hs. simpl. rewrite Hp2, Hs2. auto.
    + exact (sampler_events_console _ Hev).
Qed.

(** As long as no signal is seen the loop goes on, unless a tick raises. *)
Lemma main_loop_running :
  forall fuel tick killer results s,
    kill_now killer = false ->
    (forall i, (tick <= i < tick + fuel)%nat -> signals i = false) ->
    let '(r, _, w) := main_loop libs signals fuel tick killer results s in
    dumps w = [] /\
    r = match failure_of (run libs tick fuel s) with
        | Some e => Raise e
        | None => Ok None
        end.
Proof.
  induction fuel as [|fuel IH]; intros tick killer results s Hk Hquiet; simpl.
  - unfold ret. auto.
  - rewrite (Hquiet tick ltac:(lia)), Hk.
    pose proof (getStatus_dumps (libs tick) s) as Hd.
    unfold bind at 1.
    destruct (getStatus (libs tick) s) as [[[smp|e] s1] w1] eqn:E; simpl; [|auto].
    unfold bind, tell. simpl.
    specialize (IH (S tick) killer (results ++ [smp]) s1 Hk
                  ltac:(intros i Hi; apply Hquiet; lia)).
    destruct (main_loop libs signals fuel (S tick) killer (results ++ [smp]) s1)
      as [[r2 s2] w2].
    destruct IH as (Hd2 & ->). rewrite dumps_app, Hd. simpl. auto.
Qed.

End MainConsole.

(** X14.  The program prints every sample once, in tick order, and asks
    for one second of sleep after each: when the loop ends, at the signal or
    with the exception of a tick, what was printed is exactly the samples of
    the ticks that returned, and there is one [sleep(1)] per printed
    sample.  The constructor and the sampler print no sample. *)
Theorem X14_prints_and_sleeps utf8_ignore lib0 libs signals k fuel self w0 :
  GPUInfo__init__ utf8_ignore lib0 GPUInfo_class = (Ok tt, self, w0) ->
  (forall i, (i < k)%nat -> signals i = false) ->
  signals k = true \/ failure_of (run libs 0 k self) <> None ->
  (k < fuel)%nat ->
  let '(_, _, w) := main utf8_ignore lib0 libs signals fuel GPUInfo_class in
  prints w = samples_of (run libs 0 k self) /\
  sleeps w = repeat 1 (List.length (samples_of (run libs 0 k self))).
Proof.
  intros Hinit Hquiet Hend Hfuel.
  pose proof (GPUInfo__init___events utf8_ignore lib0 GPUInfo_class) as Hev0.
  pose proof (main_loop_console libs signals k fuel 0 GracefulKiller_class [] self
                eq_refl ltac:(intros i Hi; apply Hquiet; lia) Hend Hfuel) as Hloop.
  unfold main, GracefulKiller__init__. unfold bind at 1 2 3, tell, ret. simpl.
  unfold bind at 1. rewrite Hinit in *. unfold bind at 1.
  destruct (sampler_events_console _ Hev0) as (Hp0 & Hs0).
  destruct (main_loop libs signals fuel 0 GracefulKiller_class [] self)
    as [[[[final|]|e] s'] w]; destruct Hloop as (Hp & Hs); simpl;
    unfold bind, tell, ret; simpl;
    rewrite ?prints_app, ?sleeps_app, Hp0, Hs0, Hp, Hs; simpl;
    rewrite ?app_nil_r; auto.
Qed.

Lemma X14_prints_and_sleeps_witness :
  let '(_, _, w) := main demo_decode demo_ok demo_libs demo_signals 10 GPUInfo_class in
  map (fun smp => map gpu_utilization (sample_gpus smp)) (prints w)
    = [[30; 50]; [30; 50]; [0; 0]; [0; 0]] /\
  sleeps w = [1; 1; 1; 1].
Proof.
  destruct demo_constructed as (w0 & Hw0).
  pose proof (X14_prints_and_sleeps demo_decode demo_ok demo_libs demo_signals
                4 10 demo_self w0 Hw0) as H.
  assert (Hquiet : forall i, (i < 4)%nat -> demo_signals i = false).
  { intros i Hi. do 4 (destruct i as [|i]; [reflexivity|]). lia. }
  specialize (H Hquiet (or_introl eq_refl) ltac:(lia)).
  destruct (main demo_decode demo_ok demo_libs demo_signals 10 GPUInfo_class)
    as [[r s'] w].
  destruct H as (Hp & Hs). rewrite Hp, Hs. split; vm_compute; reflexivity.
Defined.

(** X15.  Nothing is written before the loop has seen a signal: while no
    signal is delivered the program makes no [json.dump]; it is still
    running when the fuel is spent, or it has ended with the exception of
    the tick that raised. *)
Theorem X15_no_file_before_the_signal utf8_ignore lib0 libs signals fuel self w0 :
  GPUInfo__init__ utf8_ignore lib0 GPUInfo_class = (Ok tt, self, w0) ->
  (forall i, (i < fuel)%nat -> signals i = false) ->
  let '(r, _, w) := main utf8_ignore lib0 libs signals fuel GPUInfo_class in
  dumps w = [] /\
  r = match failure_of (run libs 0 fuel self) with
      | Some e => Raise e
      | None => Ok None
      end.
Proof.
  intros Hinit Hquiet.
  pose proof (GPUInfo__init___dumps utf8_ignore lib0 GPUInfo_class) as Hd0.
  pose proof (main_loop_running libs signals fuel 0 GracefulKiller_class [] self
                eq_refl ltac:(intros i Hi; apply Hquiet; lia)) as Hloop.
  unfold main, GracefulKiller__init__. unfold bind at 1 2 3, tell, ret. simpl.
  unfold bind at 1. rewrite Hinit in *. unfold bind at 1.
  destruct (main_loop libs signals fuel 0 GracefulKiller_class [] self)
    as [[r s'] w].
  destruct Hloop as (Hd & ->).
  destruct (failure_of (run libs 0 fuel self)) as [e|]; simpl;
    rewrite ?dumps_app, Hd0, Hd; auto.
Qed.

Lemma X15_no_file_before_the_signal_witness :
  let '(r, _, w) := main demo_decode demo_ok demo_libs (fun _ => false) 6 GPUInfo_class in
  dumps w = [] /\ r = Ok None /\ List.length (prints w) = 6%nat.
Proof.
  destruct demo_constructed as (w0 & Hw0).
  pose proof (X15_no_file_before_the_signal demo_decode demo_ok demo_libs
                (fun _ => false) 6 demo_self w0 Hw0 ltac:(reflexivity)) as H.
  destruct (main demo_decode demo_ok demo_libs (fun _ => false) 6 GPUInfo_class)
    as [[r s'] w] eqn:E.
  destruct H as (Hd & Hr). split; [exact Hd|]. split; [rewrite Hr; vm_compute; reflexivity|].
  vm_compute in E. inversion E. reflexivity.
Defined.

(** * More of the constructor *)

Lemma run_idle_events libs :
  forall n t0 s,
    pynvmlLoaded s && cuda s = false -> events_of (run libs t0 n s) = [].
Proof.
  induction n as [|n IH]; intros t0 s Hidle; [reflexivity|].
  simpl. rewrite (getStatus_idle _ _ Hidle). unfold events_of in *. simpl.
  apply IH. exact Hidle.
Qed.

(** X1.  When the library loads but the device count is not positive, the
    constructor returns after two library calls, [nvmlInit] and one count,
    records no device and leaves [cuda] off; every tick then returns the
    record without entries, leaves the object as it is and emits nothing:
    the library is not called again. *)
Theorem X1_no_device_is_idle utf8_ignore lib0 c0 :
  nvmlInit lib0 = Ok tt ->
  nvmlDeviceGetCount lib0 0%nat = Ok c0 -> c0 <= 0 ->
  exists self w,
    GPUInfo__init__ utf8_ignore lib0 GPUInfo_class = (Ok tt, self, w) /\
    calls w = [CInit; CDeviceGetCount] /\
    cuda self = false /\ gpus self = [] /\
    forall libs n t,
      (t < n)%nat ->
      nth_error (run libs 0 n self) t =
      Some {| outcome := Ok {| device_type := ""; sample_gpus := [] |};
              after := self; emitted := [] |}.
Proof.
  intros Hinit Hc0 Hle.
  assert (Hlt : (0 <? c0) = false) by (apply Z.ltb_ge; exact Hle).
  exists (set_pynvmlLoaded true GPUInfo_class). eexists. split; [|split; [|split; [|split]]].
  - unfold GPUInfo__init__, try_except, and_then, libcall, logger, bind, gets,
      lift, tell, modify, ret.
    rewrite Hinit, Hc0. simpl. rewrite Hlt. reflexivity.
  - reflexivity.
  - reflexivity.
  - reflexivity.
  - intros libs n t Ht. apply run_idle; [reflexivity|exact Ht].
Qed.

Lemma X1_no_device_is_idle_witness :
  exists self w,
    GPUInfo__init__ demo_decode
      {| nvmlInit := Ok tt;
         nvmlDeviceGetCount := fun _ => Ok 0;
         nvmlDeviceGetHandleByIndex := nvmlDeviceGetHandleByIndex demo_ok;
         nvmlDeviceGetName := nvmlDeviceGetName demo_ok;
         nvmlSystemGetDriverVersion := Ok "535.104";
         nvmlDeviceGetUtilizationRates := nvmlDeviceGetUtilizationRates demo_ok;
         nvmlDeviceGetMemoryInfo := nvmlDeviceGetMemoryInfo demo_ok;
         nvmlDeviceGetTemperature := nvmlDeviceGetTemperature demo_ok |}
      GPUInfo_class = (Ok tt, self, w) /\
    calls w = [CInit; CDeviceGetCount] /\
    cuda self = false /\ gpus self = [] /\
    forall libs n t,
      (t < n)%nat ->
      nth_error (run libs 0 n self) t =
      Some {| outcome := Ok {| device_type := ""; sample_gpus := [] |};
              after := self; emitted := [] |}.
Proof.
  apply (X1_no_device_is_idle demo_decode _ 0); [reflexivity|reflexivity|lia].
Defined.

(** X2.  After an [nvmlInit] that failed with [NVMLError] the library is
    never called again: the constructor makes that one call, logs the error
    and the warning, and no tick of any execution makes a call. *)
Theorem X2_failed_init_ends_the_calls utf8_ignore lib0 e :
  nvmlInit lib0 = Raise e -> exn_cls e = NVMLError ->
  exists self,
    GPUInfo__init__ utf8_ignore lib0 GPUInfo_class =
      (Ok tt, self,
       [ECall CInit;
        ELog ERROR "Could not init pynvml. %s" [AExn e];
        ELog WARNING "No GPU with CUDA detected." []]) /\
    forall libs n, calls (events_of (run libs 0 n self)) = [].
Proof.
  intros Hinit Hcls. exists (set_pynvmlLoaded false GPUInfo_class). split.
  - unfold GPUInfo__init__, try_except, and_then, libcall, logger, bind, gets,
      lift, tell, modify, ret, isinstance.
    rewrite Hinit, Hcls. reflexivity.
  - intros libs n. rewrite run_idle_events; reflexivity.
Qed.

Lemma X2_failed_init_ends_the_calls_witness :
  exists self,
    fst (GPUInfo__init__ demo_decode demo_no_driver GPUInfo_class) = (Ok tt, self) /\
    forall libs n, calls (events_of (run libs 0 n self)) = [].
Proof.
  destruct (X2_failed_init_ends_the_calls demo_decode demo_no_driver
              {| exn_cls := NVMLError; exn_str := "Driver Not Loaded" |}
              eq_refl eq_refl) as (self & Hinit & Hcalls).
  exists self. split; [rewrite Hinit; reflexivity|exact Hcalls].
Defined.

(** X3.  Only [NVMLError] is caught around [nvmlInit]: an exception of
    another class escapes the constructor, and the program ends with it
    right after installing the signal handlers, with nothing logged, no
    tick run and no file written. *)
Theorem X3_other_init_errors_escape utf8_ignore lib0 libs signals fuel e :
  nvmlInit lib0 = Raise e -> exn_cls e <> NVMLError ->
  main utf8_ignore lib0 libs signals fuel GPUInfo_class =
    (Raise e, GPUInfo_class,
     [ESignalHandler SIGINT; ESignalHandler SIGTERM; ECall CInit]).
Proof.
  intros Hinit Hcls.
  assert (Hno : isinstance e NVMLError = false).
  { unfold isinstance. destruct (exn_cls e); try reflexivity. contradiction Hcls.
    reflexivity. }
  unfold main, GracefulKiller__init__, GPUInfo__init__, try_except, and_then,
    libcall, logger, bind, gets, lift, tell, modify, ret.
  rewrite Hinit, Hno. reflexivity.
Qed.

Lemma X3_other_init_errors_escape_witness :
  main demo_decode
    (demo_lib (Raise {| exn_cls := OtherException; exn_str := "libnvidia-ml.so" |})
              (Ok 30) (Ok {| total := 16; used := 4 |}))
    demo_libs demo_signals 10 GPUInfo_class =
  (Raise {| exn_cls := OtherException; exn_str := "libnvidia-ml.so" |}, GPUInfo_class,
   [ESignalHandler SIGINT; ESignalHandler SIGTERM; ECall CInit]).
Proof.
  apply X3_other_init_errors_escape; [reflexivity|discriminate].
Defined.

(** X4.  The device count is read outside any [try]: when the library is
    loaded and either read of the count raises, the constructor raises that
    exception, having recorded no device. *)
Theorem X4_count_failure_escapes utf8_ignore lib s e :
  nvmlInit lib = Ok tt ->
  nvmlDeviceGetCount lib 0%nat = Raise e \/
  (exists c0, nvmlDeviceGetCount lib 0%nat = Ok c0 /\ 0 < c0 /\
              nvmlDeviceGetCount lib 1%nat = Raise e) ->
  exists w,
    GPUInfo__init__ utf8_ignore lib s = (Raise e, set_pynvmlLoaded true s, w).
Proof.
  intros Hinit [Hc0|(c0 & Hc0 & Hpos & Hc1)]; eexists.
  - unfold GPUInfo__init__, try_except, and_then, libcall, logger, bind, gets,
      lift, tell, modify, ret.
    rewrite Hinit, Hc0. reflexivity.
  - apply Z.ltb_lt in Hpos.
    unfold GPUInfo__init__, try_except, and_then, libcall, logger, bind, gets,
      lift, tell, modify, ret.
    rewrite Hinit, Hc0. simpl. rewrite Hpos, Hc1. reflexivity.
Qed.

Lemma X4_count_failure_escapes_witness :
  exists w,
    GPUInfo__init__ demo_decode
      {| nvmlInit := Ok tt;
         nvmlDeviceGetCount := fun k => match k with
                                        | O => Ok 2
                                        | S _ => Raise unknown_error
                                        end;
         nvmlDeviceGetHandleByIndex := nvmlDeviceGetHandleByIndex demo_ok;
         nvmlDeviceGetName := nvmlDeviceGetName demo_ok;
         nvmlSystemGetDriverVersion := Ok "535.104";
         nvmlDeviceGetUtilizationRates := nvmlDeviceGetUtilizationRates demo_ok;
         nvmlDeviceGetMemoryInfo := nvmlDeviceGetMemoryInfo demo_ok;
         nvmlDeviceGetTemperature := nvmlDeviceGetTemperature demo_ok |}
      GPUInfo_class = (Raise unknown_error, set_pynvmlLoaded true GPUInfo_class, w).
Proof.
  apply X4_count_failure_escapes; [reflexivity|].
  right. exists 2. repeat split.
Defined.

Lemma enum_failure_none utf8_ignore lib i :
  enum_failure utf8_ignore lib i = None ->
  exists h nm, nvmlDeviceGetHandleByIndex lib i = Ok h /\
               gpu_name utf8_ignore lib h = Ok nm.
Proof.
  unfold enum_failure.
  destruct (nvmlDeviceGetHandleByIndex lib i) as [h|e]; [|discriminate].
  destruct (gpu_name utf8_ignore lib h) as [nm|e] eqn:Hn; [|discriminate].
  intros _. exists h, nm. split; [reflexivity|exact Hn].
Qed.

Lemma enumerated_indices utf8_ignore lib idxs ds :
  Forall2 (enumerated utf8_ignore lib) idxs ds -> map index ds = idxs.
Proof.
  induction 1 as [|i d l l' (Hi & _) _ IH]; [reflexivity|].
  simpl. now rewrite Hi, IH.
Qed.

(** X5.  The driver version is read for a log line only, but outside any
    [try]: when everything else succeeded and that read raises, the
    constructor raises, although every device has been recorded and [cuda]
    is already on. *)
Theorem X5_driver_version_failure_escapes utf8_ignore lib c0 n e :
  nvmlInit lib = Ok tt ->
  nvmlDeviceGetCount lib 0%nat = Ok c0 -> 0 < c0 ->
  nvmlDeviceGetCount lib 1%nat = Ok n ->
  (forall i, 0 <= i < n -> enum_failure utf8_ignore lib i = None) ->
  nvmlSystemGetDriverVersion lib = Raise e ->
  exists s' w,
    GPUInfo__init__ utf8_ignore lib GPUInfo_class = (Raise e, s', w) /\
    cuda s' = true /\ cudaDevicesFound s' = n /\ map index (gpus s') = range n.
Proof.
  intros Hinit Hc0 Hpos Hc1 Hnone Hver. apply Z.ltb_lt in Hpos.
  destruct (GPUInfo__init__ utf8_ignore lib GPUInfo_class) as [[r s'] w] eqn:E.
  revert E.
  unfold GPUInfo__init__, try_except, and_then, libcall, logger, bind, gets,
    lift, tell, modify, ret.
  rewrite Hinit, Hc0, Hc1, Hver. simpl. rewrite Hpos.
  destruct (for_in (range n) _ tt _) as [[r1 s1] w1] eqn:Eloop.
  pose proof (enumerate_loop_returns utf8_ignore lib n _ _ _ _
                ltac:(intros i Hi; apply enum_failure_none; auto) Eloop) as Hr1.
  subst r1. apply enumerate_loop_spec in Eloop. simpl in Eloop.
  destruct Eloop as (_ & _ & Hfound & ds & (Hgpus & _) & Hall).
  simpl in Hgpus.
  intros H. injection H as Hr Hs' _. subst r s'. exists (set_cuda true s1). eexists.
  split; [reflexivity|]. simpl. split; [reflexivity|]. split; [exact Hfound|].
  rewrite Hgpus. apply (enumerated_indices utf8_ignore lib). apply Hall. reflexivity.
Qed.

Lemma X5_driver_version_failure_escapes_witness :
  exists s' w,
    GPUInfo__init__ demo_decode
      {| nvmlInit := Ok tt;
         nvmlDeviceGetCount := nvmlDeviceGetCount demo_ok;
         nvmlDeviceGetHandleByIndex := nvmlDeviceGetHandleByIndex demo_ok;
         nvmlDeviceGetName := nvmlDeviceGetName demo_ok;
         nvmlSystemGetDriverVersion := Raise unknown_error;
         nvmlDeviceGetUtilizationRates := nvmlDeviceGetUtilizationRates demo_ok;
         nvmlDeviceGetMemoryInfo := nvmlDeviceGetMemoryInfo demo_ok;
         nvmlDeviceGetTemperature := nvmlDeviceGetTemperature demo_ok |}
      GPUInfo_class = (Raise unknown_error, s', w) /\
    cuda s' = true /\ cudaDevicesFound s' = 2 /\ map index (gpus s') = range 2.
Proof.
  apply (X5_driver_version_failure_escapes demo_decode _ 2 2 unknown_error);
    try reflexivity.
  intros i Hi. assert (Hc : i = 0 \/ i = 1) by lia.
  destruct Hc as [->| ->]; reflexivity.
Defined.

(** X6.  Unlike a decoding failure, any other failure while enumerating
    ends the constructor: it raises the exception of the first device whose
    handle lookup raises or whose name query raises something other than
    [UnicodeDecodeError]; the devices before that one stay in the class-level
    list and [cuda] stays off. *)
Theorem X6_enumeration_stops_at_first_failure utf8_ignore lib c0 n d e :
  nvmlInit lib = Ok tt ->
  nvmlDeviceGetCount lib 0%nat = Ok c0 -> 0 < c0 ->
  nvmlDeviceGetCount lib 1%nat = Ok n ->
  0 <= d < n ->
  (forall i, 0 <= i < d -> enum_failure utf8_ignore lib i = None) ->
  enum_failure utf8_ignore lib d = Some e ->
  exists s' w,
    GPUInfo__init__ utf8_ignore lib GPUInfo_class = (Raise e, s', w) /\
    cuda s' = false /\ map index (gpus s') = range d.
Proof.
  intros Hinit Hc0 Hpos Hc1 Hd Hnone Hfail. apply Z.ltb_lt in Hpos.
  destruct (GPUInfo__init__ utf8_ignore lib GPUInfo_class) as [[r s'] w] eqn:E.
  revert E.
  unfold GPUInfo__init__, try_except, and_then, libcall, logger, bind, gets,
    lift, tell, modify, ret.
  rewrite Hinit, Hc0, Hc1. simpl. rewrite Hpos.
  set (s0 := set_cudaDevicesFound n (set_pynvmlLoaded true GPUInfo_class)).
  destruct (for_in (range n) _ tt s0) as [[r1 s1] w1] eqn:Eloop.
  set (I := fun (done : list Z) (s' : GPUInfo) =>
              cuda s' = false /\ map index (gpus s') = done).
  pose proof (for_in_rule (enumerate_device utf8_ignore lib)
                (fun done _ s' _ => I done s' /\ ~ In d done)
                (fun e' s' _ => e' = e /\ I (range d) s')
                (range n)) as R.
  cbv beta in R.
  assert (H : match r1 with
              | Ok _ => I (range n) s1 /\ ~ In d (range n)
              | Raise e' => e' = e /\ I (range d) s1
              end).
  { refine (R _ tt s0 _ _ _ _ Eloop); [|split; [split; reflexivity|intros []]].
    intros done x rest [] s2 w2 r2 s2' w2' Hxs ((Hcuda & Hidx) & Hnot) Hx.
    destruct (range_split _ _ _ _ Hxs) as (_ & Hrange & Hdone).
    assert (Hle : x <= d).
    { destruct (Z_le_gt_dec x d) as [Hle|Hgt]; [exact Hle|].
      exfalso. apply Hnot. rewrite Hdone. apply in_range. lia. }
    pose proof (enumerate_device_spec utf8_ignore lib x tt s2) as Hspec.
    rewrite Hx in Hspec.
    destruct (Z.eq_dec x d) as [->|Hne].
    - unfold enum_failure in Hfail.
      destruct (nvmlDeviceGetHandleByIndex lib d) as [h|e'].
      + destruct (gpu_name utf8_ignore lib h) as [nm|e']; [discriminate|].
        destruct Hspec as (-> & ->). split; [congruence|].
        split; [exact Hcuda|]. rewrite Hidx. exact Hdone.
      + destruct Hspec as (-> & ->). split; [congruence|].
        split; [exact Hcuda|]. rewrite Hidx. exact Hdone.
    - destruct (enum_failure_none utf8_ignore lib x (Hnone x ltac:(lia)))
        as (h & nm & Hh & Hn).
      rewrite Hh, Hn in Hspec. destruct Hspec as (-> & ->).
      split; [split|].
      + exact Hcuda.
      + simpl. rewrite map_app, Hidx. reflexivity.
      + intros Hin. apply in_app_or in Hin. destruct Hin as [Hin|[Heq|[]]]; auto. }
  destruct r1 as [[]|e'].
  - exfalso. apply (proj2 H). apply in_range. exact Hd.
  - destruct H as (-> & Hcuda & Hidx).
    intros H. injection H as Hr Hs' _. subst r s'. eauto.
Qed.

Lemma X6_enumeration_stops_at_first_failure_witness :
  exists s' w,
    GPUInfo__init__ demo_decode
      {| nvmlInit := Ok tt;
         nvmlDeviceGetCount := nvmlDeviceGetCount demo_ok;
         nvmlDeviceGetHandleByIndex := nvmlDeviceGetHandleByIndex demo_ok;
         nvmlDeviceGetName := fun h =>
           if h =? 100 then Ok (NameBytes nil) else Raise unknown_error;
         nvmlSystemGetDriverVersion := Ok "535.104";
         nvmlDeviceGetUtilizationRates := nvmlDeviceGetUtilizationRates demo_ok;
         nvmlDeviceGetMemoryInfo := nvmlDeviceGetMemoryInfo demo_ok;
         nvmlDeviceGetTemperature := nvmlDeviceGetTemperature demo_ok |}
      GPUInfo_class = (Raise unknown_error, s', w) /\
    cuda s' = false /\ map index (gpus s') = range 1.
Proof.
  apply (X6_enumeration_stops_at_first_failure demo_decode _ 2 2 1 unknown_error);
    try reflexivity.
  - lia.
  - intros i Hi. assert (i = 0) by lia. subst i. reflexivity.
Defined.

(** The constructor on an object whose scalars are those of the class body
    and whose lists may already hold devices. *)
Lemma constructed_from_shared utf8_ignore lib s s' w :
  well_formed s -> cudaDevicesFound s = 0 ->
  GPUInfo__init__ utf8_ignore lib s = (Ok tt, s', w) ->
  well_formed s' /\
  (exists ds, gpus s' = gpus s ++ ds /\ map index ds = range (cudaDevicesFound s')) /\
  (sampling s' \/ cudaDevicesFound s' = 0).
Proof.
  intros (Hv & Hlu & Hlv & Hlt & Hau & Hav & Hat) Hzero E.
  pose proof (GPUInfo__init___spec utf8_ignore lib s) as H. rewrite E in H.
  destruct H as (ds & (H1 & H2 & H3 & H4 & H5 & H6 & H7) & Hok).
  assert (Hds : List.length ds = Z.to_nat (cudaDevicesFound s') /\
                map index ds = range (cudaDevicesFound s') /\
                (sampling s' \/ cudaDevicesFound s' = 0)).
  { destruct (Hok eq_refl) as [(Hs & Hall)|(-> & _ & Hn)].
    - split; [|split; [|left; exact Hs]].
      + apply Forall2_length in Hall. rewrite <- Hall. unfold range.
        now rewrite length_map, length_seq.
      + exact (enumerated_indices _ _ _ _ Hall).
    - rewrite Hn, Hzero. simpl. auto. }
  destruct Hds as (Hlen & Hidx & Hs).
  assert (Htrue : forall l k, Forall (eq true) l -> Forall (eq true) (l ++ repeat true k)).
  { intros l k Hl. apply Forall_app. split; [exact Hl|].
    apply Forall_forall. intros b Hb. apply repeat_spec in Hb. congruence. }
  split; [|split; [exists ds; auto|exact Hs]].
  unfold well_formed. rewrite H2, H3, H4, H6, !length_app, !repeat_length, Hlen.
  repeat split; try lia; auto.
Qed.

(** X7.  The four lists are class-level: a second [GPUInfo()] in the same
    process appends to the lists the first one filled, so that [gpus] holds
    the devices of the first enumeration followed by those of the second,
    while the second object's device count, and the number of entries of
    every sample it returns, is that of the second enumeration alone. *)
Theorem X7_lists_are_shared_between_instances utf8_ignore lib1 lib2 s1 w1 s2 w2 :
  GPUInfo__init__ utf8_ignore lib1 GPUInfo_class = (Ok tt, s1, w1) ->
  GPUInfo__init__ utf8_ignore lib2 (fresh_instance s1) = (Ok tt, s2, w2) ->
  map index (gpus s2) = range (cudaDevicesFound s1) ++ range (cudaDevicesFound s2) /\
  forall lib smp s' w,
    getStatus lib s2 = (Ok smp, s', w) ->
    List.length (sample_gpus smp) = Z.to_nat (cudaDevicesFound s2).
Proof.
  intros E1 E2.
  destruct (constructed_well_formed _ _ _ _ E1) as (Hwf1 & _ & Hidx1 & _).
  assert (Hwf : well_formed (fresh_instance s1)).
  { destruct Hwf1 as (_ & _ & _ & _ & Hau & Hav & Hat).
    unfold well_formed. simpl. repeat split; try lia; assumption. }
  destruct (constructed_from_shared _ _ _ _ _ Hwf eq_refl E2)
    as (Hwf2 & (ds & Hgpus & Hidx2) & Hs2).
  split.
  - rewrite Hgpus, map_app, Hidx2. simpl. now rewrite Hidx1.
  - intros lib smp s' w Hget.
    destruct (pynvmlLoaded s2 && cuda s2) eqn:Hen.
    + apply andb_true_iff in Hen.
      pose proof (getStatus_entries lib s2 Hwf2 Hen) as Hent. rewrite Hget in Hent.
      destruct (Hent smp eq_refl) as (Hall & _).
      apply Forall2_length in Hall. rewrite <- Hall. unfold range.
      now rewrite length_map, length_seq.
    + rewrite (getStatus_idle _ _ Hen) in Hget. inversion Hget; subst. simpl.
      destruct Hs2 as [(Hl & Hc)|Hz]; [|now rewrite Hz].
      rewrite Hl, Hc in Hen. discriminate.
Qed.

Lemma X7_lists_are_shared_between_instances_witness :
  exists s2 w2,
    GPUInfo__init__ demo_decode demo_ok (fresh_instance demo_self) = (Ok tt, s2, w2) /\
    map index (gpus s2) = [0; 1; 0; 1] /\
    cudaDevicesFound s2 = 2 /\
    forall lib smp s' w,
      getStatus lib s2 = (Ok smp, s', w) -> List.length (sample_gpus smp) = 2%nat.
Proof.
  destruct demo_constructed as (w1 & E1).
  destruct (GPUInfo__init__ demo_decode demo_ok (fresh_instance demo_self))
    as [[r s2] w2] eqn:E2.
  assert (Hr : r = Ok tt /\ cudaDevicesFound s2 = 2).
  { vm_compute in E2. inversion E2. split; reflexivity. }
  destruct Hr as (-> & Hn). exists s2, w2. split; [reflexivity|].
  pose proof (X7_lists_are_shared_between_instances demo_decode demo_ok demo_ok
                demo_self w1 s2 w2 E1 E2) as (Hidx & Hlen).
  rewrite Hn in *. split; [exact Hidx|]. split; [reflexivity|exact Hlen].
Defined.

(** * The log lines of a utilization failure *)

Lemma getStatus_device_util_logs lib i acc s :
  let '(_, _, w) := getStatus_device lib i acc s in
  (In battery_hint w ->
   exists h e, In h (util_calls w) /\
               nvmlDeviceGetUtilizationRates lib h = Raise e /\
               exn_str e = "Unknown Error") /\
  (forall e, In (utilization_error e) w ->
   exists h, In h (util_calls w) /\
             nvmlDeviceGetUtilizationRates lib h = Raise e /\
             exn_str e <> "Unknown Error").
Proof.
  unfold battery_hint, utilization_error. unfold_device. case_split.
  all: simpl; split; [intros Hin|intros e' Hin].
  all: repeat match goal with
         | H : _ \/ _ |- _ => destruct H as [H|H]
         | H : False |- _ => contradiction H
         end; try discriminate.
  all: try match goal with
         | H : ELog _ _ _ = ELog _ _ _ |- _ => inversion H; subst; clear H
         end.
  all: try match goal with
         | H : (_ =? _)%string = true |- _ => apply String.eqb_eq in H
         | H : (_ =? _)%string = false |- _ => apply String.eqb_neq in H
         end.
  all: try (eexists; eexists; split; [left; reflexivity|]; split; eassumption).
  all: try (eexists; split; [left; reflexivity|]; split; eassumption).
Qed.

(** X16.  The error lines of a utilization failure are truthful: whenever
    a tick logs the battery hint, a utilization query of that tick raised
    an exception whose [str] is ["Unknown Error"]; whenever it logs the
    generic line with an exception, a utilization query of that tick raised
    that exception and its [str] is something else. *)
Theorem X16_utilization_errors_have_a_cause lib s :
  let '(_, _, w) := getStatus lib s in
  (In battery_hint w ->
   exists h e, In h (util_calls w) /\
               nvmlDeviceGetUtilizationRates lib h = Raise e /\
               exn_str e = "Unknown Error") /\
  (forall e, In (utilization_error e) w ->
   exists h, In h (util_calls w) /\
             nvmlDeviceGetUtilizationRates lib h = Raise e /\
             exn_str e <> "Unknown Error").
Proof.
  rewrite getStatus_eq.
  destruct (pynvmlLoaded s && cuda s); [|split; [intros []|intros e []]].
  destruct (sample_loop lib s) as [[r s'] w] eqn:E. unfold sample_loop in E.
  set (I := fun (w : list event) =>
              (In battery_hint w ->
               exists h e, In h (util_calls w) /\
                           nvmlDeviceGetUtilizationRates lib h = Raise e /\
                           exn_str e = "Unknown Error") /\
              (forall e, In (utilization_error e) w ->
               exists h, In h (util_calls w) /\
                         nvmlDeviceGetUtilizationRates lib h = Raise e /\
                         exn_str e <> "Unknown Error")).
  pose proof (for_in_rule (getStatus_device lib)
                (fun _ _ _ w => I w) (fun _ _ w => I w)
                (range (cudaDevicesFound s))) as R.
  cbv beta in R.
  assert (H : match r with Ok _ => I w | Raise _ => I w end).
  { eapply R; [|split; [intros []|intros e []]|exact E].
    intros done x rest acc s1 w1 r1 s1' w1' _ (Hb & Hg) Hx.
    pose proof (getStatus_device_util_logs lib x acc s1) as Hdev.
    rewrite Hx in Hdev. destruct Hdev as (Hb1 & Hg1).
    assert (HI : I (w1 ++ w1')).
    { split.
      - intros Hin. apply in_app_or in Hin.
        destruct Hin as [Hin|Hin];
          [destruct (Hb Hin) as (h & e & Hh & He)|destruct (Hb1 Hin) as (h & e & Hh & He)];
          exists h, e; (split; [|exact He]);
          rewrite util_calls_app; apply in_or_app; auto.
      - intros e Hin. apply in_app_or in Hin.
        destruct Hin as [Hin|Hin];
          [destruct (Hg e Hin) as (h & Hh & He)|destruct (Hg1 e Hin) as (h & Hh & He)];
          exists h; (split; [|exact He]);
          rewrite util_calls_app; apply in_or_app; auto. }
    destruct r1; exact HI. }
  destruct r; exact H.
Qed.

Lemma X16_utilization_errors_have_a_cause_witness :
  let '(_, _, w) := getStatus demo_util_fails demo_self in
  In battery_hint w /\
  exists h e, In h (util_calls w) /\
              nvmlDeviceGetUtilizationRates demo_util_fails h = Raise e /\
              exn_str e = "Unknown Error".
Proof.
  pose proof (X16_utilization_errors_have_a_cause demo_util_fails demo_self) as H.
  destruct (getStatus demo_util_fails demo_self) as [[r s'] w] eqn:E.
  assert (Hin : In battery_hint w).
  { vm_compute in E. inversion E. right. right. left. reflexivity. }
  split; [exact Hin|exact (proj1 H Hin)].
Defined.
